(** * Load-test orchestration engine of [cmd/loadTests.go]

    A shallow embedding of the orchestration core of the load-test
    command: the configuration check of [setup], the three stages that
    [userJourneyThread] runs for one worker thread, the error table kept
    by [logError], and the two aggregation helpers [sumFromArray] and
    [averageDurationFromArray].

    Go's [int], [int64] and [time.Duration] are 64-bit signed integers;
    they are modelled as [Z] with the wrap-around of every arithmetic
    operation written out ([add64], [sub64], [mul64]).  The calls into
    the cluster (user sign-up, namespace wait, resource creation,
    pipeline polling) and the clock are outside the program: they are
    collected in the record [Env], whose fields give the result of every
    such call. *)

From Stdlib Require Import ZArith String Ascii List Lia QArith Permutation.
From Stdlib Require Import DecimalString Decimal DecimalN.
From stdpp Require Import gmap list strings.

Local Open Scope string_scope.
Local Open Scope list_scope.
Local Open Scope Z_scope.

(** ** Machine integers *)

Module Int64.

Definition min_int64 : Z := - 2 ^ 63.
Definition max_int64 : Z := 2 ^ 63 - 1.

Definition in_int64 (z : Z) : Prop := min_int64 <= z <= max_int64.

(** Two's complement reduction of a mathematical integer to [int64]. *)
Definition wrap64 (z : Z) : Z := (z + 2 ^ 63) mod 2 ^ 64 - 2 ^ 63.

Definition add64 (a b : Z) : Z := wrap64 (a + b).
Definition sub64 (a b : Z) : Z := wrap64 (a - b).
Definition mul64 (a b : Z) : Z := wrap64 (a * b).

(** Go's [a % b]: the sign follows the dividend; a zero divisor panics. *)
Definition go_rem (a b : Z) : option Z :=
  if b =? 0 then None else Some (Z.rem a b).

End Int64.

Export Int64.

(** ** [fmt.Sprintf] for the verbs the program uses *)

Module Fmt.

(** Decimal digits of a natural number, most significant first. *)
Definition digits (n : N) : string := NilZero.string_of_uint (N.to_uint n).

Fixpoint zeros (k : nat) : string :=
  match k with
  | O => EmptyString
  | S k' => String "0"%char (zeros k')
  end.

(** Left padding with the digit zero up to [width] characters. *)
Definition pad_zeros (width : nat) (s : string) : string :=
  zeros (width - String.length s) +:+ s.

(** The verb [%04d]: at least four characters, zeros after the sign. *)
Definition fmt_04d (z : Z) : string :=
  if z <? 0
  then String "-"%char (pad_zeros 3 (digits (Z.to_N (- z))))
  else pad_zeros 4 (digits (Z.to_N z)).

(** Reading a string of digits back; leading zeros do not count. *)
Definition read_digits (s : string) : option N :=
  option_map N.of_uint (NilEmpty.uint_of_string s).

End Fmt.

Export Fmt.

(** ** Configuration: the command-line flags *)

Record Config : Type := mkConfig {
  usernamePrefix : string;
  numberOfUsers : Z;
  userBatches : Z;
  threadCount : Z;
  waitPipelines : bool;
  failFast : bool
}.

(** ** Derived names *)

Section Names.
Variable cfg : Config.
Variable threadIndex : Z.

(** [threadIndex*numberOfUsers+userIndex] *)
Definition userNumber (userIndex : Z) : Z :=
  add64 (mul64 threadIndex (numberOfUsers cfg)) userIndex.

(** [fmt.Sprintf("%s-%04d", usernamePrefix, ...)] *)
Definition username (userIndex : Z) : string :=
  usernamePrefix cfg +:+ "-" +:+ fmt_04d (userNumber userIndex).

(** [fmt.Sprintf("%s-tenant", username)], which is also what
    [fmt.Sprintf("%s-%04d-tenant", usernamePrefix, ...)] yields. *)
Definition usernamespace (userIndex : Z) : string :=
  username userIndex +:+ "-tenant".

Definition ApplicationName (userIndex : Z) : string :=
  username userIndex +:+ "-app".

Definition ComponentName (userIndex : Z) : string :=
  username userIndex +:+ "-component".
End Names.

(** ** The error table kept by [logError] *)

Record ErrorOccurrence : Type := mkErrorOccurrence {
  ErrorNumber : Z;
  LatestMessage : string;
  Count : Z
}.

(** [logError(errCode, message)] on the table [errorOccurredMap].  With
    [failFast] set, [klog.Fatalln] ends the process before the table is
    touched: the result is [None]. *)
Definition logError (cfg : Config) (errCode : Z) (message : string)
    (errorOccurredMap : gmap Z ErrorOccurrence)
    : option (gmap Z ErrorOccurrence) :=
  if failFast cfg then None
  else
    match errorOccurredMap !! errCode with
    | Some errorOccurrence =>
        Some (<[errCode :=
                 {| ErrorNumber := ErrorNumber errorOccurrence;
                    LatestMessage := message;
                    Count := add64 (Count errorOccurrence) 1 |}]>
              errorOccurredMap)
    | None =>
        Some (<[errCode :=
                 {| ErrorNumber := errCode;
                    LatestMessage := message;
                    Count := 1 |}]>
              errorOccurredMap)
    end.

(** A sequence of calls, oldest first, each given by its two arguments. *)
Fixpoint logErrors (cfg : Config) (calls : list (Z * string))
    (errorOccurredMap : gmap Z ErrorOccurrence)
    : option (gmap Z ErrorOccurrence) :=
  match calls with
  | [] => Some errorOccurredMap
  | (errCode, message) :: rest =>
      match logError cfg errCode message errorOccurredMap with
      | Some m => logErrors cfg rest m
      | None => None
      end
  end.

(** What the claims about the table speak of: the calls made with one
    code, and the message of the latest of them. *)
Definition calls_with (errCode : Z) (calls : list (Z * string))
    : list (Z * string) :=
  List.filter (fun c => fst c =? errCode) calls.

Definition latest_message (errCode : Z) (calls : list (Z * string))
    : option string :=
  option_map snd (last (calls_with errCode calls)).

(** The table that matches a sequence of calls. *)
Definition table_of (calls : list (Z * string))
    (m : gmap Z ErrorOccurrence) : Prop :=
  forall errCode : Z,
    m !! errCode =
      match latest_message errCode calls with
      | Some message =>
          Some {| ErrorNumber := errCode;
                  LatestMessage := message;
                  Count := Z.of_nat (List.length (calls_with errCode calls)) |}
      | None => None
      end.

(** ** The collaborators *)

(** What [k8swait.Poll] around [GetComponentPipelineRun] ends with: the
    timeout, or the first pipeline run observed with [IsDone()]. *)
Inductive PipelineRunResult : Type :=
| PollTimedOut (err : string)
| RunDone (elapsed : Z) (failure : option (string * string)).
(* [elapsed] is [Status.CompletionTime.Sub(CreationTimestamp.Time)];
   [failure] carries the reason and message of a Succeeded condition
   that is false. *)

(** An error result is [Some] of the text [%v] prints for it, [nil] is
    [None].  [wait_ForNamespace] is asked the same name several times:
    its answer may change from one call to the next, so it also takes the
    number of calls the thread made before. *)
Record Env : Type := mkEnv {
  os_Create : option string;
  framework_NewFramework : option string;
  auth_GetTokenFromOC : option string;
  users_Create : string -> option string;
  wait_ForNamespace : nat -> string -> option string;
  CreateRegistryAuthSecret : string -> string -> option string;
  CreateHasApplication : string -> string -> option string;
  ApplicationGitopsRepoExists : string -> option string;
  CreateComponent : string -> string -> string -> string + string;
  GetComponentPipelineRun : string -> string -> string -> PipelineRunResult;
  (* [time.Since(startTime)] of a thread and user, in nanoseconds *)
  since_UserCreation : Z -> Z -> Z;
  since_ResourceCreation : Z -> Z -> Z;
  (* constants of other packages, as [%s] and [%v] print them *)
  RegistryAuthSecretName : string;
  configuration_DefaultTimeout : string
}.

(** ** One worker thread *)

(** The slots of the global arrays that belong to the thread, what the
    thread has sent on its two channels, and its calls to the outside
    that the claims speak of. *)
Record ThreadState : Type := mkThreadState {
  AverageUserCreationTime : Z;
  AverageResourceCreationTimePerUser : Z;
  AveragePipelineRunTimePerUser : Z;
  FailedUserCreations : Z;
  FailedResourceCreations : Z;
  FailedPipelineRuns : Z;
  chUsers : list Z;
  chPipelines : list Z;
  nsPolled : list string;
  errorCalls : list (Z * string)
}.

Definition initThreadState : ThreadState :=
  mkThreadState 0 0 0 0 0 0 [] [] [] [].

(** How a piece of the thread's code ends. *)
Inductive Result (A : Type) : Type :=
| Ret (a : A) (st : ThreadState)
| Fatal     (* [klog.Fatalln]: the process is gone *)
| Panic     (* a run-time panic *)
| Blocked.  (* a send that can never complete *)

Arguments Ret {A} a st.
Arguments Fatal {A}.
Arguments Panic {A}.
Arguments Blocked {A}.

Definition M (A : Type) : Type := ThreadState -> Result A.

Definition ret {A : Type} (a : A) : M A := fun st => Ret a st.

Definition bind {A B : Type} (m : M A) (k : A -> M B) : M B :=
  fun st =>
    match m st with
    | Ret a st' => k a st'
    | Fatal => Fatal
    | Panic => Panic
    | Blocked => Blocked
    end.

Notation "'let*' x ':=' m 'in' k" := (bind m (fun x => k))
  (at level 10, x name, m at level 100, k at level 200).

(** [for _, x := range items { body }] *)
Fixpoint for_each {A : Type} (items : list A) (body : A -> M unit) : M unit :=
  match items with
  | [] => ret tt
  | x :: rest => let* _ := body x in for_each rest body
  end.

(** [lo, lo+1, ..., hi] *)
Definition from_to (lo hi : Z) : list Z := seqZ lo (hi - lo + 1).

(** A buffered channel that nobody has received from yet: a send
    completes while the buffer has room.  Both channels of a thread are
    treated so, which is the least favourable schedule for the sender. *)
Definition chan_send (capacity : Z) (buffer : list Z) (v : Z)
    : option (list Z) :=
  if Z.of_nat (List.length buffer) <? capacity then Some (buffer ++ [v]) else None.

Definition panic {A : Type} : M A := fun _ => Panic.

Section Thread.
Variable cfg : Config.
Variable env : Env.
Variable threadIndex : Z.

(** The call [logError(errCode, message)], seen from the thread. *)
Definition call_logError (errCode : Z) (message : string) : M unit :=
  fun st =>
    if failFast cfg then Fatal
    else Ret tt
      {| AverageUserCreationTime := AverageUserCreationTime st;
         AverageResourceCreationTimePerUser :=
           AverageResourceCreationTimePerUser st;
         AveragePipelineRunTimePerUser := AveragePipelineRunTimePerUser st;
         FailedUserCreations := FailedUserCreations st;
         FailedResourceCreations := FailedResourceCreations st;
         FailedPipelineRuns := FailedPipelineRuns st;
         chUsers := chUsers st;
         chPipelines := chPipelines st;
         nsPolled := nsPolled st;
         errorCalls := errorCalls st ++ [(errCode, message)] |}.

(** [wait.ForNamespace(_, name)] *)
Definition call_wait_ForNamespace (name : string) : M (option string) :=
  fun st =>
    Ret (wait_ForNamespace env (List.length (nsPolled st)) name)
      {| AverageUserCreationTime := AverageUserCreationTime st;
         AverageResourceCreationTimePerUser :=
           AverageResourceCreationTimePerUser st;
         AveragePipelineRunTimePerUser := AveragePipelineRunTimePerUser st;
         FailedUserCreations := FailedUserCreations st;
         FailedResourceCreations := FailedResourceCreations st;
         FailedPipelineRuns := FailedPipelineRuns st;
         chUsers := chUsers st;
         chPipelines := chPipelines st;
         nsPolled := nsPolled st ++ [name];
         errorCalls := errorCalls st |}.

(** [atomic.StoreInt64(&FailedUserCreations[threadIndex],
    atomic.AddInt64(&FailedUserCreations[threadIndex], 1))] *)
Definition incr_FailedUserCreations : M unit :=
  fun st =>
    Ret tt
      {| AverageUserCreationTime := AverageUserCreationTime st;
         AverageResourceCreationTimePerUser :=
           AverageResourceCreationTimePerUser st;
         AveragePipelineRunTimePerUser := AveragePipelineRunTimePerUser st;
         FailedUserCreations := add64 (FailedUserCreations st) 1;
         FailedResourceCreations := FailedResourceCreations st;
         FailedPipelineRuns := FailedPipelineRuns st;
         chUsers := chUsers st;
         chPipelines := chPipelines st;
         nsPolled := nsPolled st;
         errorCalls := errorCalls st |}.

Definition incr_FailedResourceCreations : M unit :=
  fun st =>
    Ret tt
      {| AverageUserCreationTime := AverageUserCreationTime st;
         AverageResourceCreationTimePerUser :=
           AverageResourceCreationTimePerUser st;
         AveragePipelineRunTimePerUser := AveragePipelineRunTimePerUser st;
         FailedUserCreations := FailedUserCreations st;
         FailedResourceCreations := add64 (FailedResourceCreations st) 1;
         FailedPipelineRuns := FailedPipelineRuns st;
         chUsers := chUsers st;
         chPipelines := chPipelines st;
         nsPolled := nsPolled st;
         errorCalls := errorCalls st |}.

Definition incr_FailedPipelineRuns : M unit :=
  fun st =>
    Ret tt
      {| AverageUserCreationTime := AverageUserCreationTime st;
         AverageResourceCreationTimePerUser :=
           AverageResourceCreationTimePerUser st;
         AveragePipelineRunTimePerUser := AveragePipelineRunTimePerUser st;
         FailedUserCreations := FailedUserCreations st;
         FailedResourceCreations := FailedResourceCreations st;
         FailedPipelineRuns := add64 (FailedPipelineRuns st) 1;
         chUsers := chUsers st;
         chPipelines := chPipelines st;
         nsPolled := nsPolled st;
         errorCalls := errorCalls st |}.

(** [AverageUserCreationTime[threadIndex] += d] *)
Definition add_AverageUserCreationTime (d : Z) : M unit :=
  fun st =>
    Ret tt
      {| AverageUserCreationTime := add64 (AverageUserCreationTime st) d;
         AverageResourceCreationTimePerUser :=
           AverageResourceCreationTimePerUser st;
         AveragePipelineRunTimePerUser := AveragePipelineRunTimePerUser st;
         FailedUserCreations := FailedUserCreations st;
         FailedResourceCreations := FailedResourceCreations st;
         FailedPipelineRuns := FailedPipelineRuns st;
         chUsers := chUsers st;
         chPipelines := chPipelines st;
         nsPolled := nsPolled st;
         errorCalls := errorCalls st |}.

Definition add_AverageResourceCreationTimePerUser (d : Z) : M unit :=
  fun st =>
    Ret tt
      {| AverageUserCreationTime := AverageUserCreationTime st;
         AverageResourceCreationTimePerUser :=
           add64 (AverageResourceCreationTimePerUser st) d;
         AveragePipelineRunTimePerUser := AveragePipelineRunTimePerUser st;
         FailedUserCreations := FailedUserCreations st;
         FailedResourceCreations := FailedResourceCreations st;
         FailedPipelineRuns := FailedPipelineRuns st;
         chUsers := chUsers st;
         chPipelines := chPipelines st;
         nsPolled := nsPolled st;
         errorCalls := errorCalls st |}.

Definition add_AveragePipelineRunTimePerUser (d : Z) : M unit :=
  fun st =>
    Ret tt
      {| AverageUserCreationTime := AverageUserCreationTime st;
         AverageResourceCreationTimePerUser :=
           AverageResourceCreationTimePerUser st;
         AveragePipelineRunTimePerUser :=
           add64 (AveragePipelineRunTimePerUser st) d;
         FailedUserCreations := FailedUserCreations st;
         FailedResourceCreations := FailedResourceCreations st;
         FailedPipelineRuns := FailedPipelineRuns st;
         chUsers := chUsers st;
         chPipelines := chPipelines st;
         nsPolled := nsPolled st;
         errorCalls := errorCalls st |}.

(** [chUsers <- v], on a channel made with capacity [numberOfUsers] *)
Definition send_chUsers (v : Z) : M unit :=
  fun st =>
    match chan_send (numberOfUsers cfg) (chUsers st) v with
    | None => Blocked
    | Some buffer =>
        Ret tt
          {| AverageUserCreationTime := AverageUserCreationTime st;
             AverageResourceCreationTimePerUser :=
               AverageResourceCreationTimePerUser st;
             AveragePipelineRunTimePerUser :=
               AveragePipelineRunTimePerUser st;
             FailedUserCreations := FailedUserCreations st;
             FailedResourceCreations := FailedResourceCreations st;
             FailedPipelineRuns := FailedPipelineRuns st;
             chUsers := buffer;
             chPipelines := chPipelines st;
             nsPolled := nsPolled st;
             errorCalls := errorCalls st |}
    end.

(** [chPipelines <- v], capacity [numberOfUsers] as well *)
Definition send_chPipelines (v : Z) : M unit :=
  fun st =>
    match chan_send (numberOfUsers cfg) (chPipelines st) v with
    | None => Blocked
    | Some buffer =>
        Ret tt
          {| AverageUserCreationTime := AverageUserCreationTime st;
             AverageResourceCreationTimePerUser :=
               AverageResourceCreationTimePerUser st;
             AveragePipelineRunTimePerUser :=
               AveragePipelineRunTimePerUser st;
             FailedUserCreations := FailedUserCreations st;
             FailedResourceCreations := FailedResourceCreations st;
             FailedPipelineRuns := FailedPipelineRuns st;
             chUsers := chUsers st;
             chPipelines := buffer;
             nsPolled := nsPolled st;
             errorCalls := errorCalls st |}
    end.

(** *** Stage 1: the first goroutine *)

(** The loop [for i := userIndex - userBatches + 1; i <= userIndex; i++]
    over the members [i] still to come; [false] stands for
    [continue UserLoop]. *)
Fixpoint waitForCohort (userIndex : Z) (members : list Z) : M bool :=
  match members with
  | [] => ret true
  | i :: rest =>
      let usernamespace := usernamespace cfg threadIndex userIndex in
      let* err := call_wait_ForNamespace usernamespace in
      match err with
      | Some e =>
          let* _ := call_logError 2
            ("Unable to find namespace '" +:+ usernamespace +:+
             "' within " +:+ configuration_DefaultTimeout env +:+
             ": " +:+ e) in
          let* _ := incr_FailedUserCreations in
          ret false
      | None =>
          let* _ := send_chUsers i in
          waitForCohort userIndex rest
      end
  end.

Definition cohort (userIndex : Z) : list Z :=
  from_to (add64 (sub64 userIndex (userBatches cfg)) 1) userIndex.

(** The body of [UserLoop]. *)
Definition UserLoop (userIndex : Z) : M unit :=
  let username := username cfg threadIndex userIndex in
  match users_Create env username with
  | Some e =>
      let* _ := call_logError 1
        ("Unable to provision user '" +:+ username +:+ "': " +:+ e) in
      incr_FailedUserCreations
  | None =>
      match go_rem userIndex (userBatches cfg) with
      | None => panic
      | Some r =>
          let* proceed :=
            (if r =? 0 then waitForCohort userIndex (cohort userIndex)
             else ret true) in
          if proceed : bool
          then add_AverageUserCreationTime
                 (since_UserCreation env threadIndex userIndex)
          else ret tt
      end
  end.

(** [for userIndex := 1; userIndex <= numberOfUsers; userIndex++], for
    a [numberOfUsers] below the largest [int], where the counter does
    not wrap; [close(chUsers)] follows and leaves the state as it is. *)
Definition stageUsers : M unit :=
  for_each (from_to 1 (numberOfUsers cfg)) UserLoop.

(** *** Stage 2: the second goroutine *)

Definition createResources (userIndex : Z) : M unit :=
  let username := username cfg threadIndex userIndex in
  let usernamespace := usernamespace cfg threadIndex userIndex in
  match CreateRegistryAuthSecret env (RegistryAuthSecretName env)
          usernamespace with
  | Some e =>
      let* _ := call_logError 3
        ("Unable to create the secret " +:+ RegistryAuthSecretName env +:+
         " in namespace " +:+ usernamespace +:+ ": " +:+ e) in
      incr_FailedResourceCreations
  | None =>
  let ApplicationName := ApplicationName cfg threadIndex userIndex in
  match CreateHasApplication env ApplicationName usernamespace with
  | Some e =>
      let* _ := call_logError 4
        ("Unable to create the Application " +:+ ApplicationName +:+
         ": " +:+ e) in
      incr_FailedResourceCreations
  | None =>
  match ApplicationGitopsRepoExists env ApplicationName with
  | Some e =>
      let* _ := call_logError 5
        ("Unable to create application " +:+ ApplicationName +:+
         " gitops repo within 1m0s: " +:+ e) in
      incr_FailedResourceCreations
  | None =>
  let ComponentName := ComponentName cfg threadIndex userIndex in
  match CreateComponent env ApplicationName ComponentName usernamespace with
  | inr e =>
      let* _ := call_logError 6
        ("Unable to create the Component " +:+ ComponentName +:+
         ": " +:+ e) in
      incr_FailedResourceCreations
  | inl component_Name =>
      if negb (String.eqb component_Name ComponentName)
      then
        let* _ := call_logError 7
          ("Actual component name (" +:+ component_Name +:+
           ") does not match expected (" +:+ ComponentName +:+
           "): <nil>") in
        incr_FailedResourceCreations
      else
        (* [userIndex%userBatches == 0] guards a loop that only sleeps *)
        match go_rem userIndex (userBatches cfg) with
        | None => panic
        | Some _ =>
            let* _ := add_AverageResourceCreationTimePerUser
                        (since_ResourceCreation env threadIndex userIndex) in
            send_chPipelines userIndex
        end
  end end end end.

(** [for userIndex := range chUsers]: every value stage 1 has sent, in
    the order sent; [close(chPipelines)] follows. *)
Definition stageResources : M unit :=
  fun st => for_each (chUsers st) createResources st.

(** *** Stage 3: the third goroutine, started when [waitPipelines] *)

Definition waitForPipeline (userIndex : Z) : M unit :=
  let usernamespace := usernamespace cfg threadIndex userIndex in
  let ComponentName := ComponentName cfg threadIndex userIndex in
  let ApplicationName := ApplicationName cfg threadIndex userIndex in
  match GetComponentPipelineRun env ComponentName ApplicationName
          usernamespace with
  | RunDone elapsed failure =>
      let* _ := add_AveragePipelineRunTimePerUser elapsed in
      match failure with
      | Some (reason, message) =>
          let* _ := call_logError 8
            ("Pipeline run for " +:+ ApplicationName +:+ "/" +:+
             ComponentName +:+ " failed due to " +:+ reason +:+ ": " +:+
             message) in
          incr_FailedPipelineRuns
      | None => ret tt
      end
  | PollTimedOut e =>
      let* _ := call_logError 9
        ("Pipeline run for " +:+ ApplicationName +:+ "/" +:+
         ComponentName +:+ " failed to succeed within 1h0m0s: " +:+ e) in
      incr_FailedPipelineRuns
  end.

Definition stagePipelines : M unit :=
  fun st => for_each (chPipelines st) waitForPipeline st.

(** *** [userJourneyThread]

    The three goroutines run concurrently, each on variables of its
    own, and meet only in the two channels; a stage reads nothing but
    what the stage before it sent.  What they compute is therefore
    what they compute one after the other.  [make(chan int, n)] panics
    for a negative [n]. *)
Definition userJourneyThread : Result unit :=
  if numberOfUsers cfg <? 0 then Panic
  else
    (let* _ := stageUsers in
     let* _ := stageResources in
     if waitPipelines cfg then stagePipelines else ret tt)
    initThreadState.

End Thread.

(** ** The orchestrator [setup] *)

(** [sumFromArray] *)
Definition sumFromArray (array : list Z) : Z :=
  fold_left (fun sum i => add64 sum i) array 0.

(** [int(i.Seconds())]: the whole seconds of a duration given in
    nanoseconds, rounded towards zero.  ([Seconds] goes through a
    [float64], which is exact far beyond any duration of a run.) *)
Definition whole_seconds (d : Z) : Z := Z.quot d 1000000000.

(** [float64(a) / float64(b)] as a rational; [None] stands for the NaN
    or infinity of a zero divisor. *)
Definition float_div (a b : Z) : option Q :=
  if b =? 0 then None else Some (inject_Z a / inject_Z b)%Q.

(** [averageDurationFromArray] *)
Definition averageDurationFromArray (duration : list Z) (count : Z)
    : option Q :=
  float_div
    (fold_left (fun avg i => add64 avg (whole_seconds i)) duration 0)
    count.

(** The numbers of the final report. *)
Record LogData : Type := mkLogData {
  NumberOfThreads : Z;
  NumberOfUsersPerThread : Z;
  BatchSize : Z;
  NumberOfUsers : Z;
  AverageTimeToSpinUpUsers : option Q;
  AverageTimeToCreateResources : option Q;
  AverageTimeToRunPipelines : option Q;
  UserCreationFailureCount : Z;
  UserCreationFailurePercentage : option Q;
  ResourceCreationFailureCount : Z;
  ResourceCreationFailurePercentage : option Q;
  PipelineRunFailureCount : Z;
  PipelineRunFailurePercentage : option Q
}.

(** What happens up to the loop that starts the threads. *)
Inductive Startup : Type :=
| StartupFatal (message : string)   (* [klog.Fatalf] *)
| StartupPanic                      (* division by zero, negative length *)
| Spawned (threads : list Z).       (* the [threadIndex] of every
                                       [go userJourneyThread(...)] *)

Definition startup (cfg : Config) (env : Env) : Startup :=
  match os_Create env with
  | Some e => StartupFatal ("Error creating log file: " +:+ e)
  | None =>
  match go_rem (numberOfUsers cfg) (userBatches cfg) with
  | None => StartupPanic
  | Some r =>
  if negb (r =? 0) then StartupFatal "Please Provide Correct Batches!"
  else
  match framework_NewFramework env with
  | Some e => StartupFatal ("error creating client-go " +:+ e)
  | None =>
  match auth_GetTokenFromOC env with
  | Some e =>
      StartupFatal
        "a token is required to capture metrics, use oc login to log into the cluster"
  | None =>
  (* [make([]time.Duration, threadCount)] *)
  if threadCount cfg <? 0 then StartupPanic
  else Spawned (from_to 0 (threadCount cfg - 1))
  end end end end.

(** How the process ends. *)
Inductive Outcome : Type :=
| ExitedAtStartup (message : string)
| Panicked
| ExitedFailFast
| Deadlocked
| Completed (report : LogData).

Definition final_state (r : Result unit) : ThreadState :=
  match r with
  | Ret _ st => st
  | _ => initThreadState
  end.

Definition is_Fatal {A : Type} (r : Result A) : bool :=
  match r with Fatal => true | _ => false end.
Definition is_Panic {A : Type} (r : Result A) : bool :=
  match r with Panic => true | _ => false end.
Definition is_Blocked {A : Type} (r : Result A) : bool :=
  match r with Blocked => true | _ => false end.

(** The threads of a run, in the order of their index. *)
Definition threadResults (cfg : Config) (env : Env) (threads : list Z)
    : list (Result unit) :=
  List.map (userJourneyThread cfg env) threads.

(** A global array after [threadsWG.Wait()]: slot [threadIndex] holds
    what thread [threadIndex], its only writer, left there. *)
Definition arrayOf (field : ThreadState -> Z) (results : list (Result unit))
    : list Z :=
  List.map (fun r => field (final_state r)) results.

Definition report (cfg : Config) (results : list (Result unit)) : LogData :=
  let overallCount := mul64 (numberOfUsers cfg) (threadCount cfg) in
  {| NumberOfThreads := threadCount cfg;
     NumberOfUsersPerThread := numberOfUsers cfg;
     BatchSize := userBatches cfg;
     NumberOfUsers := overallCount;
     AverageTimeToSpinUpUsers :=
       averageDurationFromArray
         (arrayOf AverageUserCreationTime results) overallCount;
     AverageTimeToCreateResources :=
       averageDurationFromArray
         (arrayOf AverageResourceCreationTimePerUser results) overallCount;
     AverageTimeToRunPipelines :=
       averageDurationFromArray
         (arrayOf AveragePipelineRunTimePerUser results) overallCount;
     UserCreationFailureCount :=
       sumFromArray (arrayOf FailedUserCreations results);
     UserCreationFailurePercentage :=
       float_div (100 * sumFromArray (arrayOf FailedUserCreations results))
         overallCount;
     ResourceCreationFailureCount :=
       sumFromArray (arrayOf FailedResourceCreations results);
     ResourceCreationFailurePercentage :=
       float_div
         (100 * sumFromArray (arrayOf FailedResourceCreations results))
         overallCount;
     PipelineRunFailureCount :=
       sumFromArray (arrayOf FailedPipelineRuns results);
     PipelineRunFailurePercentage :=
       float_div (100 * sumFromArray (arrayOf FailedPipelineRuns results))
         overallCount |}.

Definition setup (cfg : Config) (env : Env) : Outcome :=
  match startup cfg env with
  | StartupFatal message => ExitedAtStartup message
  | StartupPanic => Panicked
  | Spawned threads =>
      let results := threadResults cfg env threads in
      if existsb is_Panic results then Panicked
      else if existsb is_Fatal results then ExitedFailFast
      else if existsb is_Blocked results then Deadlocked
      else Completed (report cfg results)
  end.

(** The calls to [logError] of all threads of a run.  The threads and
    their stages run concurrently: the order in which the table sees the
    calls is any rearrangement of them. *)
Definition allErrorCalls (results : list (Result unit)) : list (Z * string) :=
  List.concat (List.map (fun r => errorCalls (final_state r)) results).

Definition possibleErrorTable (cfg : Config) (results : list (Result unit))
    (errorOccurredMap : gmap Z ErrorOccurrence) : Prop :=
  exists calls,
    Permutation calls (allErrorCalls results) /\
    logErrors cfg calls ∅ = Some errorOccurredMap.

(** ** Sample collaborators *)

(** A cluster on which every call succeeds, with the given clocks. *)
Definition happyEnv (userTime resourceTime : Z -> Z -> Z) (pipelineTime : Z)
    : Env :=
  {| os_Create := None;
     framework_NewFramework := None;
     auth_GetTokenFromOC := None;
     users_Create := fun _ => None;
     wait_ForNamespace := fun _ _ => None;
     CreateRegistryAuthSecret := fun _ _ => None;
     CreateHasApplication := fun _ _ => None;
     ApplicationGitopsRepoExists := fun _ => None;
     CreateComponent := fun _ ComponentName _ => inl ComponentName;
     GetComponentPipelineRun := fun _ _ _ => RunDone pipelineTime None;
     since_UserCreation := userTime;
     since_ResourceCreation := resourceTime;
     RegistryAuthSecretName := "redhat-appstudio-registry-pull-secret";
     configuration_DefaultTimeout := "1m0s" |}.


(** ** Specifications of pieces of thread code *)

(** Partial correctness: a piece of code that returns from a state in
    [P] returns a value and a state in [Q]. *)
Definition triple {A : Type} (P : ThreadState -> Prop) (m : M A)
    (Q : A -> ThreadState -> Prop) : Prop :=
  forall st, P st -> forall a st', m st = Ret a st' -> Q a st'.

(** Total correctness: from a state in [P] the code does return, neither
    exiting, panicking nor blocking. *)
Definition returns {A : Type} (P : ThreadState -> Prop) (m : M A)
    (Q : A -> ThreadState -> Prop) : Prop :=
  forall st, P st -> exists a st', m st = Ret a st' /\ Q a st'.

(** The fields that stage 1 leaves alone between a user's sign-up and
    the end of the user's round. *)
Definition kept_by_cohort_wait (st st' : ThreadState) : Prop :=
  AverageUserCreationTime st' = AverageUserCreationTime st /\
  AverageResourceCreationTimePerUser st' =
    AverageResourceCreationTimePerUser st /\
  AveragePipelineRunTimePerUser st' = AveragePipelineRunTimePerUser st /\
  FailedResourceCreations st' = FailedResourceCreations st /\
  FailedPipelineRuns st' = FailedPipelineRuns st /\
  chPipelines st' = chPipelines st.

(** The message of error 2 for the namespace polled at [userIndex]. *)
Definition namespace_error (cfg : Config) (env : Env) (threadIndex : Z)
    (userIndex : Z) (e : string) : string :=
  "Unable to find namespace '" +:+ usernamespace cfg threadIndex userIndex +:+
  "' within " +:+ configuration_DefaultTimeout env +:+ ": " +:+ e.

(** The fields of stages 2 and 3, which stage 1 never writes. *)
Definition kept_by_stage1 (st st' : ThreadState) : Prop :=
  AverageResourceCreationTimePerUser st' =
    AverageResourceCreationTimePerUser st /\
  AveragePipelineRunTimePerUser st' = AveragePipelineRunTimePerUser st /\
  FailedResourceCreations st' = FailedResourceCreations st /\
  FailedPipelineRuns st' = FailedPipelineRuns st /\
  chPipelines st' = chPipelines st.

(** The message of error 1 for a user. *)
Definition provision_error (cfg : Config) (threadIndex : Z) (userIndex : Z)
    (e : string) : string :=
  "Unable to provision user '" +:+ username cfg threadIndex userIndex +:+
  "': " +:+ e.

(** One thread, two users, one cohort of two. *)
Definition oneCohortConfig : Config :=
  mkConfig "testuser" 2 2 1 false false.

(** A cluster as [happyEnv], except that the second namespace wait of a
    thread fails. *)
Definition flakyEnv : Env :=
  {| os_Create := None;
     framework_NewFramework := None;
     auth_GetTokenFromOC := None;
     users_Create := fun _ => None;
     wait_ForNamespace := fun call _ =>
       if (call =? 1)%nat then Some "timed out waiting for the condition"
       else None;
     CreateRegistryAuthSecret := fun _ _ => None;
     CreateHasApplication := fun _ _ => None;
     ApplicationGitopsRepoExists := fun _ => None;
     CreateComponent := fun _ ComponentName _ => inl ComponentName;
     GetComponentPipelineRun := fun _ _ _ => RunDone 90000000000 None;
     since_UserCreation := fun _ _ => 100000000;
     since_ResourceCreation := fun _ _ => 3000000000;
     RegistryAuthSecretName := "redhat-appstudio-registry-pull-secret";
     configuration_DefaultTimeout := "1m0s" |}.

(** A cluster on which every call succeeds and takes a while. *)
Definition steadyEnv : Env :=
  happyEnv (fun _ _ => 100000000) (fun _ _ => 3000000000) 90000000000.

(** The calls to [logError] made between two states all carry a code
    between [lo] and [hi]. *)
Definition codes_within (lo hi : Z) (st st' : ThreadState) : Prop :=
  exists extra : list (Z * string),
    errorCalls st' = errorCalls st ++ extra /\
    Forall (fun c => lo <= fst c <= hi) extra.

(** The fields of stages 1 and 3, which stage 2 never writes. *)
Definition kept_by_stage2 (st st' : ThreadState) : Prop :=
  AverageUserCreationTime st' = AverageUserCreationTime st /\
  AveragePipelineRunTimePerUser st' = AveragePipelineRunTimePerUser st /\
  FailedUserCreations st' = FailedUserCreations st /\
  FailedPipelineRuns st' = FailedPipelineRuns st /\
  chUsers st' = chUsers st /\
  nsPolled st' = nsPolled st.

(** The fields of stages 1 and 2, which stage 3 never writes. *)
Definition kept_by_stage3 (st st' : ThreadState) : Prop :=
  AverageUserCreationTime st' = AverageUserCreationTime st /\
  AverageResourceCreationTimePerUser st' =
    AverageResourceCreationTimePerUser st /\
  FailedUserCreations st' = FailedUserCreations st /\
  FailedResourceCreations st' = FailedResourceCreations st /\
  chUsers st' = chUsers st /\
  chPipelines st' = chPipelines st /\
  nsPolled st' = nsPolled st.

(** How many users stage 1 can have sent after the round of user [k]:
    whole cohorts only. *)
Definition forwarded_bound (cfg : Config) (k : Z) : Z :=
  if 0 <? userBatches cfg then userBatches cfg * (k / userBatches cfg) else 0.

Section Stage2Steps.
Variable cfg : Config.
Variable env : Env.
Variable threadIndex : Z.
Variable userIndex : Z.

Let secret : option string :=
  CreateRegistryAuthSecret env (RegistryAuthSecretName env)
    (usernamespace cfg threadIndex userIndex).
Let application : option string :=
  CreateHasApplication env (ApplicationName cfg threadIndex userIndex)
    (usernamespace cfg threadIndex userIndex).
Let gitops : option string :=
  ApplicationGitopsRepoExists env (ApplicationName cfg threadIndex userIndex).
Let component : string + string :=
  CreateComponent env (ApplicationName cfg threadIndex userIndex)
    (ComponentName cfg threadIndex userIndex)
    (usernamespace cfg threadIndex userIndex).

(** The step of stage 2 that fails for a user, by its error code: the
    steps before it have succeeded. *)
Inductive step_fails : Z -> Prop :=
| secret_fails (e : string) :
    secret = Some e -> step_fails 3
| application_fails (e : string) :
    secret = None -> application = Some e -> step_fails 4
| gitops_fails (e : string) :
    secret = None -> application = None -> gitops = Some e ->
    step_fails 5
| component_fails (e : string) :
    secret = None -> application = None -> gitops = None ->
    component = inr e -> step_fails 6
| name_differs (name : string) :
    secret = None -> application = None -> gitops = None ->
    component = inl name ->
    name <> ComponentName cfg threadIndex userIndex ->
    step_fails 7.

(** All five steps succeed. *)
Definition steps_succeed : Prop :=
  secret = None /\ application = None /\ gitops = None /\
  component = inl (ComponentName cfg threadIndex userIndex).
End Stage2Steps.

(** A cluster as [steadyEnv], except that the registry secret of the
    second user of thread 0 cannot be created. *)
Definition secretFailsEnv : Env :=
  {| os_Create := None;
     framework_NewFramework := None;
     auth_GetTokenFromOC := None;
     users_Create := fun _ => None;
     wait_ForNamespace := fun _ _ => None;
     CreateRegistryAuthSecret := fun _ namespace =>
       if String.eqb namespace "testuser-0002-tenant"
       then Some "secrets is forbidden" else None;
     CreateHasApplication := fun _ _ => None;
     ApplicationGitopsRepoExists := fun _ => None;
     CreateComponent := fun _ ComponentName _ => inl ComponentName;
     GetComponentPipelineRun := fun _ _ _ => RunDone 90000000000 None;
     since_UserCreation := fun _ _ => 100000000;
     since_ResourceCreation := fun _ _ => 3000000000;
     RegistryAuthSecretName := "redhat-appstudio-registry-pull-secret";
     configuration_DefaultTimeout := "1m0s" |}.

(** One thread, four users, cohorts of two. *)
Definition fourUsersConfig : Config :=
  mkConfig "testuser" 4 2 1 false false.

(** The process ends in [startup], before any thread is started. *)
Definition ends_before_spawn (s : Startup) : bool :=
  match s with
  | Spawned _ => false
  | _ => true
  end.

(** The collaborators that [setup] calls before the threads start do
    their part. *)
Definition collaborators_ready (env : Env) : Prop :=
  os_Create env = None /\ framework_NewFramework env = None /\
  auth_GetTokenFromOC env = None.

(** How many users the threads of a run have sent from stage 1 to
    stage 2. *)
Definition forwardedCount (results : list (Result unit)) : Z :=
  fold_right Z.add 0
    (List.map (fun r => Z.of_nat (List.length (chUsers (final_state r))))
       results).

(** Nothing fails in stage 1. *)
Definition no_stage1_failure (env : Env) : Prop :=
  (forall name, users_Create env name = None) /\
  (forall call name, wait_ForNamespace env call name = None).

(** A cluster as [steadyEnv], except that the first user of thread 0
    cannot be signed up. *)
Definition firstUserFailsEnv : Env :=
  {| os_Create := None;
     framework_NewFramework := None;
     auth_GetTokenFromOC := None;
     users_Create := fun name =>
       if String.eqb name "testuser-0001"
       then Some "usersignup already exists" else None;
     wait_ForNamespace := fun _ _ => None;
     CreateRegistryAuthSecret := fun _ _ => None;
     CreateHasApplication := fun _ _ => None;
     ApplicationGitopsRepoExists := fun _ => None;
     CreateComponent := fun _ ComponentName _ => inl ComponentName;
     GetComponentPipelineRun := fun _ _ _ => RunDone 90000000000 None;
     since_UserCreation := fun _ _ => 100000000;
     since_ResourceCreation := fun _ _ => 3000000000;
     RegistryAuthSecretName := "redhat-appstudio-registry-pull-secret";
     configuration_DefaultTimeout := "1m0s" |}.

(** ** The scenario of two threads, four users each, cohorts of two *)

Definition scenarioConfig (prefix : string) (failFast : bool) : Config :=
  mkConfig prefix 4 2 2 true failFast.

(** What [GetComponentPipelineRun] reports as the run time of a user's
    pipeline. *)
Definition pipelineElapsed (cfg : Config) (env : Env) (threadIndex : Z)
    (userIndex : Z) : Z :=
  match GetComponentPipelineRun env (ComponentName cfg threadIndex userIndex)
          (ApplicationName cfg threadIndex userIndex)
          (usernamespace cfg threadIndex userIndex) with
  | RunDone elapsed _ => elapsed
  | PollTimedOut _ => 0
  end.

(** Every call to the cluster succeeds. *)
Definition all_succeed (cfg : Config) (env : Env) : Prop :=
  collaborators_ready env /\
  no_stage1_failure env /\
  (forall name namespace, CreateRegistryAuthSecret env name namespace = None) /\
  (forall name namespace, CreateHasApplication env name namespace = None) /\
  (forall name, ApplicationGitopsRepoExists env name = None) /\
  (forall application name namespace,
     CreateComponent env application name namespace = inl name) /\
  (forall name application namespace,
     exists elapsed,
       GetComponentPipelineRun env name application namespace =
         RunDone elapsed None).

(** The four durations of a thread in one stage lie between [lo] and
    [hi] nanoseconds. *)
Definition durations_within (lo hi : Z) (d : Z -> Z -> Z) : Prop :=
  forall threadIndex userIndex, lo <= d threadIndex userIndex <= hi.

(** The time a thread has accumulated over its four users. *)
Definition accumulated (d : Z -> Z -> Z) (threadIndex : Z) : Z :=
  d threadIndex 1 + d threadIndex 2 + d threadIndex 3 + d threadIndex 4.

Definition one_second : Z := 1000000000.

(** The average the report gives for a stage whose threads 0 and 1 have
    accumulated the durations [d]: each thread's total is cut down to
    whole seconds before the division by the eight users. *)
Definition truncated_average (avg : option Q) (d : Z -> Z -> Z) : Prop :=
  exists q : Q,
    avg = Some q /\
    (q == inject_Z (whole_seconds (accumulated d 0) +
                    whole_seconds (accumulated d 1)) / inject_Z 8)%Q /\
    (0 <= q)%Q /\
    ((0 < q)%Q <->
     one_second <= accumulated d 0 \/ one_second <= accumulated d 1).

(** The same flags with [failFast] off. *)
Definition goOn (cfg : Config) : Config :=
  mkConfig (usernamePrefix cfg) (numberOfUsers cfg) (userBatches cfg)
    (threadCount cfg) (waitPipelines cfg) false.

(** A piece of code either ends the process or does what another piece
    does. *)
Definition exits_or_same {A : Type} (m m' : M A) : Prop :=
  forall st, m st = Fatal \/ m st = m' st.

(** ** Further notions for the load test *)

(** The sum of an array in the integers, without wrap-around. *)
Definition exact_sum (array : list Z) : Z := fold_right Z.add 0 array.

(** How many of a list of [logError] calls carry a code between [lo]
    and [hi]. *)
Definition count_codes (lo hi : Z) (calls : list (Z * string)) : Z :=
  Z.of_nat
    (List.length
       (List.filter (fun c => (lo <=? fst c) && (fst c <=? hi)) calls)).

(** An accumulator that has taken in the durations [d] of the users
    [users], one after the other. *)
Definition accumulate (d : Z -> Z) (users : list Z) : Z :=
  fold_left (fun acc u => add64 acc (d u)) users 0.

(** A percentage of the report that is a number between 0 and 100. *)
Definition valid_percentage (p : option Q) : Prop :=
  exists q : Q, p = Some q /\ (0 <= q)%Q /\ (q <= inject_Z 100)%Q.

(** * Task runs of a pipeline run: package [tekton]

    The helpers of [TektonController] that look a task run up among the
    child references of a pipeline run and read its results, its status
    and the logs of its pod.  The clients of the cluster are outside the
    program: a call is a function of its arguments that gives the object
    asked for, or the text of an error. *)

Module Tekton.

(** What the functions of the package return as [error]: an error of
    a client, handed on as it is, or one made with [fmt.Errorf].
    - [TaskDoesNotExist]:
      [task with %s name doesn't exist in %s pipelinerun]
    - [TaskNotFound]: [task %q not found in PipelineRun %q/%q]
    - [ResultNotFound]:
      [result %q not found in TaskRuns of PipelineRun %s/%s]
    - [StatusNotFound]: [TaskRun status for pipeline task name %q not
      found in the status of PipelineRun %s/%s] *)
Inductive Error : Type :=
| ClientError (err : string)
| TaskDoesNotExist (pipelineTaskName pipelineRunName : string)
| TaskNotFound (pipelineTaskName namespace name : string)
| ResultNotFound (result namespace name : string)
| StatusNotFound (pipelineTaskName namespace name : string).

(** [pipeline.TaskRunResult], with [Value.StringVal] *)
Record TaskRunResult : Type := mkTaskRunResult {
  result_Name : string;
  Value_StringVal : string
}.

(** [pipeline.TaskRunStatus] *)
Record TaskRunStatus : Type := mkTaskRunStatus {
  PodName : string;
  Results : list TaskRunResult
}.

Record TaskRun : Type := mkTaskRun {
  Status : TaskRunStatus
}.

(** [pipeline.ChildStatusReference] *)
Record ChildStatusReference : Type := mkChildStatusReference {
  Name : string;
  PipelineTaskName : string
}.

(** [pipeline.PipelineRun], with [Status.ChildReferences] *)
Record PipelineRun : Type := mkPipelineRun {
  pr_Namespace : string;
  pr_Name : string;
  ChildReferences : list ChildStatusReference
}.

Record PipelineRunTaskRunStatus : Type := mkPipelineRunTaskRunStatus {
  status_PipelineTaskName : string;
  status_Status : TaskRunStatus
}.

(** A pod, by the names of [Spec.Containers]. *)
Record Pod : Type := mkPod {
  Containers : list string
}.

(** [crclient.Client]: [Get] of a task run by namespace and name. *)
Definition Client : Type := string -> string -> TaskRun + string.

Record TektonController : Type := mkTektonController {
  (* [t.KubeRest()] *)
  KubeRest : Client;
  (* [t.PipelineClient().TektonV1beta1().PipelineRuns(namespace).Get] *)
  PipelineRuns_Get : string -> string -> PipelineRun + string;
  (* [t.KubeInterface().CoreV1().Pods(namespace).Get] *)
  Pods_Get : string -> string -> Pod + string;
  (* [t.fetchContainerLog(podName, containerName, namespace)] *)
  fetchContainerLog : string -> string -> string -> string + string
}.

(** The line feed that [GetTaskRunResult] trims. *)
Definition newline : string := String (ascii_of_nat 10) EmptyString.

(** [strings.HasSuffix]:
    [len(s) >= len(suffix) && s[len(s)-len(suffix):] == suffix] *)
Definition HasSuffix (s suffix : string) : bool :=
  (String.length suffix <=? String.length s)%nat &&
  String.eqb
    (substring (String.length s - String.length suffix)
       (String.length suffix) s)
    suffix.

(** [strings.TrimSuffix] *)
Definition TrimSuffix (s suffix : string) : string :=
  if HasSuffix s suffix
  then substring 0 (String.length s - String.length suffix) s
  else s.

(** The loop of [GetTaskRunLogs] over the child references: the pod
    name of the first task run of the pipeline task, or the empty
    string it starts from. *)
Fixpoint podNameOf (t : TektonController) (namespace : string)
    (pipelineTaskName : string) (refs : list ChildStatusReference)
    : string + Error :=
  match refs with
  | [] => inl EmptyString
  | childStatusReference :: rest =>
      if String.eqb (PipelineTaskName childStatusReference) pipelineTaskName
      then
        match KubeRest t namespace (Name childStatusReference) with
        | inr err => inr (ClientError err)
        | inl taskRun => inl (PodName (Status taskRun))
        end
      else podNameOf t namespace pipelineTaskName rest
  end.

(** The loop over [pod.Spec.Containers]. *)
Definition logsOf (t : TektonController) (podName namespace : string)
    (containers : list string) : gmap string string :=
  fold_left
    (fun logs containerName =>
       match fetchContainerLog t podName containerName namespace with
       | inl containerLogs => <[containerName := containerLogs]> logs
       | inr _ => <[containerName := "failed to get logs"]> logs
       end)
    containers ∅.

Definition GetTaskRunLogs (t : TektonController)
    (pipelineRunName pipelineTaskName namespace : string)
    : gmap string string + Error :=
  match PipelineRuns_Get t namespace pipelineRunName with
  | inr err => inr (ClientError err)
  | inl pipelineRun =>
      match podNameOf t (pr_Namespace pipelineRun) pipelineTaskName
              (ChildReferences pipelineRun) with
      | inr err => inr err
      | inl podName =>
          if String.eqb podName EmptyString
          then inr (TaskDoesNotExist pipelineTaskName pipelineRunName)
          else
            match Pods_Get t namespace podName with
            | inr err => inr (ClientError err)
            | inl pod =>
                inl (logsOf t podName namespace (Containers pod))
            end
      end
  end.

(** The loop of [GetTaskRunFromPipelineRun]. *)
Fixpoint taskRunOf (c : Client) (pr : PipelineRun)
    (pipelineTaskName : string) (refs : list ChildStatusReference)
    : TaskRun + Error :=
  match refs with
  | [] =>
      inr (TaskNotFound pipelineTaskName (pr_Namespace pr) (pr_Name pr))
  | chr :: rest =>
      if negb (String.eqb (PipelineTaskName chr) pipelineTaskName)
      then taskRunOf c pr pipelineTaskName rest
      else
        match c (pr_Namespace pr) (Name chr) with
        | inr err => inr (ClientError err)
        | inl taskRun => inl taskRun
        end
  end.

Definition GetTaskRunFromPipelineRun (c : Client) (pr : PipelineRun)
    (pipelineTaskName : string) : TaskRun + Error :=
  taskRunOf c pr pipelineTaskName (ChildReferences pr).

(** The loop of [GetTaskRunResult] over the results of the task run. *)
Fixpoint resultOf (pr : PipelineRun) (result : string)
    (results : list TaskRunResult) : string + Error :=
  match results with
  | [] => inr (ResultNotFound result (pr_Namespace pr) (pr_Name pr))
  | trResult :: rest =>
      if String.eqb (result_Name trResult) result
      then inl (TrimSuffix (Value_StringVal trResult) newline)
      else resultOf pr result rest
  end.

Definition GetTaskRunResult (c : Client) (pr : PipelineRun)
    (pipelineTaskName : string) (result : string) : string + Error :=
  match GetTaskRunFromPipelineRun c pr pipelineTaskName with
  | inr err => inr err
  | inl taskRun => resultOf pr result (Results (Status taskRun))
  end.

(** The loop of [GetTaskRunStatus]. *)
Fixpoint statusOf (c : Client) (pr : PipelineRun)
    (pipelineTaskName : string) (refs : list ChildStatusReference)
    : PipelineRunTaskRunStatus + Error :=
  match refs with
  | [] =>
      inr (StatusNotFound pipelineTaskName (pr_Namespace pr) (pr_Name pr))
  | chr :: rest =>
      if String.eqb (PipelineTaskName chr) pipelineTaskName
      then
        match c (pr_Namespace pr) (Name chr) with
        | inr err => inr (ClientError err)
        | inl taskRun =>
            inl {| status_PipelineTaskName := PipelineTaskName chr;
                   status_Status := Status taskRun |}
        end
      else statusOf c pr pipelineTaskName rest
  end.

Definition GetTaskRunStatus (c : Client) (pr : PipelineRun)
    (pipelineTaskName : string) : PipelineRunTaskRunStatus + Error :=
  statusOf c pr pipelineTaskName (ChildReferences pr).

(** The first child reference of a pipeline task, as the loops find
    it. *)
Definition firstReference (pipelineTaskName : string)
    (refs : list ChildStatusReference) : option ChildStatusReference :=
  List.find (fun chr => String.eqb (PipelineTaskName chr) pipelineTaskName)
    refs.


End Tekton.

(** * Purging what a load test has created: package [journey]

    [Purge] goes through the contexts of the run and removes what was
    created for each: on Stage the applications, component detection
    queries and build pipeline selectors of the namespace, otherwise the
    user sign-up.  The deletions act on the cluster, so what a call
    answers may depend on all that happened before it; the calls and the
    lines written to the log are kept as a list of events. *)

(** The verb [%d]. *)
Definition fmt_d (z : Z) : string :=
  if z <? 0
  then String "-"%char (digits (Z.to_N (- z)))
  else digits (Z.to_N z).

Module Journey.

(** A [*framework.Framework], told from the others by a number. *)
Definition framework_Framework : Type := nat.

(** The calls into the cluster; the deletions in a namespace are all
    made with a timeout of five minutes. *)
Inductive Call : Type :=
| DeleteAllApplicationsInASpecificNamespace
    (f : framework_Framework) (namespace : string)
| DeleteAllComponentDetectionQueriesInASpecificNamespace
    (f : framework_Framework) (namespace : string)
| DeleteAllBuildPipelineSelectors
    (f : framework_Framework) (namespace : string)
| DeleteUserSignup (f : framework_Framework) (username : string).

Inductive Level : Type := DebugLevel | InfoLevel | ErrorLevel.

Inductive Event : Type :=
| Called (c : Call) (err : option string)
| Logged (level : Level) (message : string).

(** The cluster: the error of a call, if any, after the events so
    far. *)
Definition Cluster : Type := list Event -> Call -> option string.

Record MainContext : Type := mkMainContext {
  Opts_Stage : bool;
  Framework : framework_Framework;
  Namespace : string;
  Username : string
}.

Section Purging.
Variable cluster : Cluster.

Definition call (c : Call) (events : list Event)
    : option string * list Event :=
  let err := cluster events c in (err, events ++ [Called c err]).

Definition purgeStage (f : framework_Framework) (namespace : string)
    (events : list Event) : option string * list Event :=
  let (err, events) :=
    call (DeleteAllApplicationsInASpecificNamespace f namespace) events in
  match err with
  | Some e =>
      (Some ("Error when deleting resources in namespace " +:+ namespace +:+
             ": " +:+ e), events)
  | None =>
  let (err, events) :=
    call (DeleteAllComponentDetectionQueriesInASpecificNamespace f namespace)
      events in
  match err with
  | Some e =>
      (Some ("Error when deleting component detection queries in namespace "
             +:+ namespace +:+ ": " +:+ e), events)
  | None =>
  let (err, events) :=
    call (DeleteAllBuildPipelineSelectors f namespace) events in
  match err with
  | Some e =>
      (Some ("Error when deleting build pipeline selectors in namespace "
             +:+ namespace +:+ ": " +:+ e), events)
  | None =>
      (None,
       events ++
       [Logged DebugLevel ("Finished purging namespace " +:+ namespace)])
  end end end.

Definition purgeCi (f : framework_Framework) (username : string)
    (events : list Event) : option string * list Event :=
  let (err, events) := call (DeleteUserSignup f username) events in
  match err with
  | Some e =>
      (Some ("Error when deleting user signup " +:+ username +:+ ": " +:+ e),
       events)
  | None =>
      (None,
       events ++ [Logged DebugLevel ("Finished purging user " +:+ username)])
  end.

(** The loop [for _, ctx := range MainContexts] with its counter. *)
Fixpoint purgeAll (contexts : list MainContext) (errCounter : Z)
    (events : list Event) : Z * list Event :=
  match contexts with
  | [] => (errCounter, events)
  | ctx :: rest =>
      if Opts_Stage ctx
      then
        let (err, events) :=
          purgeStage (Framework ctx) (Namespace ctx) events in
        match err with
        | Some e =>
            purgeAll rest (add64 errCounter 1)
              (events ++
               [Logged ErrorLevel ("Error when purging Stage: " +:+ e)])
        | None => purgeAll rest errCounter events
        end
      else
        let (err, events) :=
          purgeCi (Framework ctx) (Username ctx) events in
        match err with
        | Some e =>
            purgeAll rest (add64 errCounter 1)
              (events ++
               [Logged ErrorLevel ("Error when purging CI: " +:+ e)])
        | None => purgeAll rest errCounter events
        end
  end.

Definition Purge (MainContexts : list MainContext) (events : list Event)
    : option string * list Event :=
  let (errCounter, events) := purgeAll MainContexts 0 events in
  if errCounter >? 0
  then (Some ("Hit " +:+ fmt_d errCounter +:+
              " errors when purging resources"), events)
  else (None,
        events ++ [Logged InfoLevel "No errors when purging resources"]).

End Purging.

(** Counting the events of a kind. *)
Definition count (kind : Event -> bool) (events : list Event) : Z :=
  Z.of_nat (List.length (List.filter kind events)).

Definition errorLogged (e : Event) : bool :=
  match e with
  | Logged ErrorLevel _ => true
  | _ => false
  end.

Definition callFailed (e : Event) : bool :=
  match e with
  | Called _ (Some _) => true
  | _ => false
  end.

Definition applicationsDeleted (e : Event) : bool :=
  match e with
  | Called (DeleteAllApplicationsInASpecificNamespace _ _) _ => true
  | _ => false
  end.

Definition queriesDeleted (e : Event) : bool :=
  match e with
  | Called (DeleteAllComponentDetectionQueriesInASpecificNamespace _ _) _ =>
      true
  | _ => false
  end.

Definition selectorsDeleted (e : Event) : bool :=
  match e with
  | Called (DeleteAllBuildPipelineSelectors _ _) _ => true
  | _ => false
  end.

Definition signupDeleted (e : Event) : bool :=
  match e with
  | Called (DeleteUserSignup _ _) _ => true
  | _ => false
  end.

(** The contexts on Stage, and the others. *)
Definition onStage (contexts : list MainContext) : Z :=
  Z.of_nat (List.length (List.filter Opts_Stage contexts)).

Definition onCi (contexts : list MainContext) : Z :=
  Z.of_nat
    (List.length (List.filter (fun ctx => negb (Opts_Stage ctx)) contexts)).

(** What one call of [purgeStage] or [purgeCi] adds to the events. *)
Definition purged_one (stage : bool) (err : option string)
    (new : list Event) : Prop :=
  count errorLogged new = 0 /\
  count callFailed new = match err with Some _ => 1 | None => 0 end /\
  count applicationsDeleted new = (if stage then 1 else 0) /\
  count signupDeleted new = (if stage then 0 else 1) /\
  count selectorsDeleted new <= count queriesDeleted new /\
  count queriesDeleted new <= (if stage then 1 else 0) /\
  (err = None ->
   count queriesDeleted new = (if stage then 1 else 0) /\
   count selectorsDeleted new = (if stage then 1 else 0)).

(** A cluster on which the deletion of the applications of one
    namespace fails. *)
Definition stuckNamespace (namespace : string) : Cluster :=
  fun _ c =>
    match c with
    | DeleteAllApplicationsInASpecificNamespace _ ns =>
        if String.eqb ns namespace
        then Some "context deadline exceeded" else None
    | _ => None
    end.

End Journey.
(** * Facts about the machine integers and the formatting *)

Module Int64Facts.

Lemma wrap64_id (z : Z) : in_int64 z -> wrap64 z = z.
Proof.
  unfold in_int64, wrap64, min_int64, max_int64. intros Hz.
  rewrite Z.mod_small; lia.
Qed.

Lemma wrap64_range (z : Z) : in_int64 (wrap64 z).
Proof.
  unfold in_int64, wrap64, min_int64, max_int64.
  pose proof (Z.mod_pos_bound (z + 2 ^ 63) (2 ^ 64)). lia.
Qed.

Lemma add64_id (a b : Z) : in_int64 (a + b) -> add64 a b = a + b.
Proof. apply wrap64_id. Qed.

Lemma sub64_id (a b : Z) : in_int64 (a - b) -> sub64 a b = a - b.
Proof. apply wrap64_id. Qed.

Lemma mul64_id (a b : Z) : in_int64 (a * b) -> mul64 a b = a * b.
Proof. apply wrap64_id. Qed.

End Int64Facts.

Module FmtFacts.

Lemma append_inv_head (p a b : string) : p +:+ a = p +:+ b -> a = b.
Proof.
  induction p as [|c p IH]; simpl; intros H; [exact H|].
  injection H as H. auto.
Qed.

Lemma read_digits_zero (s : string) :
  read_digits (String "0"%char s) = read_digits s.
Proof.
  unfold read_digits. simpl.
  destruct (NilEmpty.uint_of_string s) as [d|]; reflexivity.
Qed.

Lemma read_digits_zeros (k : nat) (s : string) :
  read_digits (zeros k +:+ s) = read_digits s.
Proof.
  induction k as [|k IH]; [reflexivity|].
  change (zeros (S k) +:+ s) with (String "0"%char (zeros k +:+ s)).
  rewrite read_digits_zero. exact IH.
Qed.

Lemma read_digits_digits (n : N) : read_digits (digits n) = Some n.
Proof.
  unfold read_digits, digits.
  assert (Hnil : N.to_uint n <> Nil).
  { destruct n as [|p]; simpl; [discriminate|].
    apply DecimalPos.Unsigned.to_uint_nonnil. }
  assert (Hs : NilZero.string_of_uint (N.to_uint n) =
               NilEmpty.string_of_uint (N.to_uint n)).
  { destruct (N.to_uint n); try reflexivity. congruence. }
  rewrite Hs, NilEmpty.usu. simpl.
  now rewrite DecimalN.Unsigned.of_to.
Qed.

Lemma read_fmt_04d (z : Z) : 0 <= z -> read_digits (fmt_04d z) = Some (Z.to_N z).
Proof.
  intros Hz. unfold fmt_04d.
  destruct (z <? 0) eqn:E; [lia|].
  unfold pad_zeros. now rewrite read_digits_zeros, read_digits_digits.
Qed.

Lemma fmt_04d_inj (a b : Z) : 0 <= a -> 0 <= b -> fmt_04d a = fmt_04d b -> a = b.
Proof.
  intros Ha Hb H.
  pose proof (read_fmt_04d a Ha) as Ra.
  pose proof (read_fmt_04d b Hb) as Rb.
  rewrite H in Ra. rewrite Ra in Rb. injection Rb as Rb. lia.
Qed.

End FmtFacts.

(** * Names *)

Section NameFacts.
Variable cfg : Config.

Hypothesis total_in_range :
  threadCount cfg * numberOfUsers cfg <= max_int64.

(** Within the range of [int] the number of a user is computed without
    wrap-around. *)
Lemma userNumber_exact (threadIndex userIndex : Z) :
  0 <= threadIndex < threadCount cfg ->
  1 <= userIndex <= numberOfUsers cfg ->
  userNumber cfg threadIndex userIndex =
    threadIndex * numberOfUsers cfg + userIndex.
Proof.
  intros Ht Hu. unfold userNumber.
  assert (Hprod : 0 <= threadIndex * numberOfUsers cfg) by nia.
  assert (Hsum : threadIndex * numberOfUsers cfg + userIndex
                 <= threadCount cfg * numberOfUsers cfg) by nia.
  unfold max_int64 in total_in_range.
  rewrite Int64Facts.mul64_id by (unfold in_int64, min_int64, max_int64; lia).
  apply Int64Facts.add64_id. unfold in_int64, min_int64, max_int64. lia.
Qed.

Lemma userNumber_inj (t1 u1 t2 u2 : Z) :
  0 <= t1 < threadCount cfg -> 0 <= t2 < threadCount cfg ->
  1 <= u1 <= numberOfUsers cfg -> 1 <= u2 <= numberOfUsers cfg ->
  userNumber cfg t1 u1 = userNumber cfg t2 u2 ->
  t1 = t2 /\ u1 = u2.
Proof.
  intros Ht1 Ht2 Hu1 Hu2.
  rewrite !userNumber_exact by assumption. intros H.
  assert (t1 = t2) by nia. subst t2. split; [reflexivity | lia].
Qed.
End NameFacts.

(** C9: two different pairs of a thread index below [threadCount] and a
    user index between 1 and [numberOfUsers] never yield the same
    user name, as long as the total number of users
    [threadCount * numberOfUsers] fits Go's [int]. *)
Theorem username_globally_unique (cfg : Config) (t1 u1 t2 u2 : Z) :
  threadCount cfg * numberOfUsers cfg <= max_int64 ->
  0 <= t1 < threadCount cfg -> 0 <= t2 < threadCount cfg ->
  1 <= u1 <= numberOfUsers cfg -> 1 <= u2 <= numberOfUsers cfg ->
  (t1, u1) <> (t2, u2) ->
  username cfg t1 u1 <> username cfg t2 u2.
Proof.
  intros Hrange Ht1 Ht2 Hu1 Hu2 Hne Heq.
  unfold username in Heq.
  apply FmtFacts.append_inv_head in Heq.
  apply FmtFacts.append_inv_head in Heq.
  apply FmtFacts.fmt_04d_inj in Heq.
  - apply (userNumber_inj cfg Hrange) in Heq; try assumption.
    destruct Heq as [-> ->]. now apply Hne.
  - rewrite userNumber_exact by assumption. nia.
  - rewrite userNumber_exact by assumption. nia.
Qed.

Lemma username_globally_unique_witness :
  username (mkConfig "testuser" 4 2 2 true false) 0 4 <>
  username (mkConfig "testuser" 4 2 2 true false) 1 1.
Proof.
  apply username_globally_unique; simpl; unfold max_int64;
    try lia; congruence.
Defined.

(** * The error table *)

Section ErrorTable.
Variable cfg : Config.

Lemma calls_with_snoc (errCode c : Z) (message : string)
    (calls : list (Z * string)) :
  calls_with errCode (calls ++ [(c, message)]) =
    calls_with errCode calls ++
    (if c =? errCode then [(c, message)] else []).
Proof. unfold calls_with. rewrite List.filter_app. reflexivity. Qed.

Lemma calls_with_length (errCode : Z) (calls : list (Z * string)) :
  (List.length (calls_with errCode calls) <= List.length calls)%nat.
Proof. apply List.filter_length_le. Qed.

Lemma table_of_nil : table_of [] ∅.
Proof. intros c. rewrite lookup_empty. reflexivity. Qed.

Lemma logError_table_of (calls : list (Z * string)) (c : Z)
    (message : string) (m m' : gmap Z ErrorOccurrence) :
  Z.of_nat (List.length calls) < max_int64 ->
  table_of calls m ->
  logError cfg c message m = Some m' ->
  table_of (calls ++ [(c, message)]) m'.
Proof.
  intros Hlen Htab Hlog. unfold logError in Hlog.
  destruct (failFast cfg); [discriminate|].
  pose proof (Htab c) as Hc.
  pose proof (calls_with_length c calls) as Hle.
  intros k. unfold latest_message. rewrite calls_with_snoc.
  destruct (Z.eqb_spec c k) as [->|Hne].
  - rewrite last_snoc. simpl. rewrite List.length_app. simpl.
    unfold latest_message in Hc.
    destruct (m !! k) as [e|] eqn:Hm.
    + injection Hlog as <-. rewrite lookup_insert_eq.
      destruct (last (calls_with k calls)) as [[c0 msg0]|]; [|discriminate].
      simpl in Hc. injection Hc as ->. simpl.
      rewrite Int64Facts.add64_id
        by (unfold in_int64, min_int64, max_int64 in *; lia).
      do 2 f_equal. lia.
    + injection Hlog as <-. rewrite lookup_insert_eq.
      destruct (last (calls_with k calls)) as [[c0 msg0]|] eqn:Hlast;
        [discriminate|].
      apply last_None in Hlast. rewrite Hlast. reflexivity.
  - rewrite List.app_nil_r.
    assert (Hm' : m' !! k = m !! k).
    { destruct (m !! c); injection Hlog as <-;
        now rewrite lookup_insert_ne. }
    rewrite Hm'. apply Htab.
Qed.

Lemma logErrors_table_of (rest calls : list (Z * string))
    (m m' : gmap Z ErrorOccurrence) :
  Z.of_nat (List.length (calls ++ rest)) <= max_int64 ->
  table_of calls m ->
  logErrors cfg rest m = Some m' ->
  table_of (calls ++ rest) m'.
Proof.
  revert calls m.
  induction rest as [|[c message] rest IH]; intros calls m Hlen Htab Hrun.
  - simpl in Hrun. injection Hrun as <-. now rewrite List.app_nil_r.
  - simpl in Hrun.
    destruct (logError cfg c message m) as [m1|] eqn:Hlog; [|discriminate].
    replace (calls ++ (c, message) :: rest)
      with ((calls ++ [(c, message)]) ++ rest) in *
      by (now rewrite <- List.app_assoc).
    apply IH with (m := m1); try assumption.
    apply logError_table_of with (m := m); try assumption.
    rewrite !List.length_app in Hlen. simpl in Hlen. lia.
Qed.

Lemma logErrors_returns (calls : list (Z * string))
    (m : gmap Z ErrorOccurrence) :
  failFast cfg = false -> is_Some (logErrors cfg calls m).
Proof.
  intros Hff. revert m.
  induction calls as [|[c message] rest IH]; intros m; simpl; [eauto|].
  unfold logError. rewrite Hff. destruct (m !! c); apply IH.
Qed.
End ErrorTable.

(** C8: after a sequence of calls to [logError] on the empty table, every
    code that was passed has an entry whose [Count] is the number of calls
    made with the code and whose [LatestMessage] is the message of the
    last of them, and no other code has an entry.  The calls all return
    unless [failFast] is set.  [Count] is a Go [int]: the sequence is
    taken shorter than 2^63. *)
Theorem errorOccurredMap_counts_and_latest (cfg : Config)
    (calls : list (Z * string)) :
  Z.of_nat (List.length calls) <= max_int64 ->
  (failFast cfg = false -> is_Some (logErrors cfg calls ∅)) /\
  forall m : gmap Z ErrorOccurrence,
    logErrors cfg calls ∅ = Some m ->
    forall errCode : Z,
      m !! errCode =
        match latest_message errCode calls with
        | Some message =>
            Some {| ErrorNumber := errCode;
                    LatestMessage := message;
                    Count := Z.of_nat (List.length (calls_with errCode calls)) |}
        | None => None
        end.
Proof.
  intros Hlen. split.
  - intros Hff. now apply logErrors_returns.
  - intros m Hrun.
    apply (logErrors_table_of cfg calls [] ∅ m); auto using table_of_nil.
Qed.

Lemma errorOccurredMap_counts_and_latest_witness :
  exists m : gmap Z ErrorOccurrence,
    logErrors (mkConfig "testuser" 4 2 2 true false)
      [(3, "a"); (1, "b"); (3, "c")] ∅ = Some m /\
    m !! 3 = Some (mkErrorOccurrence 3 "c" 2) /\
    m !! 1 = Some (mkErrorOccurrence 1 "b" 1) /\
    m !! 2 = None.
Proof.
  pose proof (errorOccurredMap_counts_and_latest
    (mkConfig "testuser" 4 2 2 true false)
    [(3, "a"); (1, "b"); (3, "c")]) as H.
  destruct H as [Hsome Htab]; [unfold max_int64; simpl; lia|].
  destruct Hsome as [m Hm]; [reflexivity|].
  exists m. split; [exact Hm|].
  repeat split; rewrite (Htab m Hm); reflexivity.
Defined.

(** * Rules for thread code *)

Section Rules.
Context {A B : Type}.

Lemma bind_Ret (m : M A) (k : A -> M B) (st st' : ThreadState) (b : B) :
  bind m k st = Ret b st' ->
  exists a st1, m st = Ret a st1 /\ k a st1 = Ret b st'.
Proof.
  unfold bind. destruct (m st) as [a st1| | |]; try discriminate. eauto.
Qed.

Lemma triple_bind (P : ThreadState -> Prop) (m : M A)
    (Q : A -> ThreadState -> Prop) (k : A -> M B)
    (R : B -> ThreadState -> Prop) :
  triple P m Q -> (forall a, triple (Q a) (k a) R) ->
  triple P (bind m k) R.
Proof.
  intros Hm Hk st HP b st' Hrun.
  apply bind_Ret in Hrun. destruct Hrun as (a & st1 & Hm1 & Hk1).
  eapply Hk; eauto.
Qed.

Lemma returns_bind (P : ThreadState -> Prop) (m : M A)
    (Q : A -> ThreadState -> Prop) (k : A -> M B)
    (R : B -> ThreadState -> Prop) :
  returns P m Q -> (forall a, returns (Q a) (k a) R) ->
  returns P (bind m k) R.
Proof.
  intros Hm Hk st HP.
  destruct (Hm st HP) as (a & st1 & Hm1 & HQ).
  destruct (Hk a st1 HQ) as (b & st' & Hk1 & HR).
  exists b, st'. unfold bind. rewrite Hm1. auto.
Qed.

End Rules.

Lemma triple_ret {A : Type} (P : A -> ThreadState -> Prop) (a : A) :
  triple (P a) (ret a) P.
Proof.
  intros st HP a' st' Hrun. unfold ret in Hrun.
  inversion Hrun; subst. exact HP.
Qed.

Lemma returns_ret {A : Type} (P : A -> ThreadState -> Prop) (a : A) :
  returns (P a) (ret a) P.
Proof. intros st HP. exists a, st. auto. Qed.

(** A loop keeps what each round keeps. *)
Lemma triple_for_each {A : Type} (Inv : ThreadState -> Prop)
    (items : list A) (body : A -> M unit) :
  (forall x, In x items -> triple Inv (body x) (fun _ => Inv)) ->
  triple Inv (for_each items body) (fun _ => Inv).
Proof.
  induction items as [|x rest IH]; intros Hbody; simpl.
  - apply (triple_ret (fun _ => Inv)).
  - eapply triple_bind.
    + apply Hbody. now left.
    + intros ?. apply IH. intros y Hy. apply Hbody. now right.
Qed.

Lemma returns_for_each {A : Type} (Inv : ThreadState -> Prop)
    (items : list A) (body : A -> M unit) :
  (forall x, In x items -> returns Inv (body x) (fun _ => Inv)) ->
  returns Inv (for_each items body) (fun _ => Inv).
Proof.
  induction items as [|x rest IH]; intros Hbody; simpl.
  - apply (returns_ret (fun _ => Inv)).
  - eapply returns_bind.
    + apply Hbody. now left.
    + intros ?. apply IH. intros y Hy. apply Hbody. now right.
Qed.

(** A counting loop with an invariant that depends on the counter. *)
Lemma from_to_cons (lo hi : Z) :
  lo <= hi -> from_to lo hi = lo :: from_to (lo + 1) hi.
Proof.
  intros H. unfold from_to. rewrite seqZ_cons by lia.
  f_equal. f_equal; lia.
Qed.

Lemma from_to_nil (lo hi : Z) : hi < lo -> from_to lo hi = [].
Proof. intros H. unfold from_to. apply seqZ_nil. lia. Qed.

Lemma from_to_length (lo hi : Z) :
  List.length (from_to lo hi) = Z.to_nat (hi - lo + 1).
Proof. unfold from_to. apply length_seqZ. Qed.

Lemma In_from_to (lo hi x : Z) : In x (from_to lo hi) <-> lo <= x <= hi.
Proof.
  unfold from_to. rewrite <- list_elem_of_In, elem_of_seqZ. lia.
Qed.

Lemma triple_for_range (Inv : Z -> ThreadState -> Prop) (body : Z -> M unit)
    (hi : Z) (n : nat) (lo : Z) :
  Z.of_nat n = hi - lo + 1 ->
  (forall u, lo <= u <= hi ->
     triple (Inv u) (body u) (fun _ => Inv (u + 1))) ->
  triple (Inv lo) (for_each (from_to lo hi) body) (fun _ => Inv (hi + 1)).
Proof.
  revert lo. induction n as [|n IH]; intros lo Hn Hbody.
  - rewrite from_to_nil by lia. simpl.
    replace (hi + 1) with lo by lia. apply (triple_ret (fun _ => Inv lo)).
  - rewrite from_to_cons by lia. simpl.
    eapply triple_bind.
    + apply Hbody. lia.
    + intros ?. apply IH; [lia|]. intros u Hu. apply Hbody. lia.
Qed.

Lemma returns_for_range (Inv : Z -> ThreadState -> Prop) (body : Z -> M unit)
    (hi : Z) (n : nat) (lo : Z) :
  Z.of_nat n = hi - lo + 1 ->
  (forall u, lo <= u <= hi ->
     returns (Inv u) (body u) (fun _ => Inv (u + 1))) ->
  returns (Inv lo) (for_each (from_to lo hi) body) (fun _ => Inv (hi + 1)).
Proof.
  revert lo. induction n as [|n IH]; intros lo Hn Hbody.
  - rewrite from_to_nil by lia. simpl.
    replace (hi + 1) with lo by lia. apply (returns_ret (fun _ => Inv lo)).
  - rewrite from_to_cons by lia. simpl.
    eapply returns_bind.
    + apply Hbody. lia.
    + intros ?. apply IH; [lia|]. intros u Hu. apply Hbody. lia.
Qed.

(** * Stage 1 *)

Ltac unfold_ops :=
  unfold call_logError, call_wait_ForNamespace, incr_FailedUserCreations,
    incr_FailedResourceCreations, incr_FailedPipelineRuns,
    add_AverageUserCreationTime, add_AverageResourceCreationTimePerUser,
    add_AveragePipelineRunTimePerUser, send_chUsers, send_chPipelines,
    panic, ret, bind in *.

Section Stage1.
Variable cfg : Config.
Variable env : Env.
Variable threadIndex : Z.

Let ns (userIndex : Z) : string := usernamespace cfg threadIndex userIndex.

(** One evaluation of a cohort, from the first poll to its end. *)
Lemma waitForCohort_spec (userIndex : Z) (members : list Z)
    (st st' : ThreadState) (b : bool) :
  waitForCohort cfg env threadIndex userIndex members st = Ret b st' ->
  exists k : nat,
    (k <= List.length members)%nat /\
    chUsers st' = chUsers st ++ take k members /\
    nsPolled st' =
      nsPolled st ++ repeat (ns userIndex) (if b then k else S k) /\
    (forall j : nat, (j < k)%nat ->
       wait_ForNamespace env (List.length (nsPolled st) + j)%nat
         (ns userIndex) = None) /\
    (if b
     then k = List.length members /\
          errorCalls st' = errorCalls st /\
          FailedUserCreations st' = FailedUserCreations st
     else (k < List.length members)%nat /\
          (exists e,
             wait_ForNamespace env (List.length (nsPolled st) + k)%nat
               (ns userIndex) = Some e /\
             errorCalls st' =
               errorCalls st ++
               [(2, namespace_error cfg env threadIndex userIndex e)]) /\
          FailedUserCreations st' = add64 (FailedUserCreations st) 1) /\
    kept_by_cohort_wait st st'.
Proof.
  revert st. induction members as [|i rest IH]; intros st Hrun.
  - simpl in Hrun. unfold ret in Hrun. inversion Hrun; subst.
    exists 0%nat. simpl. rewrite !List.app_nil_r.
    unfold kept_by_cohort_wait. repeat split; auto. intros j Hj. lia.
  - simpl in Hrun. unfold bind at 1 in Hrun.
    unfold call_wait_ForNamespace in Hrun.
    destruct (wait_ForNamespace env (List.length (nsPolled st))
                (usernamespace cfg threadIndex userIndex)) as [e|] eqn:Hpoll.
    + unfold_ops. destruct (failFast cfg); [discriminate|].
      inversion Hrun; subst; clear Hrun.
      exists 0%nat. simpl. rewrite List.app_nil_r, Nat.add_0_r.
      unfold kept_by_cohort_wait. simpl.
      repeat split; auto; try lia.
      exists e. split; [exact Hpoll | reflexivity].
    + unfold bind at 1 in Hrun. unfold send_chUsers in Hrun.
      destruct (chan_send (numberOfUsers cfg) _ i) as [buffer|] eqn:Hsend;
        [|discriminate].
      simpl in Hsend. unfold chan_send in Hsend.
      destruct (_ <? _); [|discriminate]. injection Hsend as <-.
      apply IH in Hrun. simpl in Hrun.
      destruct Hrun as (k & Hk & Hch & Hpolled & Hpass & Hb & Hkept).
      exists (S k). simpl.
      split; [lia|].
      split; [rewrite Hch, <- List.app_assoc; reflexivity|].
      split.
      { rewrite Hpolled, <- List.app_assoc. simpl.
        destruct b; reflexivity. }
      split.
      { intros [|j] Hj.
        - rewrite Nat.add_0_r. exact Hpoll.
        - rewrite <- (Hpass j) by lia. f_equal.
          rewrite List.length_app. simpl. lia. }
      split; [|exact Hkept].
      rewrite List.length_app in Hb. simpl in Hb.
      replace (List.length (nsPolled st) + 1 + k)%nat
        with (List.length (nsPolled st) + S k)%nat in Hb by lia.
      destruct b.
      * destruct Hb as (-> & He & Hf). auto.
      * destruct Hb as (Hlt & He & Hf). split; [lia|]. auto.
Qed.
End Stage1.

(** C1: at the input of one thread with one cohort of two users, on a
    cluster where everything succeeds, the namespace wait is called
    twice with the namespace of user 2, the user that closes the cohort,
    and never with the namespace of user 1, although both users are
    forwarded. *)
Theorem cohort_wait_polls_closing_user_only :
  exists st,
    stageUsers oneCohortConfig steadyEnv 0 initThreadState = Ret tt st /\
    chUsers st = [1; 2] /\
    nsPolled st = ["testuser-0002-tenant"; "testuser-0002-tenant"] /\
    usernamespace oneCohortConfig 0 1 = "testuser-0001-tenant" /\
    ~ In (usernamespace oneCohortConfig 0 1) (nsPolled st).
Proof.
  eexists. split; [vm_compute; reflexivity|].
  simpl. repeat split; try reflexivity.
  intros [H|[H|[]]]; discriminate H.
Qed.

(** C2, as the code has it: within one evaluation of a cohort the members
    are sent one by one, each right after a namespace wait that
    succeeded.  What has been sent when the evaluation ends is the part
    of the cohort before the first wait that failed: nothing when the
    first wait fails, the whole cohort when every wait succeeds.  A
    failed wait is logged once with code 2 and counted once. *)
Theorem cohort_forwarded_up_to_first_failure (cfg : Config) (env : Env)
    (threadIndex userIndex : Z) (members : list Z) (st st' : ThreadState)
    (b : bool) :
  waitForCohort cfg env threadIndex userIndex members st = Ret b st' ->
  exists k : nat,
    (k <= List.length members)%nat /\
    chUsers st' = chUsers st ++ take k members /\
    (forall j : nat, (j < k)%nat ->
       wait_ForNamespace env (List.length (nsPolled st) + j)%nat
         (usernamespace cfg threadIndex userIndex) = None) /\
    (b = true ->
       k = List.length members /\ errorCalls st' = errorCalls st /\
       FailedUserCreations st' = FailedUserCreations st) /\
    (b = false ->
       (k < List.length members)%nat /\
       (exists e,
          wait_ForNamespace env (List.length (nsPolled st) + k)%nat
            (usernamespace cfg threadIndex userIndex) = Some e /\
          errorCalls st' =
            errorCalls st ++
            [(2, namespace_error cfg env threadIndex userIndex e)]) /\
       FailedUserCreations st' = add64 (FailedUserCreations st) 1).
Proof.
  intros Hrun. apply waitForCohort_spec in Hrun.
  destruct Hrun as (k & Hk & Hch & _ & Hpass & Hb & _).
  exists k. split; [exact Hk|]. split; [exact Hch|].
  split; [exact Hpass|]. split.
  - intros ->. exact Hb.
  - intros ->. exact Hb.
Qed.

Lemma cohort_forwarded_up_to_first_failure_witness :
  exists (b : bool) (st' : ThreadState) (k : nat),
    waitForCohort oneCohortConfig flakyEnv 0 2 [1; 2] initThreadState =
      Ret b st' /\
    (k <= 2)%nat /\ chUsers st' = take k [1; 2].
Proof.
  eexists _, _.
  assert (Hrun : waitForCohort oneCohortConfig flakyEnv 0 2 [1; 2]
                   initThreadState
                 = Ret false
                     (mkThreadState 0 0 0 1 0 0 [1] [] 
                        ["testuser-0002-tenant"; "testuser-0002-tenant"]
                        [(2, namespace_error oneCohortConfig flakyEnv 0 2
                               "timed out waiting for the condition")]))
    by (vm_compute; reflexivity).
  destruct (cohort_forwarded_up_to_first_failure _ _ _ _ _ _ _ _ Hrun)
    as (k & Hk & Hch & _).
  exists k. split; [exact Hrun|]. split; [exact Hk | exact Hch].
Defined.

(** Against C2 as stated: with a cohort of two and a namespace wait that
    succeeds the first time and fails the second time, user 1 is sent to
    stage 2 although the evaluation of its cohort failed and user 2 is
    held back. *)
Lemma cohort_atomicity_counterexample :
  exists st,
    stageUsers oneCohortConfig flakyEnv 0 initThreadState = Ret tt st /\
    In 1 (chUsers st) /\ ~ In 2 (chUsers st) /\
    FailedUserCreations st = 1 /\
    errorCalls st =
      [(2, "Unable to find namespace 'testuser-0002-tenant' within 1m0s: timed out waiting for the condition")].
Proof.
  eexists. split; [vm_compute; reflexivity|].
  simpl. repeat split; auto.
  intros [H|[]]. discriminate H.
Qed.

(** All waits of one evaluation ask for the same namespace, the one of
    the closing user.  On a cluster whose answer for a namespace does
    not change from one call to the next, an evaluation therefore sends
    the whole cohort or nothing. *)
Lemma cohort_all_or_nothing_when_stable (cfg : Config) (env : Env)
    (threadIndex userIndex : Z) (members : list Z) (st st' : ThreadState)
    (b : bool) :
  (forall call call' name,
     wait_ForNamespace env call name = wait_ForNamespace env call' name) ->
  waitForCohort cfg env threadIndex userIndex members st = Ret b st' ->
  chUsers st' = chUsers st \/ chUsers st' = chUsers st ++ members.
Proof.
  intros Hstable Hrun. apply waitForCohort_spec in Hrun.
  destruct Hrun as (k & Hk & Hch & _ & Hpass & Hb & _).
  destruct b.
  - right. destruct Hb as (-> & _). now rewrite firstn_all in Hch.
  - left. destruct Hb as (_ & (e & He & _) & _).
    destruct k as [|k].
    + rewrite Hch. simpl. apply List.app_nil_r.
    + exfalso. specialize (Hpass 0%nat ltac:(lia)).
      rewrite (Hstable _ (List.length (nsPolled st) + S k)%nat) in Hpass.
      congruence.
Qed.

Section Stage1Rounds.
Variable cfg : Config.
Variable env : Env.
Variable threadIndex : Z.

(** One round of [UserLoop], by cases. *)
Lemma UserLoop_spec (userIndex : Z) (st st' : ThreadState) :
  UserLoop cfg env threadIndex userIndex st = Ret tt st' ->
  kept_by_stage1 st st' /\
  ((exists e,
      users_Create env (username cfg threadIndex userIndex) = Some e /\
      FailedUserCreations st' = add64 (FailedUserCreations st) 1 /\
      chUsers st' = chUsers st /\
      nsPolled st' = nsPolled st /\
      AverageUserCreationTime st' = AverageUserCreationTime st /\
      errorCalls st' =
        errorCalls st ++
        [(1, provision_error cfg threadIndex userIndex e)])
   \/
   (users_Create env (username cfg threadIndex userIndex) = None /\
    exists (r : Z) (b : bool) (st1 : ThreadState),
      go_rem userIndex (userBatches cfg) = Some r /\
      (if r =? 0
       then waitForCohort cfg env threadIndex userIndex
              (cohort cfg userIndex) st = Ret b st1
       else b = true /\ st1 = st) /\
      FailedUserCreations st' = FailedUserCreations st1 /\
      chUsers st' = chUsers st1 /\
      nsPolled st' = nsPolled st1 /\
      errorCalls st' = errorCalls st1 /\
      AverageUserCreationTime st' =
        (if b
         then add64 (AverageUserCreationTime st1)
                (since_UserCreation env threadIndex userIndex)
         else AverageUserCreationTime st1))).
Proof.
  unfold UserLoop. intros Hrun.
  destruct (users_Create env (username cfg threadIndex userIndex))
    as [e|] eqn:Hcreate.
  - unfold_ops. destruct (failFast cfg); [discriminate|].
    inversion Hrun; subst; clear Hrun. unfold kept_by_stage1. simpl.
    split; [tauto|]. left. exists e. tauto.
  - destruct (go_rem userIndex (userBatches cfg)) as [r|] eqn:Hrem;
      [|discriminate].
    apply bind_Ret in Hrun. destruct Hrun as (b & st1 & Hwait & Hend).
    assert (Hkept1 : kept_by_stage1 st st1).
    { destruct (r =? 0).
      - apply waitForCohort_spec in Hwait.
        destruct Hwait as (k & _ & _ & _ & _ & _ & Hk).
        unfold kept_by_cohort_wait in Hk. unfold kept_by_stage1. tauto.
      - unfold ret in Hwait. inversion Hwait; subst.
        unfold kept_by_stage1. tauto. }
    assert (Hcond : if r =? 0
                    then waitForCohort cfg env threadIndex userIndex
                           (cohort cfg userIndex) st = Ret b st1
                    else b = true /\ st1 = st).
    { destruct (r =? 0); [exact Hwait|].
      unfold ret in Hwait. inversion Hwait; subst. auto. }
    clear Hwait.
    destruct b; unfold_ops; inversion Hend; subst; clear Hend;
      unfold kept_by_stage1 in *; simpl.
    + split; [tauto|]. right. split; [reflexivity|].
      exists r, true, st1. tauto.
    + split; [tauto|]. right. split; [reflexivity|].
      exists r, false, st'. tauto.
Qed.

End Stage1Rounds.

(** * Stage 2 *)

Section Stage2.
Variable cfg : Config.
Variable env : Env.
Variable threadIndex : Z.

Lemma step_fails_not_succeed (userIndex c : Z) :
  step_fails cfg env threadIndex userIndex c ->
  ~ steps_succeed cfg env threadIndex userIndex.
Proof.
  intros Hfail (Hs & Ha & Hg & Hc).
  destruct Hfail; congruence.
Qed.

Lemma step_fails_code (userIndex c : Z) :
  step_fails cfg env threadIndex userIndex c -> 3 <= c <= 7.
Proof. intros Hfail. destruct Hfail; lia. Qed.

(** One round of stage 2, by cases. *)
Lemma createResources_spec (userIndex : Z) (st st' : ThreadState) :
  createResources cfg env threadIndex userIndex st = Ret tt st' ->
  kept_by_stage2 st st' /\
  ((exists c message,
      step_fails cfg env threadIndex userIndex c /\
      FailedResourceCreations st' = add64 (FailedResourceCreations st) 1 /\
      errorCalls st' = errorCalls st ++ [(c, message)] /\
      chPipelines st' = chPipelines st /\
      AverageResourceCreationTimePerUser st' =
        AverageResourceCreationTimePerUser st)
   \/
   (steps_succeed cfg env threadIndex userIndex /\
    FailedResourceCreations st' = FailedResourceCreations st /\
    errorCalls st' = errorCalls st /\
    chPipelines st' = chPipelines st ++ [userIndex] /\
    AverageResourceCreationTimePerUser st' =
      add64 (AverageResourceCreationTimePerUser st)
        (since_ResourceCreation env threadIndex userIndex))).
Proof.
  unfold createResources. intros Hrun.
  destruct (CreateRegistryAuthSecret env (RegistryAuthSecretName env)
              (usernamespace cfg threadIndex userIndex))
    as [e|] eqn:Hsecret.
  { unfold_ops. destruct (failFast cfg); [discriminate|].
    inversion Hrun; subst; clear Hrun. unfold kept_by_stage2. simpl.
    split; [tauto|]. left. eexists 3, _.
    split; [eapply secret_fails; eassumption | tauto]. }
  destruct (CreateHasApplication env
              (ApplicationName cfg threadIndex userIndex)
              (usernamespace cfg threadIndex userIndex))
    as [e|] eqn:Happ.
  { unfold_ops. destruct (failFast cfg); [discriminate|].
    inversion Hrun; subst; clear Hrun. unfold kept_by_stage2. simpl.
    split; [tauto|]. left. eexists 4, _.
    split; [eapply application_fails; eassumption | tauto]. }
  destruct (ApplicationGitopsRepoExists env
              (ApplicationName cfg threadIndex userIndex))
    as [e|] eqn:Hgit.
  { unfold_ops. destruct (failFast cfg); [discriminate|].
    inversion Hrun; subst; clear Hrun. unfold kept_by_stage2. simpl.
    split; [tauto|]. left. eexists 5, _.
    split; [eapply gitops_fails; eassumption | tauto]. }
  destruct (CreateComponent env
              (ApplicationName cfg threadIndex userIndex)
              (ComponentName cfg threadIndex userIndex)
              (usernamespace cfg threadIndex userIndex))
    as [name|e] eqn:Hcomp.
  2:{ unfold_ops. destruct (failFast cfg); [discriminate|].
      inversion Hrun; subst; clear Hrun. unfold kept_by_stage2. simpl.
      split; [tauto|]. left. eexists 6, _.
      split; [eapply component_fails; eassumption | tauto]. }
  destruct (String.eqb_spec name (ComponentName cfg threadIndex userIndex))
    as [->|Hne]; simpl in Hrun.
  2:{ unfold_ops. destruct (failFast cfg); [discriminate|].
      inversion Hrun; subst; clear Hrun. unfold kept_by_stage2. simpl.
      split; [tauto|]. left. eexists 7, _.
      split; [eapply name_differs; eassumption | tauto]. }
  destruct (go_rem userIndex (userBatches cfg)); [|discriminate].
  unfold_ops. unfold chan_send in Hrun. simpl in Hrun.
  destruct (_ <? _); [|discriminate].
  inversion Hrun; subst; clear Hrun. unfold kept_by_stage2. simpl.
  split; [tauto|]. right. unfold steps_succeed. tauto.
Qed.

(** A user either fails at one step or passes all five. *)
Lemma step_fails_or_succeed (userIndex : Z) :
  (exists c, step_fails cfg env threadIndex userIndex c) \/
  steps_succeed cfg env threadIndex userIndex.
Proof.
  destruct (CreateRegistryAuthSecret env (RegistryAuthSecretName env)
              (usernamespace cfg threadIndex userIndex))
    as [e|] eqn:Hsecret.
  { left. exists 3. eapply secret_fails; eassumption. }
  destruct (CreateHasApplication env
              (ApplicationName cfg threadIndex userIndex)
              (usernamespace cfg threadIndex userIndex))
    as [e|] eqn:Happ.
  { left. exists 4. eapply application_fails; eassumption. }
  destruct (ApplicationGitopsRepoExists env
              (ApplicationName cfg threadIndex userIndex))
    as [e|] eqn:Hgit.
  { left. exists 5. eapply gitops_fails; eassumption. }
  destruct (CreateComponent env
              (ApplicationName cfg threadIndex userIndex)
              (ComponentName cfg threadIndex userIndex)
              (usernamespace cfg threadIndex userIndex))
    as [name|e] eqn:Hcomp.
  2:{ left. exists 6. eapply component_fails; eassumption. }
  destruct (String.eqb_spec name (ComponentName cfg threadIndex userIndex))
    as [->|Hne].
  - right. unfold steps_succeed. tauto.
  - left. exists 7. eapply name_differs; eassumption.
Qed.

(** A round of stage 2 returns when the process goes on after errors
    and the channel has room. *)
Lemma createResources_returns (userIndex : Z) (st : ThreadState) :
  failFast cfg = false -> userBatches cfg <> 0 ->
  Z.of_nat (List.length (chPipelines st)) < numberOfUsers cfg ->
  exists st', createResources cfg env threadIndex userIndex st = Ret tt st'.
Proof.
  intros Hff HB Hroom. unfold createResources.
  assert (Hrem : exists r, go_rem userIndex (userBatches cfg) = Some r).
  { unfold go_rem. destruct (Z.eqb_spec (userBatches cfg) 0); [lia|eauto]. }
  destruct Hrem as [r ->].
  apply Z.ltb_lt in Hroom.
  repeat match goal with
         | |- context [match ?x with _ => _ end] => destruct x
         end;
    unfold_ops; unfold chan_send; rewrite ?Hff; simpl;
    rewrite ?Hroom; simpl;
    eexists; reflexivity.
Qed.
End Stage2.

(** * Error codes and frames of the three loops *)

Lemma codes_within_refl (lo hi : Z) (st : ThreadState) :
  codes_within lo hi st st.
Proof. exists []. rewrite List.app_nil_r. auto. Qed.

Lemma codes_within_trans (lo hi : Z) (st1 st2 st3 : ThreadState) :
  codes_within lo hi st1 st2 -> codes_within lo hi st2 st3 ->
  codes_within lo hi st1 st3.
Proof.
  intros (x1 & H1 & F1) (x2 & H2 & F2). exists (x1 ++ x2).
  split; [rewrite H2, H1, List.app_assoc; reflexivity|].
  apply Forall_app. auto.
Qed.

Lemma codes_within_same (lo hi : Z) (st st' : ThreadState) :
  errorCalls st' = errorCalls st -> codes_within lo hi st st'.
Proof. intros H. exists []. rewrite List.app_nil_r. auto. Qed.

Lemma codes_within_one (lo hi c : Z) (message : string)
    (st st' : ThreadState) :
  lo <= c <= hi ->
  errorCalls st' = errorCalls st ++ [(c, message)] ->
  codes_within lo hi st st'.
Proof. intros Hc H. exists [(c, message)]. split; [exact H|]. auto. Qed.

Section Loops.
Variable cfg : Config.
Variable env : Env.
Variable threadIndex : Z.

Lemma UserLoop_codes (userIndex : Z) (st st' : ThreadState) :
  UserLoop cfg env threadIndex userIndex st = Ret tt st' ->
  codes_within 1 2 st st'.
Proof.
  intros Hrun. apply UserLoop_spec in Hrun.
  destruct Hrun as [_ [(e & _ & _ & _ & _ & _ & He) | (_ & Hok)]].
  - eapply codes_within_one; [|exact He]. lia.
  - destruct Hok as (r & b & st1 & _ & Hwait & _ & _ & _ & He & _).
    destruct (r =? 0).
    + apply waitForCohort_spec in Hwait.
      destruct Hwait as (k & _ & _ & _ & _ & Hb & _).
      destruct b.
      * apply codes_within_same. destruct Hb as (_ & Hb & _). congruence.
      * destruct Hb as (_ & (e & _ & Hb) & _).
        eapply codes_within_one with (c := 2); [lia|].
        rewrite He. exact Hb.
    + destruct Hwait as [_ ->]. now apply codes_within_same.
Qed.

Lemma stageUsers_loop_spec (items : list Z) (st st' : ThreadState) :
  for_each items (UserLoop cfg env threadIndex) st = Ret tt st' ->
  kept_by_stage1 st st' /\ codes_within 1 2 st st'.
Proof.
  intros Hrun.
  pose proof (@triple_for_each Z
    (fun s => kept_by_stage1 st s /\ codes_within 1 2 st s)
    items (UserLoop cfg env threadIndex)) as H.
  eapply H; [| |exact Hrun].
  - intros u _ s [Hk Hc] [] s' Hstep. split.
    + apply UserLoop_spec in Hstep. destruct Hstep as [Hs _].
      unfold kept_by_stage1 in *. intuition congruence.
    + eapply codes_within_trans; [exact Hc|].
      eapply UserLoop_codes; eassumption.
  - split; [unfold kept_by_stage1; tauto | apply codes_within_refl].
Qed.

Lemma createResources_codes (userIndex : Z) (st st' : ThreadState) :
  createResources cfg env threadIndex userIndex st = Ret tt st' ->
  codes_within 3 7 st st'.
Proof.
  intros Hrun. apply createResources_spec in Hrun.
  destruct Hrun as [_ [(c & message & Hf & _ & He & _) | (_ & _ & He & _)]].
  - eapply codes_within_one; [|exact He].
    eapply step_fails_code; eassumption.
  - now apply codes_within_same.
Qed.

(** The loop of stage 2 over a queue. *)
Lemma stageResources_loop_spec (queue : list Z) (st st' : ThreadState) :
  for_each queue (createResources cfg env threadIndex) st = Ret tt st' ->
  kept_by_stage2 st st' /\ codes_within 3 7 st st' /\
  (forall v,
     In v (chPipelines st') <->
     In v (chPipelines st) \/
     (In v queue /\ steps_succeed cfg env threadIndex v)) /\
  (List.length (chPipelines st') <=
     List.length (chPipelines st) + List.length queue)%nat.
Proof.
  revert st. induction queue as [|u rest IH]; intros st Hrun.
  - simpl in Hrun. unfold ret in Hrun. inversion Hrun; subst.
    split; [unfold kept_by_stage2; tauto|].
    split; [apply codes_within_refl|].
    split; [|simpl; lia]. intros v. simpl. tauto.
  - simpl in Hrun. apply bind_Ret in Hrun.
    destruct Hrun as ([] & st1 & Hstep & Hrest).
    pose proof (createResources_codes _ _ _ Hstep) as Hc1.
    apply createResources_spec in Hstep. destruct Hstep as [Hk1 Hcase].
    apply IH in Hrest. destruct Hrest as (Hk2 & Hc2 & Hin & Hlen).
    split; [unfold kept_by_stage2 in *; intuition congruence|].
    split; [eapply codes_within_trans; eassumption|].
    destruct Hcase as [(c & message & Hf & _ & _ & Hch & _)
                      | (Hok & _ & _ & Hch & _)].
    + rewrite Hch in Hin, Hlen. split; [|simpl; lia].
      intros v. rewrite Hin. simpl. split; [tauto|].
      intros [H|[[->|H] Hs]]; auto.
      exfalso. eapply step_fails_not_succeed; eassumption.
    + rewrite Hch in Hin, Hlen. rewrite List.length_app in Hlen.
      split; [|simpl in *; lia].
      intros v. rewrite Hin, List.in_app_iff. simpl. split.
      * intros [[H|[->|[]]]|[H Hs]]; auto.
      * intros [H|[[->|H] Hs]]; auto.
Qed.

Lemma stageResources_loop_returns (queue : list Z) (st : ThreadState) :
  failFast cfg = false -> userBatches cfg <> 0 ->
  Z.of_nat (List.length (chPipelines st)) + Z.of_nat (List.length queue)
    <= numberOfUsers cfg ->
  exists st',
    for_each queue (createResources cfg env threadIndex) st = Ret tt st'.
Proof.
  intros Hff HB. revert st.
  induction queue as [|u rest IH]; intros st Hroom; simpl.
  - unfold ret. eauto.
  - simpl in Hroom.
    destruct (createResources_returns cfg env threadIndex u st Hff HB)
      as [st1 Hstep]; [lia|].
    pose proof (createResources_spec _ _ _ _ _ _ Hstep) as [_ Hcase].
    assert (Hlen : (List.length (chPipelines st1) <=
                    S (List.length (chPipelines st)))%nat).
    { destruct Hcase as [(c & message & _ & _ & _ & Hch & _)
                        | (_ & _ & _ & Hch & _)]; rewrite Hch.
      - lia.
      - rewrite List.length_app. simpl. lia. }
    destruct (IH st1) as [st' Hrest]; [lia|].
    exists st'. unfold bind. rewrite Hstep. exact Hrest.
Qed.

(** One round of stage 3. *)
Lemma waitForPipeline_spec (userIndex : Z) (st st' : ThreadState) :
  waitForPipeline cfg env threadIndex userIndex st = Ret tt st' ->
  kept_by_stage3 st st' /\ codes_within 8 9 st st'.
Proof.
  unfold waitForPipeline. intros Hrun.
  destruct (GetComponentPipelineRun env _ _ _)
    as [e|elapsed [[reason message]|]];
    unfold_ops; try (destruct (failFast cfg); [discriminate|]);
    inversion Hrun; subst; clear Hrun; unfold kept_by_stage3; simpl;
    (split; [tauto|]).
  - eapply codes_within_one with (c := 9); [lia | reflexivity].
  - eapply codes_within_one with (c := 8); [lia | reflexivity].
  - now apply codes_within_same.
Qed.

Lemma waitForPipeline_returns (userIndex : Z) (st : ThreadState) :
  failFast cfg = false ->
  exists st', waitForPipeline cfg env threadIndex userIndex st = Ret tt st'.
Proof.
  intros Hff. unfold waitForPipeline.
  destruct (GetComponentPipelineRun env _ _ _)
    as [e|elapsed [[reason message]|]];
    unfold_ops; rewrite ?Hff; eexists; reflexivity.
Qed.

Lemma stagePipelines_loop_spec (queue : list Z) (st st' : ThreadState) :
  for_each queue (waitForPipeline cfg env threadIndex) st = Ret tt st' ->
  kept_by_stage3 st st' /\ codes_within 8 9 st st'.
Proof.
  intros Hrun.
  pose proof (@triple_for_each Z
    (fun s => kept_by_stage3 st s /\ codes_within 8 9 st s)
    queue (waitForPipeline cfg env threadIndex)) as H.
  eapply H; [| |exact Hrun].
  - intros u _ s [Hk Hc] [] s' Hstep.
    apply waitForPipeline_spec in Hstep. destruct Hstep as [Hs Hc'].
    split.
    + unfold kept_by_stage3 in *. intuition congruence.
    + eapply codes_within_trans; eassumption.
  - split; [unfold kept_by_stage3; tauto | apply codes_within_refl].
Qed.

Lemma stagePipelines_loop_returns (queue : list Z) (st : ThreadState) :
  failFast cfg = false ->
  exists st',
    for_each queue (waitForPipeline cfg env threadIndex) st = Ret tt st'.
Proof.
  intros Hff.
  destruct (@returns_for_each Z (fun _ => True) queue
              (waitForPipeline cfg env threadIndex)) with (st := st)
    as ([] & st' & Hrun & _); [|exact I|eauto].
  intros u _ s _.
  destruct (waitForPipeline_returns u s Hff) as [s' Hs].
  exists tt, s'. auto.
Qed.
End Loops.

(** * Stage 1 never fills its channel *)

Section Stage1Bound.
Variable cfg : Config.
Variable env : Env.
Variable threadIndex : Z.

Hypothesis batches_nonzero : userBatches cfg <> 0.
Hypothesis batches_in_range : in_int64 (userBatches cfg).
Hypothesis users_in_range : 0 <= numberOfUsers cfg < 2 ^ 62.

Lemma closing_user_large (userIndex : Z) :
  1 <= userIndex -> Z.rem userIndex (userBatches cfg) = 0 ->
  Z.abs (userBatches cfg) <= userIndex.
Proof.
  intros Hu Hrem.
  destruct (Z_lt_le_dec userIndex (Z.abs (userBatches cfg))) as [Hlt|]; [|lia].
  assert (Z.rem userIndex (userBatches cfg) = userIndex); [|lia].
  apply Z.rem_small_iff; [assumption|]. lia.
Qed.

Lemma cohort_exact (userIndex : Z) :
  1 <= userIndex <= numberOfUsers cfg ->
  Z.rem userIndex (userBatches cfg) = 0 ->
  cohort cfg userIndex =
    from_to (userIndex - userBatches cfg + 1) userIndex.
Proof.
  intros Hu Hrem. pose proof (closing_user_large userIndex) as Hbig.
  unfold cohort.
  unfold in_int64, min_int64, max_int64 in *.
  rewrite Int64Facts.sub64_id
    by (unfold in_int64, min_int64, max_int64; lia).
  rewrite Int64Facts.add64_id
    by (unfold in_int64, min_int64, max_int64; lia).
  reflexivity.
Qed.

Lemma cohort_length (userIndex : Z) :
  1 <= userIndex <= numberOfUsers cfg ->
  Z.rem userIndex (userBatches cfg) = 0 ->
  Z.of_nat (List.length (cohort cfg userIndex)) = Z.max 0 (userBatches cfg).
Proof.
  intros Hu Hrem. rewrite cohort_exact by assumption.
  rewrite from_to_length. lia.
Qed.

Lemma forwarded_bound_mono (k : Z) :
  0 <= k -> forwarded_bound cfg k <= forwarded_bound cfg (k + 1).
Proof.
  intros Hk. unfold forwarded_bound.
  destruct (Z.ltb_spec 0 (userBatches cfg)); [|lia].
  apply Z.mul_le_mono_nonneg_l; [lia|].
  apply Z.div_le_mono; lia.
Qed.

Lemma forwarded_bound_closing (userIndex : Z) :
  1 <= userIndex -> Z.rem userIndex (userBatches cfg) = 0 ->
  forwarded_bound cfg (userIndex - 1) + Z.max 0 (userBatches cfg)
    <= forwarded_bound cfg userIndex /\
  forwarded_bound cfg userIndex <= userIndex.
Proof.
  intros Hu Hrem. unfold forwarded_bound.
  destruct (Z.ltb_spec 0 (userBatches cfg)) as [Hpos|]; [|lia].
  rewrite Z.rem_mod_nonneg in Hrem by lia.
  apply Z.mod_divide in Hrem; [|lia].
  destruct Hrem as [q Hq]. subst userIndex.
  rewrite Z.div_mul by lia.
  assert (Hd : (q * userBatches cfg - 1) / userBatches cfg = q - 1).
  { symmetry. apply Z.div_unique with (r := userBatches cfg - 1); lia. }
  rewrite Hd. lia.
Qed.

Lemma forwarded_bound_le (k : Z) : 0 <= k -> forwarded_bound cfg k <= k.
Proof.
  intros Hk. unfold forwarded_bound.
  destruct (Z.ltb_spec 0 (userBatches cfg)); [|lia].
  apply Z.mul_div_le. lia.
Qed.

Hypothesis goes_on : failFast cfg = false.

Lemma waitForCohort_returns (userIndex : Z) (members : list Z)
    (st : ThreadState) :
  Z.of_nat (List.length (chUsers st)) + Z.of_nat (List.length members)
    <= numberOfUsers cfg ->
  exists b st',
    waitForCohort cfg env threadIndex userIndex members st = Ret b st'.
Proof.
  revert st. induction members as [|i rest IH]; intros st Hroom; simpl.
  - unfold ret. eauto.
  - simpl in Hroom. unfold bind at 1. unfold call_wait_ForNamespace.
    destruct (wait_ForNamespace env _ _) as [e|].
    + unfold_ops. rewrite goes_on. eauto.
    + unfold bind at 1. unfold send_chUsers, chan_send. simpl.
      destruct (Z.ltb_spec (Z.of_nat (List.length (chUsers st)))
                  (numberOfUsers cfg)); [|lia].
      apply IH. simpl. rewrite List.length_app. simpl. lia.
Qed.

Lemma UserLoop_returns (userIndex : Z) (st : ThreadState) :
  (Z.rem userIndex (userBatches cfg) = 0 ->
   Z.of_nat (List.length (chUsers st)) +
   Z.of_nat (List.length (cohort cfg userIndex)) <= numberOfUsers cfg) ->
  exists st', UserLoop cfg env threadIndex userIndex st = Ret tt st'.
Proof.
  intros Hroom. unfold UserLoop.
  destruct (users_Create env _) as [e|].
  - unfold_ops. rewrite goes_on. eauto.
  - unfold go_rem.
    destruct (Z.eqb_spec (userBatches cfg) 0) as [|_]; [contradiction|].
    destruct (Z.eqb_spec (Z.rem userIndex (userBatches cfg)) 0) as [Hz|Hnz].
    + destruct (waitForCohort_returns userIndex (cohort cfg userIndex) st
                  (Hroom Hz)) as (b & st1 & Hwait).
      unfold bind. rewrite Hwait.
      destruct b; unfold_ops; eauto.
    + unfold_ops. eauto.
Qed.

(** The invariant of [UserLoop]: before the round of user [u] at most
    [forwarded_bound (u - 1)] users have been sent. *)
Lemma UserLoop_bound (userIndex : Z) :
  1 <= userIndex <= numberOfUsers cfg ->
  returns
    (fun st => Z.of_nat (List.length (chUsers st))
               <= forwarded_bound cfg (userIndex - 1))
    (UserLoop cfg env threadIndex userIndex)
    (fun _ st => Z.of_nat (List.length (chUsers st))
                 <= forwarded_bound cfg (userIndex + 1 - 1)).
Proof.
  intros Hu st Hst.
  replace (userIndex + 1 - 1) with userIndex by lia.
  pose proof (forwarded_bound_mono (userIndex - 1)) as Hmono.
  replace (userIndex - 1 + 1) with userIndex in Hmono by lia.
  destruct (UserLoop_returns userIndex st) as [st' Hrun].
  { intros Hrem. rewrite cohort_length by assumption.
    pose proof (forwarded_bound_closing userIndex) as Hc. lia. }
  exists tt, st'. split; [exact Hrun|].
  apply UserLoop_spec in Hrun.
  destruct Hrun as [_ [(e & _ & _ & Hch & _) | (_ & Hok)]].
  - rewrite Hch. lia.
  - destruct Hok as (r & b & st1 & Hrem & Hwait & _ & Hch & _).
    rewrite Hch. unfold go_rem in Hrem.
    destruct (userBatches cfg =? 0); [discriminate|].
    injection Hrem as <-.
    destruct (Z.eqb_spec (Z.rem userIndex (userBatches cfg)) 0) as [Hz|Hnz].
    + apply waitForCohort_spec in Hwait.
      destruct Hwait as (k & Hk & Hch1 & _).
      rewrite Hch1, List.length_app, length_take.
      pose proof (cohort_length userIndex Hu Hz) as Hlen.
      pose proof (forwarded_bound_closing userIndex) as Hc. lia.
    + destruct Hwait as [_ ->]. lia.
Qed.

Lemma stageUsers_returns (st : ThreadState) :
  chUsers st = [] ->
  exists st',
    stageUsers cfg env threadIndex st = Ret tt st' /\
    Z.of_nat (List.length (chUsers st')) <= numberOfUsers cfg.
Proof.
  intros Hempty. unfold stageUsers.
  destruct (@returns_for_range
              (fun u s => Z.of_nat (List.length (chUsers s))
                          <= forwarded_bound cfg (u - 1))
              (UserLoop cfg env threadIndex) (numberOfUsers cfg)
              (Z.to_nat (numberOfUsers cfg)) 1) with (st := st)
    as ([] & st' & Hrun & Hbound).
  - lia.
  - intros u Hu. apply UserLoop_bound. exact Hu.
  - rewrite Hempty. simpl. unfold forwarded_bound.
    destruct (0 <? userBatches cfg); [|lia].
    rewrite Z.div_0_l by lia. lia.
  - exists st'. split; [exact Hrun|].
    replace (numberOfUsers cfg + 1 - 1) with (numberOfUsers cfg)
      in Hbound by lia.
    pose proof (forwarded_bound_le (numberOfUsers cfg)). lia.
Qed.
End Stage1Bound.

(** * The whole thread *)

Section ThreadFacts.
Variable cfg : Config.
Variable env : Env.
Variable threadIndex : Z.

(** A thread that reaches its join has run its stages to their ends. *)
Lemma userJourneyThread_stages (st : ThreadState) :
  userJourneyThread cfg env threadIndex = Ret tt st ->
  0 <= numberOfUsers cfg /\
  exists st1 st2,
    stageUsers cfg env threadIndex initThreadState = Ret tt st1 /\
    stageResources cfg env threadIndex st1 = Ret tt st2 /\
    (if waitPipelines cfg
     then stagePipelines cfg env threadIndex st2 = Ret tt st
     else st = st2).
Proof.
  unfold userJourneyThread. intros Hrun.
  destruct (Z.ltb_spec (numberOfUsers cfg) 0); [discriminate|].
  split; [lia|].
  apply bind_Ret in Hrun. destruct Hrun as ([] & st1 & H1 & Hrun).
  apply bind_Ret in Hrun. destruct Hrun as ([] & st2 & H2 & Hrun).
  exists st1, st2. repeat split; auto.
  destruct (waitPipelines cfg); [exact Hrun|].
  unfold ret in Hrun. now inversion Hrun.
Qed.

(** What a thread leaves behind: the split of the error codes and of
    the channel contents over the stages. *)
Lemma userJourneyThread_spec (st : ThreadState) :
  userJourneyThread cfg env threadIndex = Ret tt st ->
  exists st1 st2,
    stageUsers cfg env threadIndex initThreadState = Ret tt st1 /\
    kept_by_stage1 initThreadState st1 /\
    codes_within 1 2 initThreadState st1 /\
    kept_by_stage2 st1 st2 /\
    codes_within 3 7 st1 st2 /\
    (forall v,
       In v (chPipelines st2) <->
       In v (chUsers st1) /\ steps_succeed cfg env threadIndex v) /\
    (List.length (chPipelines st2) <= List.length (chUsers st1))%nat /\
    (if waitPipelines cfg
     then kept_by_stage3 st2 st /\ codes_within 8 9 st2 st
     else st = st2).
Proof.
  intros Hrun. apply userJourneyThread_stages in Hrun.
  destruct Hrun as (_ & st1 & st2 & H1 & H2 & H3).
  exists st1, st2. split; [exact H1|].
  unfold stageUsers in H1. apply stageUsers_loop_spec in H1.
  destruct H1 as [Hk1 Hc1].
  unfold stageResources in H2. apply stageResources_loop_spec in H2.
  destruct H2 as (Hk2 & Hc2 & Hin & Hlen).
  assert (Hempty : chPipelines st1 = []).
  { unfold kept_by_stage1 in Hk1. simpl in Hk1. tauto. }
  rewrite Hempty in Hin, Hlen. simpl in Hin, Hlen.
  repeat (split; [assumption|]).
  split; [intros v; rewrite Hin; tauto|].
  split; [lia|].
  destruct (waitPipelines cfg); [|exact H3].
  unfold stagePipelines in H3. now apply stagePipelines_loop_spec in H3.
Qed.

Hypothesis batches_nonzero : userBatches cfg <> 0.
Hypothesis batches_in_range : in_int64 (userBatches cfg).
Hypothesis users_in_range : 0 <= numberOfUsers cfg < 2 ^ 62.
Hypothesis goes_on : failFast cfg = false.

(** With [failFast] off a thread always reaches its join: no send
    finds its channel full. *)
Lemma userJourneyThread_returns :
  exists st,
    userJourneyThread cfg env threadIndex = Ret tt st /\
    Z.of_nat (List.length (chUsers st)) <= numberOfUsers cfg /\
    Z.of_nat (List.length (chPipelines st)) <= numberOfUsers cfg.
Proof.
  destruct (stageUsers_returns cfg env threadIndex batches_nonzero
              batches_in_range users_in_range goes_on initThreadState)
    as (st1 & H1 & Hlen1); [reflexivity|].
  pose proof H1 as Hk1. unfold stageUsers in Hk1.
  apply stageUsers_loop_spec in Hk1. destruct Hk1 as [Hk1 _].
  assert (Hempty : chPipelines st1 = []).
  { unfold kept_by_stage1 in Hk1. simpl in Hk1. tauto. }
  destruct (stageResources_loop_returns cfg env threadIndex
              (chUsers st1) st1 goes_on batches_nonzero)
    as [st2 H2]; [rewrite Hempty; simpl; lia|].
  pose proof (stageResources_loop_spec _ _ _ _ _ _ H2)
    as (Hk2 & _ & _ & Hlen2).
  rewrite Hempty in Hlen2. simpl in Hlen2.
  assert (Hch2 : chUsers st2 = chUsers st1)
    by (unfold kept_by_stage2 in Hk2; tauto).
  unfold userJourneyThread.
  destruct (Z.ltb_spec (numberOfUsers cfg) 0); [lia|].
  unfold bind at 1. rewrite H1.
  unfold bind at 1. unfold stageResources at 1. rewrite H2.
  destruct (waitPipelines cfg).
  - destruct (stagePipelines_loop_returns cfg env threadIndex
                (chPipelines st2) st2 goes_on) as [st3 H3].
    pose proof (stagePipelines_loop_spec _ _ _ _ _ _ H3) as [Hk3 _].
    exists st3. unfold stagePipelines. split; [exact H3|].
    unfold kept_by_stage3 in Hk3.
    destruct Hk3 as (_ & _ & _ & _ & -> & -> & _). rewrite Hch2. lia.
  - exists st2. unfold ret. split; [reflexivity|]. rewrite Hch2. lia.
Qed.
End ThreadFacts.

(** The channel model does block when a channel is full. *)
Example chan_send_full : chan_send 1 [5] 7 = None.
Proof. reflexivity. Qed.

Example chan_send_room : chan_send 2 [5] 7 = Some [5; 7].
Proof. reflexivity. Qed.

(** * What [failFast] changes *)

Lemma exits_or_same_refl {A : Type} (m : M A) : exits_or_same m m.
Proof. intros st. now right. Qed.

Lemma exits_or_same_bind {A B : Type} (m m' : M A) (k k' : A -> M B) :
  exits_or_same m m' -> (forall a, exits_or_same (k a) (k' a)) ->
  exits_or_same (bind m k) (bind m' k').
Proof.
  intros Hm Hk st. unfold bind.
  destruct (Hm st) as [-> | ->]; [now left|].
  destruct (m' st) as [a st1| | |]; [apply Hk | now left | now right | now right].
Qed.

Lemma exits_or_same_for_each {A : Type} (items : list A)
    (body body' : A -> M unit) :
  (forall x, exits_or_same (body x) (body' x)) ->
  exits_or_same (for_each items body) (for_each items body').
Proof.
  intros Hbody. induction items as [|x rest IH]; simpl.
  - apply exits_or_same_refl.
  - apply exits_or_same_bind; auto.
Qed.

Section FailFast.
Variable cfg : Config.
Variable env : Env.
Variable threadIndex : Z.

Lemma call_logError_goOn (errCode : Z) (message : string) :
  exits_or_same (call_logError cfg errCode message)
    (call_logError (goOn cfg) errCode message).
Proof.
  intros st. unfold call_logError. simpl.
  destruct (failFast cfg); auto.
Qed.

Lemma waitForCohort_goOn (userIndex : Z) (members : list Z) :
  exits_or_same (waitForCohort cfg env threadIndex userIndex members)
    (waitForCohort (goOn cfg) env threadIndex userIndex members).
Proof.
  induction members as [|i rest IH]; simpl.
  - apply exits_or_same_refl.
  - apply exits_or_same_bind; [apply exits_or_same_refl|].
    intros [e|].
    + apply exits_or_same_bind; [apply call_logError_goOn|].
      intros _. apply exits_or_same_refl.
    + apply exits_or_same_bind; [apply exits_or_same_refl|].
      intros _. exact IH.
Qed.

Lemma UserLoop_goOn (userIndex : Z) :
  exits_or_same (UserLoop cfg env threadIndex userIndex)
    (UserLoop (goOn cfg) env threadIndex userIndex).
Proof.
  unfold UserLoop.
  change (username (goOn cfg) threadIndex userIndex)
    with (username cfg threadIndex userIndex).
  change (userBatches (goOn cfg)) with (userBatches cfg).
  destruct (users_Create env _) as [e|].
  - apply exits_or_same_bind; [apply call_logError_goOn|].
    intros _. apply exits_or_same_refl.
  - destruct (go_rem userIndex (userBatches cfg)) as [r|];
      [|apply exits_or_same_refl].
    apply exits_or_same_bind.
    + destruct (r =? 0); [apply waitForCohort_goOn|apply exits_or_same_refl].
    + intros b. apply exits_or_same_refl.
Qed.

Lemma createResources_goOn (userIndex : Z) :
  exits_or_same (createResources cfg env threadIndex userIndex)
    (createResources (goOn cfg) env threadIndex userIndex).
Proof.
  unfold createResources.
  change (usernamespace (goOn cfg) threadIndex userIndex)
    with (usernamespace cfg threadIndex userIndex).
  change (ApplicationName (goOn cfg) threadIndex userIndex)
    with (ApplicationName cfg threadIndex userIndex).
  change (ComponentName (goOn cfg) threadIndex userIndex)
    with (ComponentName cfg threadIndex userIndex).
  change (userBatches (goOn cfg)) with (userBatches cfg).
  repeat match goal with
         | |- context [match ?x with _ => _ end] => destruct x
         end;
    try (apply exits_or_same_bind; [apply call_logError_goOn|];
         intros _; apply exits_or_same_refl);
    apply exits_or_same_refl.
Qed.

Lemma waitForPipeline_goOn (userIndex : Z) :
  exits_or_same (waitForPipeline cfg env threadIndex userIndex)
    (waitForPipeline (goOn cfg) env threadIndex userIndex).
Proof.
  unfold waitForPipeline.
  change (usernamespace (goOn cfg) threadIndex userIndex)
    with (usernamespace cfg threadIndex userIndex).
  change (ApplicationName (goOn cfg) threadIndex userIndex)
    with (ApplicationName cfg threadIndex userIndex).
  change (ComponentName (goOn cfg) threadIndex userIndex)
    with (ComponentName cfg threadIndex userIndex).
  destruct (GetComponentPipelineRun env _ _ _)
    as [e|elapsed [[reason message]|]].
  - apply exits_or_same_bind; [apply call_logError_goOn|].
    intros _. apply exits_or_same_refl.
  - apply exits_or_same_bind; [apply exits_or_same_refl|]. intros _.
    apply exits_or_same_bind; [apply call_logError_goOn|].
    intros _. apply exits_or_same_refl.
  - apply exits_or_same_refl.
Qed.

(** With [failFast] on, a thread either ends the process at an error or
    does exactly what it does with [failFast] off. *)
Lemma userJourneyThread_goOn :
  userJourneyThread cfg env threadIndex = Fatal \/
  userJourneyThread cfg env threadIndex =
    userJourneyThread (goOn cfg) env threadIndex.
Proof.
  unfold userJourneyThread.
  change (numberOfUsers (goOn cfg)) with (numberOfUsers cfg).
  change (waitPipelines (goOn cfg)) with (waitPipelines cfg).
  destruct (numberOfUsers cfg <? 0); [now right|].
  apply exits_or_same_bind.
  - unfold stageUsers.
    change (numberOfUsers (goOn cfg)) with (numberOfUsers cfg).
    apply exits_or_same_for_each. apply UserLoop_goOn.
  - intros _. apply exits_or_same_bind.
    + intros st. unfold stageResources.
      apply exits_or_same_for_each. apply createResources_goOn.
    + intros _. destruct (waitPipelines cfg); [|apply exits_or_same_refl].
      intros st. unfold stagePipelines.
      apply exits_or_same_for_each. apply waitForPipeline_goOn.
Qed.
End FailFast.

(** C10: with [waitPipelines] off nobody receives from [chPipelines], and
    still no send of stage 2 blocks: the channel has room for
    [numberOfUsers] values and stage 2 sends at most that many.  The
    thread never ends blocked, and with [failFast] off, when no error
    ends the process, it reaches its join.  ([userBatches] has passed
    the check of [setup].) *)
Theorem stage2_sends_never_block (cfg : Config) (env : Env)
    (threadIndex : Z) :
  waitPipelines cfg = false ->
  userBatches cfg <> 0 -> in_int64 (userBatches cfg) ->
  0 <= numberOfUsers cfg < 2 ^ 62 ->
  userJourneyThread cfg env threadIndex <> Blocked /\
  (failFast cfg = false ->
   exists st,
     userJourneyThread cfg env threadIndex = Ret tt st /\
     Z.of_nat (List.length (chPipelines st)) <= numberOfUsers cfg).
Proof.
  intros _ HB HBr HN. split.
  - destruct (userJourneyThread_returns (goOn cfg) env threadIndex
                HB HBr HN eq_refl) as (st & Hrun & _).
    destruct (userJourneyThread_goOn cfg env threadIndex) as [H|H];
      rewrite H; [discriminate|].
    rewrite Hrun. discriminate.
  - intros Hff.
    destruct (userJourneyThread_returns cfg env threadIndex HB HBr HN Hff)
      as (st & Hrun & _ & Hlen).
    eauto.
Qed.

Lemma stage2_sends_never_block_witness :
  exists st,
    userJourneyThread (mkConfig "testuser" 4 2 2 false false) steadyEnv 1
      = Ret tt st /\
    Z.of_nat (List.length (chPipelines st)) <= 4.
Proof.
  apply (stage2_sends_never_block
           (mkConfig "testuser" 4 2 2 false false) steadyEnv 1);
    unfold in_int64, min_int64, max_int64; simpl; try reflexivity; lia.
Defined.

(** * Stage 3 switched off *)

Lemma logErrors_other_code (cfg : Config) (errCode : Z)
    (calls : list (Z * string)) (m m' : gmap Z ErrorOccurrence) :
  Forall (fun c => fst c <> errCode) calls ->
  logErrors cfg calls m = Some m' ->
  m' !! errCode = m !! errCode.
Proof.
  revert m. induction calls as [|[c message] rest IH]; intros m Hall Hrun.
  - simpl in Hrun. now injection Hrun as <-.
  - simpl in Hrun. inversion Hall as [|? ? Hc Hrest]; subst. simpl in Hc.
    destruct (logError cfg c message m) as [m1|] eqn:Hlog; [|discriminate].
    rewrite (IH m1 Hrest Hrun).
    unfold logError in Hlog. destruct (failFast cfg); [discriminate|].
    destruct (m !! c); injection Hlog as <-; now rewrite lookup_insert_ne.
Qed.

Lemma codes_within_Forall (lo hi : Z) (P : Z * string -> Prop)
    (st st' : ThreadState) :
  (forall c, lo <= fst c <= hi -> P c) ->
  Forall P (errorCalls st) -> codes_within lo hi st st' ->
  Forall P (errorCalls st').
Proof.
  intros HP Hst (extra & -> & H). apply Forall_app. split; [exact Hst|].
  eapply Forall_impl; [exact H|]. exact HP.
Qed.

(** What a thread without stage 3 leaves in the fields of stage 3. *)
Lemma userJourneyThread_without_pipelines (cfg : Config) (env : Env)
    (threadIndex : Z) :
  waitPipelines cfg = false ->
  let st := final_state (userJourneyThread cfg env threadIndex) in
  AveragePipelineRunTimePerUser st = 0 /\
  FailedPipelineRuns st = 0 /\
  Forall (fun c => fst c <> 8 /\ fst c <> 9) (errorCalls st).
Proof.
  intros Hwait.
  destruct (userJourneyThread cfg env threadIndex) as [[] st| | |] eqn:Hrun;
    simpl; auto.
  apply userJourneyThread_spec in Hrun.
  destruct Hrun as (st1 & st2 & _ & Hk1 & Hc1 & Hk2 & Hc2 & _ & _ & Hend).
  rewrite Hwait in Hend. subst st2.
  unfold kept_by_stage1 in Hk1. unfold kept_by_stage2 in Hk2.
  simpl in Hk1.
  split; [intuition congruence|]. split; [intuition congruence|].
  eapply codes_within_Forall; [| |exact Hc2].
  - simpl. intros c Hc. lia.
  - eapply codes_within_Forall; [| |exact Hc1].
    + simpl. intros c Hc. lia.
    + simpl. constructor.
Qed.

Lemma sumFromArray_zeros (array : list Z) :
  Forall (fun x => x = 0) array -> sumFromArray array = 0.
Proof.
  unfold sumFromArray. induction array as [|x rest IH]; intros H.
  - reflexivity.
  - inversion H; subst. simpl. apply IH. assumption.
Qed.

(** C7: with [waitPipelines] off, whatever stages 1 and 2 run into, every
    thread leaves its slots of [AveragePipelineRunTimePerUser] and
    [FailedPipelineRuns] at zero, and the error table, in whatever order
    it saw the calls of the threads, has no entry for the codes 8
    and 9. *)
Theorem pipelines_stage_skipped (cfg : Config) (env : Env)
    (threads : list Z) :
  waitPipelines cfg = false ->
  let results := threadResults cfg env threads in
  Forall (fun x => x = 0) (arrayOf AveragePipelineRunTimePerUser results) /\
  Forall (fun x => x = 0) (arrayOf FailedPipelineRuns results) /\
  sumFromArray (arrayOf FailedPipelineRuns results) = 0 /\
  forall m : gmap Z ErrorOccurrence,
    possibleErrorTable cfg results m -> m !! 8 = None /\ m !! 9 = None.
Proof.
  intros Hwait results.
  assert (Hdur : Forall (fun x => x = 0)
                   (arrayOf AveragePipelineRunTimePerUser results)).
  { unfold arrayOf, results, threadResults. rewrite List.map_map.
    apply Forall_forall. intros x Hx. apply list_elem_of_In in Hx.
    apply List.in_map_iff in Hx.
    destruct Hx as (t & <- & _).
    now destruct (userJourneyThread_without_pipelines cfg env t Hwait). }
  assert (Hfail : Forall (fun x => x = 0)
                    (arrayOf FailedPipelineRuns results)).
  { unfold arrayOf, results, threadResults. rewrite List.map_map.
    apply Forall_forall. intros x Hx. apply list_elem_of_In in Hx.
    apply List.in_map_iff in Hx.
    destruct Hx as (t & <- & _).
    now destruct (userJourneyThread_without_pipelines cfg env t Hwait)
      as (_ & ? & _). }
  split; [exact Hdur|]. split; [exact Hfail|].
  split; [now apply sumFromArray_zeros|].
  intros m (calls & Hperm & Hrun).
  assert (Hcodes : Forall (fun c => fst c <> 8 /\ fst c <> 9) calls).
  { rewrite Hperm. unfold allErrorCalls, results, threadResults.
    rewrite List.map_map. apply Forall_forall. intros c Hc.
    apply list_elem_of_In in Hc.
    apply List.in_concat in Hc. destruct Hc as (l & Hl & Hc).
    apply List.in_map_iff in Hl. destruct Hl as (t & <- & _).
    destruct (userJourneyThread_without_pipelines cfg env t Hwait)
      as (_ & _ & Hall).
    rewrite Forall_forall in Hall. apply Hall. now apply list_elem_of_In. }
  split.
  - rewrite (logErrors_other_code cfg 8 calls ∅ m); [apply lookup_empty| |exact Hrun].
    eapply Forall_impl; [exact Hcodes|]. simpl. tauto.
  - rewrite (logErrors_other_code cfg 9 calls ∅ m); [apply lookup_empty| |exact Hrun].
    eapply Forall_impl; [exact Hcodes|]. simpl. tauto.
Qed.

Lemma pipelines_stage_skipped_witness :
  sumFromArray
    (arrayOf FailedPipelineRuns
       (threadResults fourUsersConfig secretFailsEnv [0])) = 0.
Proof.
  apply (pipelines_stage_skipped fourUsersConfig secretFailsEnv [0]).
  reflexivity.
Defined.

(** * A failing step of stage 2 *)

Lemma createResources_fails (cfg : Config) (env : Env)
    (threadIndex userIndex c : Z) (st : ThreadState) :
  failFast cfg = false ->
  step_fails cfg env threadIndex userIndex c ->
  exists st' message,
    createResources cfg env threadIndex userIndex st = Ret tt st' /\
    errorCalls st' = errorCalls st ++ [(c, message)] /\
    FailedResourceCreations st' = add64 (FailedResourceCreations st) 1 /\
    chPipelines st' = chPipelines st /\
    AverageResourceCreationTimePerUser st' =
      AverageResourceCreationTimePerUser st.
Proof.
  intros Hff Hfail. unfold createResources.
  destruct Hfail as [e Hs | e Hs Ha | e Hs Ha Hg | e Hs Ha Hg Hc
                    | name Hs Ha Hg Hc Hne].
  - rewrite Hs. unfold_ops. rewrite Hff.
    eexists _, _. simpl. repeat split.
  - rewrite Hs, Ha. unfold_ops. rewrite Hff.
    eexists _, _. simpl. repeat split.
  - rewrite Hs, Ha, Hg. unfold_ops. rewrite Hff.
    eexists _, _. simpl. repeat split.
  - rewrite Hs, Ha, Hg, Hc. unfold_ops. rewrite Hff.
    eexists _, _. simpl. repeat split.
  - rewrite Hs, Ha, Hg, Hc.
    apply String.eqb_neq in Hne. rewrite Hne. simpl.
    unfold_ops. rewrite Hff.
    eexists _, _. simpl. repeat split.
Qed.

(** With [failFast] on, the same failure ends the process at its
    [logError]: nothing is recorded and the queue is not finished. *)
Lemma createResources_fail_fast (cfg : Config) (env : Env)
    (threadIndex userIndex c : Z) (st : ThreadState) :
  failFast cfg = true ->
  step_fails cfg env threadIndex userIndex c ->
  createResources cfg env threadIndex userIndex st = Fatal.
Proof.
  intros Hff Hfail. unfold createResources.
  destruct Hfail as [e Hs | e Hs Ha | e Hs Ha Hg | e Hs Ha Hg Hc
                    | name Hs Ha Hg Hc Hne].
  - rewrite Hs. unfold_ops. now rewrite Hff.
  - rewrite Hs, Ha. unfold_ops. now rewrite Hff.
  - rewrite Hs, Ha, Hg. unfold_ops. now rewrite Hff.
  - rewrite Hs, Ha, Hg, Hc. unfold_ops. now rewrite Hff.
  - rewrite Hs, Ha, Hg, Hc.
    apply String.eqb_neq in Hne. rewrite Hne. simpl.
    unfold_ops. now rewrite Hff.
Qed.

(** C6: a user for whom a step of stage 2 fails gets the error code of
    that step, a code from 3 to 7, logged once; the thread's slot of
    [FailedResourceCreations] goes up by one; the user is not sent on
    [chPipelines]; and the stage goes on to the end of its queue, sending
    on every user of the queue whose steps all succeed.  ([failFast] is
    off, so that the error does not end the process; [userBatches] has
    passed the check of [setup].) *)
Theorem stage2_failure_is_local (cfg : Config) (env : Env)
    (threadIndex userIndex c : Z) :
  failFast cfg = false ->
  userBatches cfg <> 0 ->
  step_fails cfg env threadIndex userIndex c ->
  3 <= c <= 7 /\
  (forall st : ThreadState,
     exists st' message,
       createResources cfg env threadIndex userIndex st = Ret tt st' /\
       errorCalls st' = errorCalls st ++ [(c, message)] /\
       FailedResourceCreations st' = add64 (FailedResourceCreations st) 1 /\
       (in_int64 (FailedResourceCreations st + 1) ->
        FailedResourceCreations st' = FailedResourceCreations st + 1) /\
       chPipelines st' = chPipelines st) /\
  (forall (before after : list Z) (st : ThreadState),
     Z.of_nat (List.length (chPipelines st)) +
     Z.of_nat (List.length (before ++ userIndex :: after))
       <= numberOfUsers cfg ->
     exists st',
       for_each (before ++ userIndex :: after)
         (createResources cfg env threadIndex) st = Ret tt st' /\
       (~ In userIndex (chPipelines st) ->
        ~ In userIndex (chPipelines st')) /\
       (forall v, In v (before ++ after) ->
          steps_succeed cfg env threadIndex v -> In v (chPipelines st'))).
Proof.
  intros Hff HB Hfail.
  split; [eapply step_fails_code; eassumption|]. split.
  - intros st.
    destruct (createResources_fails cfg env threadIndex userIndex c st
                Hff Hfail) as (st' & message & Hrun & He & Hf & Hch & _).
    exists st', message. repeat split; auto.
    intros Hr. rewrite Hf. now apply Int64Facts.add64_id.
  - intros before after st Hroom.
    destruct (stageResources_loop_returns cfg env threadIndex
                (before ++ userIndex :: after) st Hff HB Hroom)
      as [st' Hrun].
    exists st'. split; [exact Hrun|].
    apply stageResources_loop_spec in Hrun.
    destruct Hrun as (_ & _ & Hin & _). split.
    + intros Hnot Hu. apply Hin in Hu. destruct Hu as [Hu|[_ Hs]].
      * contradiction.
      * eapply step_fails_not_succeed; eassumption.
    + intros v Hv Hs. apply Hin. right. split; [|exact Hs].
      rewrite List.in_app_iff in *. simpl. tauto.
Qed.

Lemma stage2_failure_is_local_witness :
  3 <= 3 <= 7 /\
  exists st',
    for_each ([1] ++ 2 :: [3; 4])
      (createResources fourUsersConfig secretFailsEnv 0) initThreadState
      = Ret tt st' /\
    ~ In 2 (chPipelines st') /\ In 1 (chPipelines st') /\
    In 3 (chPipelines st') /\ In 4 (chPipelines st').
Proof.
  assert (Hfail : step_fails fourUsersConfig secretFailsEnv 0 2 3)
    by (eapply secret_fails; reflexivity).
  assert (Hok : forall v, In v [1; 3; 4] ->
                  steps_succeed fourUsersConfig secretFailsEnv 0 v).
  { intros v [<-|[<-|[<-|[]]]]; repeat split. }
  destruct (stage2_failure_is_local fourUsersConfig secretFailsEnv 0 2 3)
    as (Hcode & _ & Hloop); [reflexivity | discriminate | exact Hfail |].
  split; [exact Hcode|].
  destruct (Hloop [1] [3; 4] initThreadState) as (st' & Hrun & Hnot & Hall);
    [simpl; lia|].
  exists st'. split; [exact Hrun|].
  split; [apply Hnot; simpl; tauto|].
  repeat split; apply Hall; simpl; auto; apply Hok; simpl; auto.
Defined.

(** The scenario as a run: of four users the second fails in stage 2;
    the other three go on and the failure is counted once. *)
Example one_secret_fails_of_four :
  exists st,
    userJourneyThread fourUsersConfig secretFailsEnv 0 = Ret tt st /\
    chUsers st = [1; 2; 3; 4] /\ chPipelines st = [1; 3; 4] /\
    FailedResourceCreations st = 1 /\
    List.map fst (errorCalls st) = [3].
Proof. eexists. split; [vm_compute; reflexivity|]. repeat split. Qed.

(** * The check of the batch size *)

(** C5: with the collaborators of [setup] ready and a thread count that
    is not negative, the process ends before any thread is started
    exactly when [numberOfUsers % userBatches] is not zero (a zero
    [userBatches] makes the remainder itself panic); the fatal message
    about the batches is what ends it whenever the remainder exists.
    When the remainder is zero, [threadCount] threads are started, with
    the indices 0 to [threadCount - 1]. *)
Theorem batches_checked_before_spawn (cfg : Config) (env : Env) :
  collaborators_ready env ->
  0 <= threadCount cfg ->
  (ends_before_spawn (startup cfg env) = true <->
   go_rem (numberOfUsers cfg) (userBatches cfg) <> Some 0) /\
  (startup cfg env = StartupFatal "Please Provide Correct Batches!" <->
   userBatches cfg <> 0 /\
   Z.rem (numberOfUsers cfg) (userBatches cfg) <> 0) /\
  (go_rem (numberOfUsers cfg) (userBatches cfg) = Some 0 ->
   startup cfg env = Spawned (from_to 0 (threadCount cfg - 1)) /\
   Z.of_nat (List.length (from_to 0 (threadCount cfg - 1))) =
     threadCount cfg).
Proof.
  intros (Hlog & Hfw & Htok) HT. unfold startup.
  rewrite Hlog, Hfw, Htok. unfold go_rem.
  destruct (Z.eqb_spec (userBatches cfg) 0) as [HB|HB].
  - simpl. repeat split; try congruence; try tauto.
  - destruct (Z.eqb_spec (Z.rem (numberOfUsers cfg) (userBatches cfg)) 0)
      as [Hz|Hnz]; simpl.
    + destruct (Z.ltb_spec (threadCount cfg) 0); [lia|]. simpl.
      rewrite Hz. repeat split; try congruence; try tauto.
      rewrite from_to_length. lia.
    + repeat split; try congruence; try tauto.
Qed.

Lemma batches_checked_before_spawn_witness :
  startup (mkConfig "testuser" 4 2 3 false false) steadyEnv =
    Spawned (from_to 0 2) /\
  ends_before_spawn
    (startup (mkConfig "testuser" 5 2 3 false false) steadyEnv) = true.
Proof.
  split.
  - apply (batches_checked_before_spawn
             (mkConfig "testuser" 4 2 3 false false) steadyEnv);
      [repeat split | simpl; lia | reflexivity].
  - apply (batches_checked_before_spawn
             (mkConfig "testuser" 5 2 3 false false) steadyEnv);
      [repeat split | simpl; lia | discriminate].
Defined.

(** * Counting in stage 1 *)

Section Stage1Count.
Variable cfg : Config.
Variable env : Env.
Variable threadIndex : Z.

Hypothesis batches_positive : 0 < userBatches cfg.
Hypothesis batches_in_range : in_int64 (userBatches cfg).
Hypothesis users_in_range : 0 <= numberOfUsers cfg < 2 ^ 62.

Let batches_nonzero : userBatches cfg <> 0.
Proof. lia. Qed.

Lemma forwarded_bound_closing_eq (userIndex : Z) :
  1 <= userIndex -> Z.rem userIndex (userBatches cfg) = 0 ->
  forwarded_bound cfg userIndex =
    forwarded_bound cfg (userIndex - 1) + userBatches cfg.
Proof.
  intros Hu Hrem. unfold forwarded_bound.
  destruct (Z.ltb_spec 0 (userBatches cfg)) as [Hpos|]; [|lia].
  rewrite Z.rem_mod_nonneg in Hrem by lia.
  apply Z.mod_divide in Hrem; [|lia].
  destruct Hrem as [q Hq]. subst userIndex.
  rewrite Z.div_mul by lia.
  assert (Hd : (q * userBatches cfg - 1) / userBatches cfg = q - 1).
  { symmetry. apply Z.div_unique with (r := userBatches cfg - 1); lia. }
  rewrite Hd. lia.
Qed.

Lemma forwarded_bound_open_eq (userIndex : Z) :
  1 <= userIndex -> Z.rem userIndex (userBatches cfg) <> 0 ->
  forwarded_bound cfg userIndex = forwarded_bound cfg (userIndex - 1).
Proof.
  intros Hu Hrem. unfold forwarded_bound.
  destruct (Z.ltb_spec 0 (userBatches cfg)) as [Hpos|]; [|lia].
  rewrite Z.rem_mod_nonneg in Hrem by lia.
  f_equal.
  pose proof (Z.div_mod userIndex (userBatches cfg) batches_nonzero) as Hdm.
  pose proof (Z.mod_pos_bound userIndex (userBatches cfg) Hpos) as Hb.
  apply Z.div_unique with (r := userIndex mod userBatches cfg - 1); lia.
Qed.

Lemma forwarded_bound_all :
  Z.rem (numberOfUsers cfg) (userBatches cfg) = 0 ->
  forwarded_bound cfg (numberOfUsers cfg) = numberOfUsers cfg.
Proof.
  intros Hrem. unfold forwarded_bound.
  destruct (Z.ltb_spec 0 (userBatches cfg)) as [Hpos|]; [|lia].
  rewrite Z.rem_mod_nonneg in Hrem by lia.
  pose proof (Z.div_mod (numberOfUsers cfg) (userBatches cfg)
                batches_nonzero). lia.
Qed.

(** When nothing fails, every closed cohort is sent whole and nothing
    is counted as failed. *)
Lemma UserLoop_all_succeed (userIndex : Z) :
  no_stage1_failure env ->
  1 <= userIndex <= numberOfUsers cfg ->
  triple
    (fun st => FailedUserCreations st = 0 /\
               Z.of_nat (List.length (chUsers st)) =
                 forwarded_bound cfg (userIndex - 1))
    (UserLoop cfg env threadIndex userIndex)
    (fun _ st => FailedUserCreations st = 0 /\
                 Z.of_nat (List.length (chUsers st)) =
                   forwarded_bound cfg (userIndex + 1 - 1)).
Proof.
  intros [Hcreate Hwaits] Hu st [Hf Hlen] [] st' Hrun.
  replace (userIndex + 1 - 1) with userIndex by lia.
  apply UserLoop_spec in Hrun.
  destruct Hrun as [_ [(e & He & _) | (_ & Hok)]].
  { rewrite Hcreate in He. discriminate. }
  destruct Hok as (r & b & st1 & Hrem & Hwait & Hf' & Hch & _).
  rewrite Hf', Hch. unfold go_rem in Hrem.
  destruct (userBatches cfg =? 0); [discriminate|].
  injection Hrem as <-.
  destruct (Z.eqb_spec (Z.rem userIndex (userBatches cfg)) 0) as [Hz|Hnz].
  - apply waitForCohort_spec in Hwait.
    destruct Hwait as (k & _ & Hch1 & _ & _ & Hb & _).
    destruct b.
    + destruct Hb as (-> & _ & ->). split; [exact Hf|].
      rewrite Hch1, List.length_app, firstn_all.
      rewrite Nat2Z.inj_add, Hlen.
      rewrite (cohort_length cfg batches_nonzero batches_in_range
                 users_in_range userIndex Hu Hz).
      rewrite (forwarded_bound_closing_eq userIndex) by (lia || assumption). lia.
    + destruct Hb as (_ & (e & He & _) & _).
      rewrite Hwaits in He. discriminate.
  - destruct Hwait as [_ ->]. split; [exact Hf|].
    rewrite (forwarded_bound_open_eq userIndex) by (lia || assumption).
    exact Hlen.
Qed.

(** With cohorts of one, a user is either counted as failed or sent. *)
Lemma UserLoop_batch_one (userIndex : Z) :
  userBatches cfg = 1 ->
  1 <= userIndex <= numberOfUsers cfg ->
  triple
    (fun st => 0 <= FailedUserCreations st /\
               FailedUserCreations st +
               Z.of_nat (List.length (chUsers st)) = userIndex - 1)
    (UserLoop cfg env threadIndex userIndex)
    (fun _ st => 0 <= FailedUserCreations st /\
                 FailedUserCreations st +
                 Z.of_nat (List.length (chUsers st)) = userIndex + 1 - 1).
Proof.
  intros Hone Hu st [Hf Hsum] [] st' Hrun.
  replace (userIndex + 1 - 1) with userIndex by lia.
  assert (Hincr : add64 (FailedUserCreations st) 1 =
                  FailedUserCreations st + 1).
  { apply Int64Facts.add64_id.
    unfold in_int64, min_int64, max_int64. lia. }
  apply UserLoop_spec in Hrun.
  destruct Hrun as [_ [(e & _ & Hf' & Hch & _) | (_ & Hok)]].
  { rewrite Hf', Hch, Hincr. lia. }
  destruct Hok as (r & b & st1 & Hrem & Hwait & Hf' & Hch & _).
  rewrite Hf', Hch. unfold go_rem in Hrem. rewrite Hone in Hrem.
  simpl in Hrem. injection Hrem as <-.
  assert (Hz : Z.rem userIndex (userBatches cfg) = 0)
    by (rewrite Hone; apply Z.rem_1_r).
  rewrite Z.rem_1_r in Hwait. simpl in Hwait.
  pose proof (cohort_length cfg batches_nonzero batches_in_range
                users_in_range userIndex Hu Hz) as Hclen.
  apply waitForCohort_spec in Hwait.
  destruct Hwait as (k & Hk & Hch1 & _ & _ & Hb & _).
  rewrite Hch1, List.length_app, length_take.
  destruct b.
  - destruct Hb as (-> & _ & ->). lia.
  - destruct Hb as (Hlt & _ & ->). rewrite Hincr. lia.
Qed.

Lemma stageUsers_conserves (st : ThreadState) :
  Z.rem (numberOfUsers cfg) (userBatches cfg) = 0 ->
  userBatches cfg = 1 \/ no_stage1_failure env ->
  stageUsers cfg env threadIndex initThreadState = Ret tt st ->
  0 <= FailedUserCreations st /\
  FailedUserCreations st + Z.of_nat (List.length (chUsers st)) =
    numberOfUsers cfg.
Proof.
  intros Hdiv [Hone|Hok] Hrun; unfold stageUsers in Hrun.
  - pose proof (@triple_for_range
      (fun u s => 0 <= FailedUserCreations s /\
                  FailedUserCreations s +
                  Z.of_nat (List.length (chUsers s)) = u - 1)
      (UserLoop cfg env threadIndex) (numberOfUsers cfg)
      (Z.to_nat (numberOfUsers cfg)) 1) as H.
    simpl in H.
    replace (numberOfUsers cfg + 1 - 1) with (numberOfUsers cfg) in H by lia.
    apply (H ltac:(lia)
             (fun u Hu => UserLoop_batch_one u Hone Hu)
             initThreadState ltac:(simpl; lia) tt st Hrun).
  - pose proof (@triple_for_range
      (fun u s => FailedUserCreations s = 0 /\
                  Z.of_nat (List.length (chUsers s)) =
                    forwarded_bound cfg (u - 1))
      (UserLoop cfg env threadIndex) (numberOfUsers cfg)
      (Z.to_nat (numberOfUsers cfg)) 1) as H.
    cbv beta in H.
    replace (numberOfUsers cfg + 1 - 1) with (numberOfUsers cfg) in H by lia.
    assert (Hinit : forwarded_bound cfg 0 = 0).
    { unfold forwarded_bound. destruct (0 <? userBatches cfg); [|lia].
      rewrite Z.div_0_l by lia. lia. }
    destruct (H ltac:(lia)
                (fun u Hu => UserLoop_all_succeed u Hok Hu)
                initThreadState
                ltac:(split; [reflexivity|];
                      replace (1 - 1) with 0 by lia;
                      rewrite Hinit; reflexivity)
                tt st Hrun) as [Hf Hlen].
    rewrite Hf, Hlen, forwarded_bound_all by assumption. lia.
Qed.
End Stage1Count.

(** * The report of a completed run *)

Lemma existsb_false_Forall {A : Type} (p : A -> bool) (l : list A) :
  existsb p l = false -> Forall (fun x => p x = false) l.
Proof.
  induction l as [|x rest IH]; simpl; intros H; constructor.
  - now apply orb_false_iff in H.
  - apply IH. now apply orb_false_iff in H.
Qed.

Lemma setup_completed (cfg : Config) (env : Env) (rep : LogData) :
  setup cfg env = Completed rep ->
  collaborators_ready env /\
  go_rem (numberOfUsers cfg) (userBatches cfg) = Some 0 /\
  0 <= threadCount cfg /\
  rep = report cfg
          (threadResults cfg env (from_to 0 (threadCount cfg - 1))) /\
  forall threadIndex, 0 <= threadIndex < threadCount cfg ->
    exists st, userJourneyThread cfg env threadIndex = Ret tt st.
Proof.
  unfold setup, startup, collaborators_ready. intros Hrun.
  destruct (os_Create env); [discriminate|].
  destruct (go_rem (numberOfUsers cfg) (userBatches cfg)) as [r|];
    [|discriminate].
  destruct (Z.eqb_spec r 0) as [Hr|Hr]; simpl in Hrun; [subst r|discriminate].
  destruct (framework_NewFramework env); [discriminate|].
  destruct (auth_GetTokenFromOC env); [discriminate|].
  destruct (Z.ltb_spec (threadCount cfg) 0); [discriminate|].
  destruct (existsb is_Panic _) eqn:Hpanic; [discriminate|].
  destruct (existsb is_Fatal _) eqn:Hfatal; [discriminate|].
  destruct (existsb is_Blocked _) eqn:Hblocked; [discriminate|].
  injection Hrun as <-. repeat split; auto.
  intros t Ht.
  assert (Hin : In (userJourneyThread cfg env t)
                  (threadResults cfg env (from_to 0 (threadCount cfg - 1)))).
  { unfold threadResults. apply List.in_map. apply In_from_to. lia. }
  apply existsb_false_Forall in Hpanic, Hfatal, Hblocked.
  rewrite Forall_forall in Hpanic, Hfatal, Hblocked.
  apply list_elem_of_In in Hin.
  specialize (Hpanic _ Hin). specialize (Hfatal _ Hin).
  specialize (Hblocked _ Hin).
  destruct (userJourneyThread cfg env t) as [[] st| | |];
    try discriminate. eauto.
Qed.

Lemma sumFromArray_exact (bound : Z) (array : list Z) :
  Forall (fun x => 0 <= x <= bound) array ->
  Z.of_nat (List.length array) * bound <= max_int64 ->
  sumFromArray array = fold_right Z.add 0 array.
Proof.
  intros Hall Hlen. unfold sumFromArray.
  assert (Hgen : forall acc,
            0 <= acc ->
            acc + Z.of_nat (List.length array) * bound <= max_int64 ->
            fold_left (fun sum i => add64 sum i) array acc =
              acc + fold_right Z.add 0 array /\
            0 <= fold_right Z.add 0 array).
  { clear Hlen. induction Hall as [|x rest Hx Hrest IH]; intros acc Hacc Hb.
    - simpl. split; lia.
    - simpl in *.
      assert (Hstep : add64 acc x = acc + x).
      { apply Int64Facts.add64_id.
        unfold in_int64, min_int64, max_int64 in *. nia. }
      rewrite Hstep. destruct (IH (acc + x)) as [IH1 IH2]; [lia|nia|].
      rewrite IH1. split; lia. }
  destruct (Hgen 0) as [H _]; [lia|lia|]. rewrite H. lia.
Qed.

(** C3, as the code has it: in a run that completes, the failures counted
    by stage 1 and the users sent to stage 2 add up to the number of
    users when nothing fails in stage 1, and also, whatever fails, when
    the cohorts have one member each.  (An error is counted once for a
    whole cohort, and a cohort is evaluated only when the sign-up of its
    last user succeeds.) *)
Theorem stage1_conservation_without_failures_or_batch_one
    (cfg : Config) (env : Env) (rep : LogData) :
  setup cfg env = Completed rep ->
  0 < userBatches cfg -> in_int64 (userBatches cfg) ->
  numberOfUsers cfg < 2 ^ 62 ->
  threadCount cfg * numberOfUsers cfg <= max_int64 ->
  userBatches cfg = 1 \/ no_stage1_failure env ->
  UserCreationFailureCount rep +
  forwardedCount (threadResults cfg env (from_to 0 (threadCount cfg - 1)))
    = threadCount cfg * numberOfUsers cfg.
Proof.
  intros Hrun HB HBr HN HTN Hcase.
  apply setup_completed in Hrun.
  destruct Hrun as (_ & Hrem & HT & -> & Hthreads).
  unfold report. simpl.
  assert (Hdiv : Z.rem (numberOfUsers cfg) (userBatches cfg) = 0).
  { unfold go_rem in Hrem. destruct (userBatches cfg =? 0); [discriminate|].
    congruence. }
  assert (Hper : forall t, 0 <= t < threadCount cfg ->
            let st := final_state (userJourneyThread cfg env t) in
            0 <= FailedUserCreations st <= numberOfUsers cfg /\
            FailedUserCreations st + Z.of_nat (List.length (chUsers st))
              = numberOfUsers cfg).
  { intros t Ht. destruct (Hthreads t Ht) as [st Hst]. rewrite Hst. simpl.
    pose proof (userJourneyThread_stages _ _ _ _ Hst) as (HN0 & _).
    apply userJourneyThread_spec in Hst.
    destruct Hst as (st1 & st2 & H1 & _ & _ & Hk2 & _ & _ & _ & Hend).
    apply stageUsers_conserves in H1; try assumption; try lia.
    assert (Hsame : FailedUserCreations st = FailedUserCreations st1 /\
                    chUsers st = chUsers st1).
    { unfold kept_by_stage2 in Hk2. destruct (waitPipelines cfg).
      - destruct Hend as [Hk3 _]. unfold kept_by_stage3 in Hk3.
        intuition congruence.
      - subst st. intuition congruence. }
    destruct Hsame as [-> ->]. lia. }
  remember (threadCount cfg) as T eqn:HeqT.
  assert (Hgen : forall (n : nat) (lo : Z),
            0 <= lo -> lo + Z.of_nat n <= T ->
            let results := threadResults cfg env (seqZ lo (Z.of_nat n)) in
            Forall (fun x => 0 <= x <= numberOfUsers cfg)
              (arrayOf FailedUserCreations results) /\
            fold_right Z.add 0 (arrayOf FailedUserCreations results) +
            forwardedCount results = Z.of_nat n * numberOfUsers cfg).
  { induction n as [|n IH]; intros lo Hlo Hhi.
    - simpl. split; [constructor | reflexivity].
    - rewrite seqZ_cons by lia.
      replace (Z.pred (Z.of_nat (S n))) with (Z.of_nat n) by lia.
      destruct (IH (Z.succ lo)) as [IH1 IH2]; [lia|lia|].
      destruct (Hper lo) as [Hb Hs]; [lia|].
      unfold threadResults, arrayOf, forwardedCount in *. simpl.
      split; [constructor; assumption|]. simpl in *. nia. }
  unfold from_to. replace (T - 1 - 0 + 1) with (Z.of_nat (Z.to_nat T)) by lia.
  destruct (Hgen (Z.to_nat T) 0) as [Hall Hsum]; [lia|lia|].
  rewrite (sumFromArray_exact (numberOfUsers cfg)); [|exact Hall|].
  { transitivity (Z.of_nat (Z.to_nat T) * numberOfUsers cfg);
      [exact Hsum | f_equal; lia]. }
  unfold arrayOf, threadResults. rewrite !length_map, length_seqZ.
  rewrite Nat2Z.id, Z2Nat.id by lia. exact HTN.
Qed.

Lemma stage1_conservation_without_failures_or_batch_one_witness :
  exists rep,
    setup (mkConfig "testuser" 4 2 2 true false) steadyEnv = Completed rep /\
    UserCreationFailureCount rep +
    forwardedCount
      (threadResults (mkConfig "testuser" 4 2 2 true false) steadyEnv
         (from_to 0 1)) = 8.
Proof.
  eexists. split; [vm_compute; reflexivity|].
  apply (stage1_conservation_without_failures_or_batch_one
           (mkConfig "testuser" 4 2 2 true false) steadyEnv).
  - vm_compute. reflexivity.
  - simpl. lia.
  - unfold in_int64, min_int64, max_int64. simpl. lia.
  - simpl. lia.
  - unfold max_int64. simpl. lia.
  - right. split; reflexivity.
Defined.

(** Against C3 as stated: one thread, one cohort of two users, the
    sign-up of the first user fails and the second user closes the
    cohort: one failure is counted and both users are sent on, three
    in all for two users. *)
Lemma stage1_conservation_counterexample :
  exists rep,
    setup oneCohortConfig firstUserFailsEnv = Completed rep /\
    UserCreationFailureCount rep = 1 /\
    forwardedCount
      (threadResults oneCohortConfig firstUserFailsEnv
         (from_to 0 (threadCount oneCohortConfig - 1))) = 2 /\
    UserCreationFailureCount rep +
    forwardedCount
      (threadResults oneCohortConfig firstUserFailsEnv
         (from_to 0 (threadCount oneCohortConfig - 1)))
      <> threadCount oneCohortConfig * numberOfUsers oneCohortConfig.
Proof.
  eexists. split; [vm_compute; reflexivity|].
  repeat split. vm_compute. discriminate.
Qed.

Section Scenario.
Variable prefix : string.
Variable ff : bool.
Variable env : Env.

Let cfg : Config := scenarioConfig prefix ff.

Hypothesis Hall : all_succeed cfg env.

Lemma scenario_thread (threadIndex : Z) :
  userJourneyThread cfg env threadIndex =
    Ret tt
      {| AverageUserCreationTime :=
           add64 (add64 (add64 (add64 0
             (since_UserCreation env threadIndex 1))
             (since_UserCreation env threadIndex 2))
             (since_UserCreation env threadIndex 3))
             (since_UserCreation env threadIndex 4);
         AverageResourceCreationTimePerUser :=
           add64 (add64 (add64 (add64 0
             (since_ResourceCreation env threadIndex 1))
             (since_ResourceCreation env threadIndex 2))
             (since_ResourceCreation env threadIndex 3))
             (since_ResourceCreation env threadIndex 4);
         AveragePipelineRunTimePerUser :=
           add64 (add64 (add64 (add64 0
             (pipelineElapsed cfg env threadIndex 1))
             (pipelineElapsed cfg env threadIndex 2))
             (pipelineElapsed cfg env threadIndex 3))
             (pipelineElapsed cfg env threadIndex 4);
         FailedUserCreations := 0;
         FailedResourceCreations := 0;
         FailedPipelineRuns := 0;
         chUsers := [1; 2; 3; 4];
         chPipelines := [1; 2; 3; 4];
         nsPolled :=
           [usernamespace cfg threadIndex 2; usernamespace cfg threadIndex 2;
            usernamespace cfg threadIndex 4; usernamespace cfg threadIndex 4];
         errorCalls := [] |}.
Proof.
  destruct Hall as (_ & [Hcreate Hwait] & Hsecret & Happ & Hgit & Hcomp & Hrun).
  unfold userJourneyThread, stageUsers, stageResources, stagePipelines.
  change (numberOfUsers cfg) with 4.
  change (from_to 1 4) with [1; 2; 3; 4].
  change (waitPipelines cfg) with true.
  change (4 <? 0) with false. cbv iota.
  unfold for_each at 1.
  unfold UserLoop.
  change (cohort cfg 2) with [1; 2].
  change (cohort cfg 4) with [3; 4].
  change (userBatches cfg) with 2.
  change (go_rem 1 2) with (Some 1).
  change (go_rem 2 2) with (Some 0).
  change (go_rem 3 2) with (Some 1).
  change (go_rem 4 2) with (Some 0).
  rewrite !Hcreate.
  change (1 =? 0) with false. change (0 =? 0) with true. cbv iota.
  unfold waitForCohort.
  unfold_ops. unfold chan_send.
  change (numberOfUsers cfg) with 4.
  repeat (first
    [ rewrite Hwait
    | progress change (Z.of_nat 0 <? 4) with true
    | progress change (Z.of_nat 1 <? 4) with true
    | progress change (Z.of_nat 2 <? 4) with true
    | progress change (Z.of_nat 3 <? 4) with true
    | progress cbn -[username usernamespace ApplicationName ComponentName
                     add64 String.eqb Z.ltb Z.of_nat] ]).
  unfold createResources.
  change (userBatches cfg) with 2.
  change (go_rem 1 2) with (Some 1).
  change (go_rem 2 2) with (Some 0).
  change (go_rem 3 2) with (Some 1).
  change (go_rem 4 2) with (Some 0).
  rewrite !Hsecret, !Happ, !Hgit, !Hcomp, !String.eqb_refl.
  unfold_ops. unfold chan_send.
  change (numberOfUsers cfg) with 4.
  repeat (first
    [ progress change (Z.of_nat 0 <? 4) with true
    | progress change (Z.of_nat 1 <? 4) with true
    | progress change (Z.of_nat 2 <? 4) with true
    | progress change (Z.of_nat 3 <? 4) with true
    | progress cbn -[username usernamespace ApplicationName ComponentName
                     add64 String.eqb Z.ltb Z.of_nat] ]).
  assert (Hp : forall u,
            GetComponentPipelineRun env (ComponentName cfg threadIndex u)
              (ApplicationName cfg threadIndex u)
              (usernamespace cfg threadIndex u) =
            RunDone (pipelineElapsed cfg env threadIndex u) None).
  { intros u. unfold pipelineElapsed.
    destruct (Hrun (ComponentName cfg threadIndex u)
                (ApplicationName cfg threadIndex u)
                (usernamespace cfg threadIndex u)) as [d ->].
    reflexivity. }
  unfold waitForPipeline. rewrite !Hp.
  unfold_ops.
  cbn -[username usernamespace ApplicationName ComponentName
        add64 String.eqb Z.ltb Z.of_nat pipelineElapsed].
  reflexivity.
Qed.

Lemma accumulated_exact (d : Z -> Z -> Z) (threadIndex : Z) :
  durations_within 1 (2 ^ 60) d ->
  add64 (add64 (add64 (add64 0 (d threadIndex 1)) (d threadIndex 2))
           (d threadIndex 3)) (d threadIndex 4) =
    accumulated d threadIndex /\
  4 <= accumulated d threadIndex <= 2 ^ 62.
Proof.
  intros Hd. unfold accumulated.
  pose proof (Hd threadIndex 1). pose proof (Hd threadIndex 2).
  pose proof (Hd threadIndex 3). pose proof (Hd threadIndex 4).
  rewrite (Int64Facts.add64_id 0 (d threadIndex 1))
    by (unfold in_int64, min_int64, max_int64; lia).
  rewrite (Int64Facts.add64_id _ (d threadIndex 2))
    by (unfold in_int64, min_int64, max_int64; lia).
  rewrite (Int64Facts.add64_id _ (d threadIndex 3))
    by (unfold in_int64, min_int64, max_int64; lia).
  rewrite (Int64Facts.add64_id _ (d threadIndex 4))
    by (unfold in_int64, min_int64, max_int64; lia).
  lia.
Qed.

Lemma whole_seconds_bounds (a : Z) :
  0 <= a <= 2 ^ 62 ->
  0 <= whole_seconds a <= 2 ^ 61 /\
  (0 < whole_seconds a <-> one_second <= a).
Proof.
  intros Ha. unfold whole_seconds, one_second.
  rewrite Z.quot_div_nonneg by lia.
  pose proof (Z.div_mod a 1000000000 ltac:(lia)) as Hdm.
  pose proof (Z.mod_pos_bound a 1000000000 ltac:(lia)) as Hm.
  assert (0 <= a / 1000000000) by (apply Z.div_pos; lia).
  split; [nia|]. split; intros; nia.
Qed.

Lemma scenario_average (d : Z -> Z -> Z) :
  durations_within 1 (2 ^ 60) d ->
  truncated_average
    (averageDurationFromArray [accumulated d 0; accumulated d 1] 8) d.
Proof.
  intros Hd.
  destruct (accumulated_exact d 0 Hd) as [_ H0].
  destruct (accumulated_exact d 1 Hd) as [_ H1].
  destruct (whole_seconds_bounds (accumulated d 0)) as [B0 P0]; [lia|].
  destruct (whole_seconds_bounds (accumulated d 1)) as [B1 P1]; [lia|].
  unfold averageDurationFromArray, float_div. simpl fold_left.
  change (8 =? 0) with false. cbv iota.
  rewrite (Int64Facts.add64_id 0 _)
    by (unfold in_int64, min_int64, max_int64; lia).
  rewrite Int64Facts.add64_id
    by (unfold in_int64, min_int64, max_int64; lia).
  eexists. split; [reflexivity|].
  replace (0 + whole_seconds (accumulated d 0) +
           whole_seconds (accumulated d 1))
    with (whole_seconds (accumulated d 0) +
          whole_seconds (accumulated d 1)) by lia.
  split; [reflexivity|].
  set (s := whole_seconds (accumulated d 0) +
            whole_seconds (accumulated d 1)).
  assert (Hs : 0 <= s) by (unfold s; lia).
  assert (Heq : (inject_Z s / inject_Z 8 == s # 8)%Q).
  { unfold Qdiv, Qmult, Qinv, inject_Z, Qeq. simpl. lia. }
  split.
  - rewrite Heq. unfold Qle. simpl. lia.
  - rewrite Heq. unfold Qlt. simpl. unfold s. lia.
Qed.

Lemma scenario_setup :
  setup cfg env =
    Completed
      (report cfg
         [userJourneyThread cfg env 0; userJourneyThread cfg env 1]).
Proof.
  destruct Hall as ((Hlog & Hfw & Htok) & _).
  unfold setup, startup. rewrite Hlog, Hfw, Htok.
  change (go_rem (numberOfUsers cfg) (userBatches cfg)) with (Some 0).
  change (threadCount cfg) with 2.
  change (from_to 0 (2 - 1)) with [0; 1].
  cbn [negb Z.eqb Z.ltb Z.compare threadResults List.map].
  rewrite !scenario_thread. reflexivity.
Qed.
End Scenario.

(** C4, as the code has it: in the scenario of two threads, four users
    each, cohorts of two and stage 3 switched on, on a cluster where
    every call succeeds and every duration is positive, the run
    completes and reports no failure in any stage and eight users.  The
    average of a stage is the sum over the two threads of the whole
    seconds each thread has accumulated, divided by eight: it is not
    negative, and it is positive exactly when a thread has accumulated
    a second or more.  (Durations are taken up to 2^60 ns, so that the
    sums stay within [int64].) *)
Theorem scenario_report (prefix : string) (ff : bool) (env : Env) :
  all_succeed (scenarioConfig prefix ff) env ->
  durations_within 1 (2 ^ 60) (since_UserCreation env) ->
  durations_within 1 (2 ^ 60) (since_ResourceCreation env) ->
  durations_within 1 (2 ^ 60)
    (pipelineElapsed (scenarioConfig prefix ff) env) ->
  exists rep,
    setup (scenarioConfig prefix ff) env = Completed rep /\
    UserCreationFailureCount rep = 0 /\
    ResourceCreationFailureCount rep = 0 /\
    PipelineRunFailureCount rep = 0 /\
    NumberOfUsers rep = 8 /\
    truncated_average (AverageTimeToSpinUpUsers rep)
      (since_UserCreation env) /\
    truncated_average (AverageTimeToCreateResources rep)
      (since_ResourceCreation env) /\
    truncated_average (AverageTimeToRunPipelines rep)
      (pipelineElapsed (scenarioConfig prefix ff) env).
Proof.
  intros Hall user_times resource_times pipeline_times.
  eexists. split; [now apply scenario_setup|].
  rewrite !scenario_thread by assumption.
  unfold report, arrayOf. cbn [List.map final_state
    UserCreationFailureCount ResourceCreationFailureCount
    PipelineRunFailureCount NumberOfUsers AverageTimeToSpinUpUsers
    AverageTimeToCreateResources AverageTimeToRunPipelines
    AverageUserCreationTime AverageResourceCreationTimePerUser
    AveragePipelineRunTimePerUser FailedUserCreations
    FailedResourceCreations FailedPipelineRuns].
  change (mul64 (numberOfUsers (scenarioConfig prefix ff))
            (threadCount (scenarioConfig prefix ff))) with 8.
  repeat (split; [reflexivity|]).
  destruct (accumulated_exact _ 0 user_times) as [-> _].
  destruct (accumulated_exact _ 1 user_times) as [-> _].
  destruct (accumulated_exact _ 0 resource_times) as [-> _].
  destruct (accumulated_exact _ 1 resource_times) as [-> _].
  destruct (accumulated_exact _ 0 pipeline_times) as [-> _].
  destruct (accumulated_exact _ 1 pipeline_times) as [-> _].
  repeat split; now apply scenario_average.
Qed.

Lemma steadyEnv_all_succeed (cfg : Config) : all_succeed cfg steadyEnv.
Proof.
  unfold all_succeed, collaborators_ready, no_stage1_failure. simpl.
  repeat split; eauto.
Qed.

Lemma scenario_report_witness :
  exists rep,
    setup (scenarioConfig "testuser" false) steadyEnv = Completed rep /\
    UserCreationFailureCount rep = 0 /\
    ResourceCreationFailureCount rep = 0 /\
    PipelineRunFailureCount rep = 0 /\
    NumberOfUsers rep = 8 /\
    truncated_average (AverageTimeToSpinUpUsers rep)
      (since_UserCreation steadyEnv) /\
    truncated_average (AverageTimeToCreateResources rep)
      (since_ResourceCreation steadyEnv) /\
    truncated_average (AverageTimeToRunPipelines rep)
      (pipelineElapsed (scenarioConfig "testuser" false) steadyEnv).
Proof.
  apply (scenario_report "testuser" false steadyEnv).
  - unfold all_succeed, collaborators_ready, no_stage1_failure. simpl.
    repeat split; eauto.
  - intros t u. simpl. lia.
  - intros t u. simpl. lia.
  - intros t u. unfold pipelineElapsed. simpl. lia.
Defined.

(** Against C4 as stated: in the scenario, with every call succeeding,
    every sign-up taking a tenth of a second, every resource creation
    three seconds and every pipeline ninety seconds, the run reports no
    failures and eight users, but the average time to spin up users is
    zero: each thread has accumulated 0.4 s, which counts as no whole
    second. *)
Lemma scenario_average_counterexample :
  all_succeed (scenarioConfig "testuser" false) steadyEnv /\
  (forall threadIndex userIndex,
     0 < since_UserCreation steadyEnv threadIndex userIndex /\
     0 < since_ResourceCreation steadyEnv threadIndex userIndex /\
     0 < pipelineElapsed (scenarioConfig "testuser" false) steadyEnv
           threadIndex userIndex) /\
  exists rep q,
    setup (scenarioConfig "testuser" false) steadyEnv = Completed rep /\
    UserCreationFailureCount rep = 0 /\
    ResourceCreationFailureCount rep = 0 /\
    PipelineRunFailureCount rep = 0 /\
    NumberOfUsers rep = 8 /\
    AverageTimeToSpinUpUsers rep = Some q /\
    (q == 0)%Q /\ ~ (0 < q)%Q.
Proof.
  split; [apply steadyEnv_all_succeed|].
  split; [intros t u; unfold pipelineElapsed; simpl; lia|].
  eexists _, _. split; [vm_compute; reflexivity|].
  simpl. repeat split; try reflexivity.
  unfold Qlt. simpl. lia.
Qed.

(** * Sample evaluations *)

Example username_0_7 :
  username (mkConfig "testuser" 5 5 1 false false) 0 7 = "testuser-0007".
Proof. reflexivity. Qed.

Example username_3_2 :
  username (mkConfig "testuser" 5000 5 4 false false) 3 2 = "testuser-15002".
Proof. reflexivity. Qed.

Example fmt_04d_negative : fmt_04d (-5) = "-005".
Proof. reflexivity. Qed.

Example startup_zero_batches :
  startup (mkConfig "testuser" 4 0 1 false false) steadyEnv = StartupPanic.
Proof. reflexivity. Qed.

Example thread_fail_fast :
  userJourneyThread (mkConfig "testuser" 2 2 1 false true) flakyEnv 0 = Fatal.
Proof. reflexivity. Qed.

Example thread_negative_batches :
  exists st,
    userJourneyThread (mkConfig "testuser" 4 (-2) 1 false false) steadyEnv 0
      = Ret tt st /\
    chUsers st = [].
Proof. eexists. split; [vm_compute; reflexivity | reflexivity]. Qed.

(** * Further properties of the load test *)

Lemma wrap64_add_l (a b : Z) : wrap64 (wrap64 a + b) = wrap64 (a + b).
Proof.
  unfold wrap64.
  replace ((a + 2 ^ 63) mod 2 ^ 64 - 2 ^ 63 + b + 2 ^ 63)
    with ((a + 2 ^ 63) mod 2 ^ 64 + b) by lia.
  replace (a + b + 2 ^ 63) with (a + 2 ^ 63 + b) by lia.
  rewrite Zplus_mod_idemp_l. reflexivity.
Qed.

Lemma fold_add64_wrap (f : Z -> Z) (array : list Z) (acc : Z) :
  fold_left (fun sum i => add64 sum (f i)) array (wrap64 acc) =
    wrap64 (acc + exact_sum (List.map f array)).
Proof.
  revert acc. induction array as [|x rest IH]; intros acc; simpl.
  - f_equal. lia.
  - unfold add64 at 2. rewrite wrap64_add_l, IH. f_equal. lia.
Qed.

Lemma exact_sum_Permutation (array array' : list Z) :
  Permutation array array' -> exact_sum array = exact_sum array'.
Proof.
  unfold exact_sum. induction 1; simpl; lia.
Qed.

(** X1: [sumFromArray] yields the sum of the array reduced to [int64],
    so it does not depend on the order of the slots: two arrays that
    hold the same numbers in different order have the same sum. *)
Theorem sumFromArray_order_independent (array array' : list Z) :
  Permutation array array' ->
  sumFromArray array = wrap64 (exact_sum array) /\
  sumFromArray array' = sumFromArray array.
Proof.
  intros Hperm.
  assert (Hsum : forall l, sumFromArray l = wrap64 (exact_sum l)).
  { intros l. unfold sumFromArray.
    change 0 with (wrap64 0) at 1.
    rewrite (fold_add64_wrap (fun i => i)). now rewrite List.map_id. }
  split; [apply Hsum|].
  rewrite !Hsum. f_equal. symmetry. now apply exact_sum_Permutation.
Qed.

Lemma sumFromArray_order_independent_witness :
  sumFromArray [3; 0; 1] = sumFromArray [0; 1; 3].
Proof.
  apply (sumFromArray_order_independent [0; 1; 3] [3; 0; 1]).
  apply Permutation_sym. apply Permutation_cons_append.
Defined.





(** The table is built by a left fold: a call after a sequence. *)
Lemma calls_with_Permutation (errCode : Z) (calls calls' : list (Z * string)) :
  Permutation calls calls' ->
  List.length (calls_with errCode calls) =
    List.length (calls_with errCode calls').
Proof.
  unfold calls_with. induction 1 as [|x l l' H IH|x y l|l l' l'' H1 IH1 H2 IH2];
    simpl.
  - reflexivity.
  - destruct (fst x =? errCode); simpl; congruence.
  - destruct (fst x =? errCode), (fst y =? errCode); reflexivity.
  - congruence.
Qed.

Lemma latest_message_None (errCode : Z) (calls : list (Z * string)) :
  latest_message errCode calls = None <->
  List.length (calls_with errCode calls) = 0%nat.
Proof.
  unfold latest_message.
  destruct (last (calls_with errCode calls)) as [x|] eqn:Hlast; simpl.
  - split; [discriminate|]. intros Hlen.
    apply List.length_zero_iff_nil in Hlen. rewrite Hlen in Hlast.
    discriminate.
  - apply last_None in Hlast. rewrite Hlast. simpl. tauto.
Qed.

(** X3: the order in which the table sees the calls of the concurrent
    stages changes nothing but the latest message: two orders of the same
    calls give tables with the same codes, the same [ErrorNumber] and
    the same [Count] under every code. *)
Theorem errorOccurredMap_counts_order_independent (cfg : Config)
    (calls calls' : list (Z * string)) (m m' : gmap Z ErrorOccurrence) :
  Permutation calls calls' ->
  Z.of_nat (List.length calls) <= max_int64 ->
  logErrors cfg calls ∅ = Some m ->
  logErrors cfg calls' ∅ = Some m' ->
  forall errCode : Z,
    (Count <$> m !! errCode) = (Count <$> m' !! errCode) /\
    (ErrorNumber <$> m !! errCode) = (ErrorNumber <$> m' !! errCode) /\
    (is_Some (m !! errCode) <-> is_Some (m' !! errCode)).
Proof.
  intros Hperm Hlen Hm Hm' c.
  assert (Hlen' : Z.of_nat (List.length calls') <= max_int64)
    by (rewrite <- (Permutation_length Hperm); exact Hlen).
  pose proof (logErrors_table_of cfg calls [] ∅ m Hlen table_of_nil Hm c)
    as Hc.
  pose proof (logErrors_table_of cfg calls' [] ∅ m' Hlen' table_of_nil Hm' c)
    as Hc'.
  simpl in Hc, Hc'. rewrite Hc, Hc'.
  pose proof (calls_with_Permutation c calls calls' Hperm) as Hn.
  pose proof (latest_message_None c calls) as HN.
  pose proof (latest_message_None c calls') as HN'.
  destruct (latest_message c calls) as [msg|],
           (latest_message c calls') as [msg'|]; simpl.
  - rewrite Hn. repeat split; eauto.
  - exfalso. assert (List.length (calls_with c calls') = 0%nat) by tauto.
    assert (List.length (calls_with c calls) <> 0%nat).
    { intros H0. apply HN in H0. discriminate. }
    congruence.
  - exfalso. assert (List.length (calls_with c calls) = 0%nat) by tauto.
    assert (List.length (calls_with c calls') <> 0%nat).
    { intros H0. apply HN' in H0. discriminate. }
    congruence.
  - repeat split; intros [? ?]; discriminate.
Qed.

Lemma errorOccurredMap_counts_order_independent_witness :
  exists m m' : gmap Z ErrorOccurrence,
    logErrors oneCohortConfig [(3, "a"); (1, "b"); (3, "c")] ∅ = Some m /\
    logErrors oneCohortConfig [(3, "c"); (3, "a"); (1, "b")] ∅ = Some m' /\
    (Count <$> m !! 3) = (Count <$> m' !! 3).
Proof.
  destruct (logErrors_returns oneCohortConfig
              [(3, "a"); (1, "b"); (3, "c")] ∅ eq_refl) as [m Hm].
  destruct (logErrors_returns oneCohortConfig
              [(3, "c"); (3, "a"); (1, "b")] ∅ eq_refl) as [m' Hm'].
  exists m, m'. split; [exact Hm|]. split; [exact Hm'|].
  apply (errorOccurredMap_counts_order_independent oneCohortConfig
           [(3, "a"); (1, "b"); (3, "c")] [(3, "c"); (3, "a"); (1, "b")]
           m m'); try assumption.
  - apply Permutation_sym.
    apply (Permutation_cons_append [(3, "a"); (1, "b")] (3, "c")).
  - unfold max_int64. simpl. lia.
Defined.

Lemma append_length (a b : string) :
  String.length (a +:+ b) = (String.length a + String.length b)%nat.
Proof. induction a as [|c a IH]; simpl; [reflexivity | now rewrite IH]. Qed.

Lemma append_inv_tail (a b x : string) : a +:+ x = b +:+ x -> a = b.
Proof.
  revert b. induction a as [|c a IH]; intros [|c' b] H; simpl in H.
  - reflexivity.
  - apply (f_equal String.length) in H.
    rewrite ?append_length in H. simpl in H.
    rewrite ?append_length in H. lia.
  - apply (f_equal String.length) in H.
    rewrite ?append_length in H. simpl in H.
    rewrite ?append_length in H. lia.
  - injection H as -> H. f_equal. now apply IH.
Qed.

Lemma username_inj (cfg : Config) (t1 u1 t2 u2 : Z) :
  threadCount cfg * numberOfUsers cfg <= max_int64 ->
  0 <= t1 < threadCount cfg -> 0 <= t2 < threadCount cfg ->
  1 <= u1 <= numberOfUsers cfg -> 1 <= u2 <= numberOfUsers cfg ->
  username cfg t1 u1 = username cfg t2 u2 -> t1 = t2 /\ u1 = u2.
Proof.
  intros Hrange Ht1 Ht2 Hu1 Hu2 Heq. unfold username in Heq.
  apply FmtFacts.append_inv_head in Heq.
  apply FmtFacts.append_inv_head in Heq.
  apply FmtFacts.fmt_04d_inj in Heq.
  - now apply (userNumber_inj cfg Hrange) in Heq.
  - rewrite userNumber_exact by assumption. nia.
  - rewrite userNumber_exact by assumption. nia.
Qed.

(** X4: what the stages derive from the user name is as unique as the
    name: two users of a run never share a namespace, an application name
    or a component name, as long as the total number of users fits Go's
    [int]. *)
Theorem derived_names_unique (cfg : Config) (t1 u1 t2 u2 : Z) :
  threadCount cfg * numberOfUsers cfg <= max_int64 ->
  0 <= t1 < threadCount cfg -> 0 <= t2 < threadCount cfg ->
  1 <= u1 <= numberOfUsers cfg -> 1 <= u2 <= numberOfUsers cfg ->
  (usernamespace cfg t1 u1 = usernamespace cfg t2 u2 -> t1 = t2 /\ u1 = u2) /\
  (ApplicationName cfg t1 u1 = ApplicationName cfg t2 u2 ->
   t1 = t2 /\ u1 = u2) /\
  (ComponentName cfg t1 u1 = ComponentName cfg t2 u2 -> t1 = t2 /\ u1 = u2).
Proof.
  intros Hrange Ht1 Ht2 Hu1 Hu2.
  split; [|split]; intros Heq;
    unfold usernamespace, ApplicationName, ComponentName in Heq;
    apply append_inv_tail in Heq;
    apply (username_inj cfg t1 u1 t2 u2) in Heq; tauto.
Qed.

Lemma derived_names_unique_witness :
  usernamespace (mkConfig "testuser" 4 2 2 true false) 0 4 <>
  usernamespace (mkConfig "testuser" 4 2 2 true false) 1 1.
Proof.
  intros H.
  destruct (derived_names_unique (mkConfig "testuser" 4 2 2 true false)
              0 4 1 1) as [Hns _];
    try (unfold max_int64; simpl; lia).
  destruct (Hns H) as [Ht _]. discriminate.
Defined.

(** ** Counting errors *)

Section Counting.
Variable cfg : Config.
Variable env : Env.
Variable threadIndex : Z.

(** A round of stage 1 either logs one error, of code 1 or 2, and counts
    it, or logs and counts nothing. *)
Lemma UserLoop_counts (userIndex : Z) (st st' : ThreadState) :
  UserLoop cfg env threadIndex userIndex st = Ret tt st' ->
  (FailedUserCreations st' = add64 (FailedUserCreations st) 1 /\
   exists c message,
     1 <= c <= 2 /\ errorCalls st' = errorCalls st ++ [(c, message)]) \/
  (FailedUserCreations st' = FailedUserCreations st /\
   errorCalls st' = errorCalls st).
Proof.
  intros Hrun. apply UserLoop_spec in Hrun.
  destruct Hrun as [_ [(e & _ & Hf & _ & _ & _ & He) | (_ & Hok)]].
  - left. split; [exact Hf|]. eexists 1, _. split; [lia | exact He].
  - destruct Hok as (r & b & st1 & _ & Hwait & Hf & _ & _ & He & _).
    rewrite Hf, He. destruct (r =? 0).
    + apply waitForCohort_spec in Hwait.
      destruct Hwait as (k & _ & _ & _ & _ & Hb & _). destruct b.
      * right. tauto.
      * left. destruct Hb as (_ & (e & _ & Hb) & Hf1).
        split; [exact Hf1|]. eexists 2, _. split; [lia | exact Hb].
    + destruct Hwait as [_ ->]. right. tauto.
Qed.

Lemma createResources_counts (userIndex : Z) (st st' : ThreadState) :
  createResources cfg env threadIndex userIndex st = Ret tt st' ->
  (FailedResourceCreations st' = add64 (FailedResourceCreations st) 1 /\
   exists c message,
     3 <= c <= 7 /\ errorCalls st' = errorCalls st ++ [(c, message)]) \/
  (FailedResourceCreations st' = FailedResourceCreations st /\
   errorCalls st' = errorCalls st).
Proof.
  intros Hrun. apply createResources_spec in Hrun.
  destruct Hrun as [_ [(c & message & Hfail & Hf & He & _)
                      | (_ & Hf & He & _)]].
  - left. split; [exact Hf|]. exists c, message.
    split; [eapply step_fails_code; eassumption | exact He].
  - right. tauto.
Qed.

(** A round of stage 3: what it adds to the run time and what it logs. *)
Lemma waitForPipeline_counts (userIndex : Z) (st st' : ThreadState) :
  waitForPipeline cfg env threadIndex userIndex st = Ret tt st' ->
  ((FailedPipelineRuns st' = add64 (FailedPipelineRuns st) 1 /\
    exists c message,
      8 <= c <= 9 /\ errorCalls st' = errorCalls st ++ [(c, message)]) \/
   (FailedPipelineRuns st' = FailedPipelineRuns st /\
    errorCalls st' = errorCalls st)) /\
  (AveragePipelineRunTimePerUser st' =
     add64 (AveragePipelineRunTimePerUser st)
       (pipelineElapsed cfg env threadIndex userIndex) \/
   (AveragePipelineRunTimePerUser st' = AveragePipelineRunTimePerUser st /\
    pipelineElapsed cfg env threadIndex userIndex = 0)).
Proof.
  unfold waitForPipeline, pipelineElapsed. intros Hrun.
  destruct (GetComponentPipelineRun env _ _ _)
    as [e|elapsed [[reason message]|]];
    unfold_ops; try (destruct (failFast cfg); [discriminate|]);
    inversion Hrun; subst; clear Hrun; simpl.
  - split; [left|right; tauto]. split; [reflexivity|].
    eexists 9, _. split; [lia | reflexivity].
  - split; [left|left; reflexivity]. split; [reflexivity|].
    eexists 8, _. split; [lia | reflexivity].
  - split; [right; tauto | left; reflexivity].
Qed.

(** A loop whose rounds log at most one error each, with a code between
    [lo] and [hi], and count it in the slot [failed]. *)
Lemma counting_loop (failed : ThreadState -> Z) (lo hi : Z)
    (body : Z -> M unit) (queue : list Z) :
  (forall u st st',
     body u st = Ret tt st' ->
     (failed st' = add64 (failed st) 1 /\
      exists c message,
        lo <= c <= hi /\ errorCalls st' = errorCalls st ++ [(c, message)]) \/
     (failed st' = failed st /\ errorCalls st' = errorCalls st)) ->
  forall st st',
    for_each queue body st = Ret tt st' ->
    0 <= failed st ->
    failed st + Z.of_nat (List.length queue) <= max_int64 ->
    exists extra,
      errorCalls st' = errorCalls st ++ extra /\
      Forall (fun c => lo <= fst c <= hi) extra /\
      (List.length extra <= List.length queue)%nat /\
      failed st' = failed st + Z.of_nat (List.length extra).
Proof.
  intros Hbody. induction queue as [|u rest IH]; intros st st' Hrun H0 Hmax.
  - simpl in Hrun. unfold ret in Hrun. inversion Hrun; subst.
    exists []. rewrite List.app_nil_r. simpl. repeat split; auto; lia.
  - simpl in Hrun. apply bind_Ret in Hrun.
    destruct Hrun as ([] & st1 & Hstep & Hrest). simpl in Hmax.
    apply Hbody in Hstep.
    destruct Hstep as [(Hf & c & message & Hc & He) | (Hf & He)].
    + rewrite Int64Facts.add64_id in Hf
        by (unfold in_int64, min_int64, max_int64 in *; lia).
      destruct (IH st1 st' Hrest) as (extra & He' & Hall & Hlen & Hf');
        [lia|lia|].
      exists ((c, message) :: extra).
      rewrite He', He, <- List.app_assoc. simpl.
      repeat split; auto; lia.
    + destruct (IH st1 st' Hrest) as (extra & He' & Hall & Hlen & Hf');
        [lia|lia|].
      exists extra. rewrite He', He. simpl. repeat split; auto; lia.
Qed.

(** A send that returns has found room: the channel never holds more
    than [numberOfUsers] values. *)
Lemma waitForCohort_capacity (userIndex : Z) (members : list Z)
    (st st' : ThreadState) (b : bool) :
  waitForCohort cfg env threadIndex userIndex members st = Ret b st' ->
  Z.of_nat (List.length (chUsers st')) <=
    Z.max (Z.of_nat (List.length (chUsers st))) (numberOfUsers cfg).
Proof.
  revert st. induction members as [|i rest IH]; intros st Hrun.
  - simpl in Hrun. unfold ret in Hrun. inversion Hrun; subst. lia.
  - simpl in Hrun. unfold bind at 1 in Hrun.
    unfold call_wait_ForNamespace in Hrun.
    destruct (wait_ForNamespace env _ _) as [e|].
    + unfold_ops. destruct (failFast cfg); [discriminate|].
      inversion Hrun; subst. simpl. lia.
    + unfold bind at 1 in Hrun. unfold send_chUsers, chan_send in Hrun.
      simpl in Hrun.
      destruct (Z.ltb_spec (Z.of_nat (List.length (chUsers st)))
                  (numberOfUsers cfg)) as [Hroom|]; [|discriminate].
      apply IH in Hrun. simpl in Hrun.
      rewrite List.length_app in Hrun. simpl in Hrun. lia.
Qed.

Lemma stageUsers_capacity (st : ThreadState) :
  stageUsers cfg env threadIndex initThreadState = Ret tt st ->
  Z.of_nat (List.length (chUsers st)) <= Z.max 0 (numberOfUsers cfg).
Proof.
  intros Hrun. unfold stageUsers in Hrun.
  pose proof (@triple_for_each Z
    (fun s => Z.of_nat (List.length (chUsers s))
              <= Z.max 0 (numberOfUsers cfg))
    (from_to 1 (numberOfUsers cfg)) (UserLoop cfg env threadIndex)) as H.
  eapply H; [| |exact Hrun]; [|simpl; lia].
  intros u _ s Hs [] s' Hstep. apply UserLoop_spec in Hstep.
  destruct Hstep as [_ [(e & _ & _ & Hch & _) | (_ & Hok)]].
  - rewrite Hch. exact Hs.
  - destruct Hok as (r & b & st1 & _ & Hwait & _ & Hch & _).
    rewrite Hch. destruct (r =? 0).
    + apply waitForCohort_capacity in Hwait. lia.
    + destruct Hwait as [_ ->]. exact Hs.
Qed.

Lemma count_codes_app (lo hi : Z) (l1 l2 : list (Z * string)) :
  count_codes lo hi (l1 ++ l2) = count_codes lo hi l1 + count_codes lo hi l2.
Proof.
  unfold count_codes. rewrite List.filter_app, List.length_app. lia.
Qed.

Lemma count_codes_all (lo hi : Z) (l : list (Z * string)) :
  Forall (fun c => lo <= fst c <= hi) l ->
  count_codes lo hi l = Z.of_nat (List.length l).
Proof.
  unfold count_codes. induction 1 as [|c l Hc Hl IH]; simpl; [reflexivity|].
  destruct (Z.leb_spec lo (fst c)); [|lia].
  destruct (Z.leb_spec (fst c) hi); [|lia]. simpl. lia.
Qed.

Lemma count_codes_none (lo hi lo' hi' : Z) (l : list (Z * string)) :
  hi' < lo \/ hi < lo' ->
  Forall (fun c => lo' <= fst c <= hi') l ->
  count_codes lo hi l = 0.
Proof.
  intros Hdisj. unfold count_codes.
  induction 1 as [|c l Hc Hl IH]; simpl; [reflexivity|].
  destruct (Z.leb_spec lo (fst c)); destruct (Z.leb_spec (fst c) hi);
    simpl; try exact IH. lia.
Qed.

(** The failure counters of a thread that has reached its join, against
    the errors it has logged. *)
Lemma userJourneyThread_counters (st : ThreadState) :
  numberOfUsers cfg <= max_int64 ->
  userJourneyThread cfg env threadIndex = Ret tt st ->
  exists e1 e2 e3,
    errorCalls st = e1 ++ e2 ++ e3 /\
    Forall (fun c => 1 <= fst c <= 2) e1 /\
    Forall (fun c => 3 <= fst c <= 7) e2 /\
    Forall (fun c => 8 <= fst c <= 9) e3 /\
    FailedUserCreations st = Z.of_nat (List.length e1) /\
    FailedResourceCreations st = Z.of_nat (List.length e2) /\
    FailedPipelineRuns st = Z.of_nat (List.length e3) /\
    Z.of_nat (List.length e1) <= numberOfUsers cfg /\
    (List.length e2 <= List.length (chUsers st))%nat /\
    (List.length e3 <= List.length (chPipelines st))%nat /\
    Z.of_nat (List.length (chPipelines st)) <= numberOfUsers cfg /\
    Z.of_nat (List.length (chUsers st)) <= numberOfUsers cfg.
Proof.
  intros HN Hrun.
  pose proof (userJourneyThread_stages _ _ _ _ Hrun)
    as (HN0 & st1 & st2 & H1 & H2 & H3).
  pose proof (stageUsers_capacity st1 H1) as Hcap.
  pose proof H1 as Hk1. unfold stageUsers in Hk1.
  apply stageUsers_loop_spec in Hk1. destruct Hk1 as [Hk1 _].
  unfold kept_by_stage1 in Hk1. simpl in Hk1.
  destruct Hk1 as (_ & Hp1 & Hr1 & Hf1 & Hch1).
  (* stage 1 *)
  unfold stageUsers in H1.
  destruct (counting_loop FailedUserCreations 1 2
              (UserLoop cfg env threadIndex) (from_to 1 (numberOfUsers cfg))
              (UserLoop_counts) initThreadState st1 H1)
    as (e1 & He1 & Hall1 & Hlen1 & Hc1).
  { simpl. lia. }
  { simpl. rewrite from_to_length. lia. }
  simpl in He1, Hc1. rewrite from_to_length in Hlen1.
  (* stage 2 *)
  unfold stageResources in H2.
  pose proof (stageResources_loop_spec _ _ _ _ _ _ H2)
    as (Hk2 & _ & _ & Hlen2p).
  rewrite Hch1 in Hlen2p. simpl in Hlen2p.
  unfold kept_by_stage2 in Hk2.
  destruct Hk2 as (_ & Hp2 & Hu2 & Hf2 & Hch2 & _).
  destruct (counting_loop FailedResourceCreations 3 7
              (createResources cfg env threadIndex) (chUsers st1)
              (createResources_counts) st1 st2 H2)
    as (e2 & He2 & Hall2 & Hlen2 & Hc2); [lia|lia|].
  rewrite Hr1 in Hc2.
  assert (Hend : exists e3,
            errorCalls st = errorCalls st2 ++ e3 /\
            Forall (fun c => 8 <= fst c <= 9) e3 /\
            (List.length e3 <= List.length (chPipelines st2))%nat /\
            FailedPipelineRuns st = Z.of_nat (List.length e3) /\
            FailedUserCreations st = FailedUserCreations st2 /\
            FailedResourceCreations st = FailedResourceCreations st2 /\
            chUsers st = chUsers st2 /\ chPipelines st = chPipelines st2).
  { destruct (waitPipelines cfg).
    - unfold stagePipelines in H3.
      pose proof (stagePipelines_loop_spec _ _ _ _ _ _ H3) as [Hk3 _].
      unfold kept_by_stage3 in Hk3.
      destruct (counting_loop FailedPipelineRuns 8 9
                  (waitForPipeline cfg env threadIndex) (chPipelines st2)
                  (fun u s s' H => proj1 (waitForPipeline_counts u s s' H))
                  st2 st H3)
        as (e3 & He3 & Hall3 & Hlen3 & Hc3); [lia|lia|].
      exists e3. rewrite Hf2, Hf1 in Hc3. intuition (auto; lia).
    - subst st. exists []. rewrite List.app_nil_r. simpl.
      repeat split; auto; lia. }
  destruct Hend as (e3 & He3 & Hall3 & Hlen3 & Hc3 & Hu3 & Hr3 & Hch3 & Hcp3).
  exists e1, e2, e3.
  rewrite He3, He2, He1, Hu3, Hu2, Hr3, Hc2, Hc3, Hc1, Hch3, Hch2, Hcp3.
  rewrite <- List.app_assoc.
  repeat split; auto; lia.
Qed.
End Counting.

(** X5: in a thread that has reached its join every failure counter
    equals the number of errors the thread has logged with the codes of
    its stage: codes 1 and 2 for [FailedUserCreations], 3 to 7 for
    [FailedResourceCreations], 8 and 9 for [FailedPipelineRuns]; and no
    other code is ever logged. *)
Theorem failure_counters_match_logged_errors (cfg : Config) (env : Env)
    (threadIndex : Z) (st : ThreadState) :
  numberOfUsers cfg <= max_int64 ->
  userJourneyThread cfg env threadIndex = Ret tt st ->
  FailedUserCreations st = count_codes 1 2 (errorCalls st) /\
  FailedResourceCreations st = count_codes 3 7 (errorCalls st) /\
  FailedPipelineRuns st = count_codes 8 9 (errorCalls st) /\
  Forall (fun c => 1 <= fst c <= 9) (errorCalls st).
Proof.
  intros HN Hrun.
  destruct (userJourneyThread_counters cfg env threadIndex st HN Hrun)
    as (e1 & e2 & e3 & -> & H1 & H2 & H3 & -> & -> & -> & _).
  rewrite !count_codes_app.
  rewrite (count_codes_all 1 2 e1 H1), (count_codes_all 3 7 e2 H2),
    (count_codes_all 8 9 e3 H3).
  rewrite (count_codes_none 1 2 3 7 e2), (count_codes_none 1 2 8 9 e3),
    (count_codes_none 3 7 1 2 e1), (count_codes_none 3 7 8 9 e3),
    (count_codes_none 8 9 1 2 e1), (count_codes_none 8 9 3 7 e2);
    try assumption; try lia.
  repeat split; try lia.
  rewrite !Forall_app. repeat split.
  - eapply Forall_impl; [exact H1|]. simpl. intros; lia.
  - eapply Forall_impl; [exact H2|]. simpl. intros; lia.
  - eapply Forall_impl; [exact H3|]. simpl. intros; lia.
Qed.

Lemma failure_counters_match_logged_errors_witness :
  exists st,
    userJourneyThread fourUsersConfig secretFailsEnv 0 = Ret tt st /\
    FailedResourceCreations st = count_codes 3 7 (errorCalls st).
Proof.
  eexists. split; [vm_compute; reflexivity|].
  eapply (failure_counters_match_logged_errors fourUsersConfig
            secretFailsEnv 0).
  - unfold max_int64. simpl. lia.
  - vm_compute. reflexivity.
Defined.

Lemma exact_sum_bounds (bound : Z) (array : list Z) :
  Forall (fun x => 0 <= x <= bound) array ->
  0 <= exact_sum array <= Z.of_nat (List.length array) * bound.
Proof.
  induction 1 as [|x rest Hx Hrest IH]; simpl; [lia|].
  unfold exact_sum in *. simpl. nia.
Qed.

Lemma float_div_percentage (count total : Z) :
  0 <= count <= total -> 0 < total ->
  valid_percentage (float_div (100 * count) total).
Proof.
  intros Hc Ht. unfold valid_percentage, float_div.
  destruct (Z.eqb_spec total 0); [lia|].
  eexists. split; [reflexivity|].
  assert (Hpos : (0 < inject_Z total)%Q).
  { change (inject_Z 0 < inject_Z total)%Q. rewrite <- Zlt_Qlt. exact Ht. }
  split.
  - apply Qle_shift_div_l; [exact Hpos|].
    rewrite Qmult_0_l. change (inject_Z 0 <= inject_Z (100 * count))%Q.
    rewrite <- Zle_Qle. lia.
  - apply Qle_shift_div_r; [exact Hpos|].
    rewrite <- inject_Z_mult, <- Zle_Qle. lia.
Qed.

(** X6: in the report of a run that completes, the failures of every
    stage are between zero and the number of users, and, when there is
    at least one user, every failure percentage is a number between 0
    and 100.  (The total number of users fits Go's [int].) *)
Theorem report_failures_bounded (cfg : Config) (env : Env) (rep : LogData) :
  setup cfg env = Completed rep ->
  numberOfUsers cfg <= max_int64 ->
  threadCount cfg * numberOfUsers cfg <= max_int64 ->
  NumberOfUsers rep = threadCount cfg * numberOfUsers cfg /\
  0 <= UserCreationFailureCount rep <= NumberOfUsers rep /\
  0 <= ResourceCreationFailureCount rep <= NumberOfUsers rep /\
  0 <= PipelineRunFailureCount rep <= NumberOfUsers rep /\
  (0 < NumberOfUsers rep ->
   valid_percentage (UserCreationFailurePercentage rep) /\
   valid_percentage (ResourceCreationFailurePercentage rep) /\
   valid_percentage (PipelineRunFailurePercentage rep)).
Proof.
  intros Hrun HN HTN.
  apply setup_completed in Hrun.
  destruct Hrun as (_ & _ & HT & -> & Hthreads).
  set (results := threadResults cfg env (from_to 0 (threadCount cfg - 1))).
  assert (Hlen : Z.of_nat (List.length results) = threadCount cfg).
  { unfold results, threadResults. rewrite length_map, from_to_length. lia. }
  assert (Hper : forall field : ThreadState -> Z,
            (forall t st, userJourneyThread cfg env t = Ret tt st ->
                          0 <= field st <= numberOfUsers cfg) ->
            Forall (fun x => 0 <= x <= numberOfUsers cfg)
              (arrayOf field results)).
  { intros field Hfield. unfold arrayOf, results, threadResults.
    rewrite List.map_map. apply Forall_forall. intros x Hx.
    apply list_elem_of_In, List.in_map_iff in Hx.
    destruct Hx as (t & <- & Ht). apply In_from_to in Ht.
    destruct (Hthreads t) as [st Hst]; [lia|]. rewrite Hst. simpl.
    eapply Hfield. exact Hst. }
  assert (Hsum : forall field : ThreadState -> Z,
            (forall t st, userJourneyThread cfg env t = Ret tt st ->
                          0 <= field st <= numberOfUsers cfg) ->
            0 <= sumFromArray (arrayOf field results)
              <= threadCount cfg * numberOfUsers cfg).
  { intros field Hfield. pose proof (Hper field Hfield) as Hall.
    assert (Hl : Z.of_nat (List.length (arrayOf field results)) =
                 threadCount cfg)
      by (unfold arrayOf; rewrite length_map; exact Hlen).
    rewrite (sumFromArray_exact (numberOfUsers cfg)); [|exact Hall|].
    - pose proof (exact_sum_bounds _ _ Hall) as Hb. rewrite Hl in Hb.
      exact Hb.
    - rewrite Hl. exact HTN. }
  assert (Htotal : mul64 (numberOfUsers cfg) (threadCount cfg) =
                   threadCount cfg * numberOfUsers cfg).
  { rewrite Int64Facts.mul64_id; [lia|].
    unfold in_int64, min_int64, max_int64 in *.
    destruct (Z.eq_dec (threadCount cfg) 0) as [->|Hnz]; [lia|].
    destruct (Hthreads 0) as [st Hst]; [lia|].
    apply userJourneyThread_stages in Hst. destruct Hst as [HN0 _]. nia. }
  assert (H1 : forall t st, userJourneyThread cfg env t = Ret tt st ->
            0 <= FailedUserCreations st <= numberOfUsers cfg).
  { intros t st Hst.
    destruct (userJourneyThread_counters cfg env t st HN Hst)
      as (e1 & e2 & e3 & _ & _ & _ & _ & -> & _ & _ & Hb & _). lia. }
  assert (H2 : forall t st, userJourneyThread cfg env t = Ret tt st ->
            0 <= FailedResourceCreations st <= numberOfUsers cfg).
  { intros t st Hst.
    destruct (userJourneyThread_counters cfg env t st HN Hst)
      as (e1 & e2 & e3 & _ & _ & _ & _ & _ & -> & _ & _ & Hb & _ & _ & Hc).
    lia. }
  assert (H3 : forall t st, userJourneyThread cfg env t = Ret tt st ->
            0 <= FailedPipelineRuns st <= numberOfUsers cfg).
  { intros t st Hst.
    destruct (userJourneyThread_counters cfg env t st HN Hst)
      as (e1 & e2 & e3 & _ & _ & _ & _ & _ & _ & -> & _ & _ & Hb & Hc & _).
    lia. }
  unfold report. simpl. fold results. rewrite Htotal.
  pose proof (Hsum _ H1) as Hs1. pose proof (Hsum _ H2) as Hs2.
  pose proof (Hsum _ H3) as Hs3.
  split; [reflexivity|].
  split; [exact Hs1|]. split; [exact Hs2|]. split; [exact Hs3|].
  intros Hpos.
  split; [|split]; apply float_div_percentage; assumption.
Qed.

Lemma report_failures_bounded_witness :
  exists rep,
    setup oneCohortConfig firstUserFailsEnv = Completed rep /\
    0 <= UserCreationFailureCount rep <= NumberOfUsers rep /\
    valid_percentage (UserCreationFailurePercentage rep).
Proof.
  eexists. split; [vm_compute; reflexivity|].
  destruct (report_failures_bounded oneCohortConfig firstUserFailsEnv)
    with (rep := report oneCohortConfig
                   (threadResults oneCohortConfig firstUserFailsEnv [0]))
    as (Hn & Hu & _ & _ & Hp).
  - vm_compute. reflexivity.
  - unfold max_int64. simpl. lia.
  - unfold max_int64. simpl. lia.
  - split; [exact Hu|]. apply Hp. rewrite Hn. simpl. lia.
Defined.

(** ** A run with [failFast] on *)

Section Quiet.
Variable cfg : Config.
Variable env : Env.
Variable threadIndex : Z.

Hypothesis fails_fast : failFast cfg = true.

Lemma waitForCohort_quiet (userIndex : Z) (members : list Z)
    (st st' : ThreadState) (b : bool) :
  waitForCohort cfg env threadIndex userIndex members st = Ret b st' ->
  errorCalls st' = errorCalls st.
Proof.
  revert st. induction members as [|i rest IH]; intros st Hrun.
  - simpl in Hrun. unfold ret in Hrun. now inversion Hrun.
  - simpl in Hrun. unfold bind at 1 in Hrun.
    unfold call_wait_ForNamespace in Hrun.
    destruct (wait_ForNamespace env _ _) as [e|].
    + unfold_ops. rewrite fails_fast in Hrun. discriminate.
    + unfold bind at 1 in Hrun. unfold send_chUsers in Hrun.
      destruct (chan_send _ _ _); [|discriminate].
      apply IH in Hrun. exact Hrun.
Qed.

Lemma UserLoop_quiet (userIndex : Z) (st st' : ThreadState) :
  UserLoop cfg env threadIndex userIndex st = Ret tt st' ->
  errorCalls st' = errorCalls st.
Proof.
  unfold UserLoop. intros Hrun.
  destruct (users_Create env _) as [e|].
  - unfold_ops. rewrite fails_fast in Hrun. discriminate.
  - destruct (go_rem userIndex (userBatches cfg)) as [r|]; [|discriminate].
    apply bind_Ret in Hrun. destruct Hrun as (b & st1 & Hwait & Hend).
    assert (H1 : errorCalls st1 = errorCalls st).
    { destruct (r =? 0).
      - eapply waitForCohort_quiet; eassumption.
      - unfold ret in Hwait. now inversion Hwait. }
    destruct b; unfold_ops; inversion Hend; subst; simpl; exact H1.
Qed.

Lemma createResources_quiet (userIndex : Z) (st st' : ThreadState) :
  createResources cfg env threadIndex userIndex st = Ret tt st' ->
  errorCalls st' = errorCalls st.
Proof.
  intros Hrun. pose proof Hrun as Hspec.
  apply createResources_spec in Hspec.
  destruct Hspec as [_ [(c & message & Hfail & _) | (_ & _ & He & _)]];
    [|exact He].
  rewrite (createResources_fail_fast cfg env threadIndex userIndex c st
             fails_fast Hfail) in Hrun.
  discriminate.
Qed.

Lemma waitForPipeline_quiet (userIndex : Z) (st st' : ThreadState) :
  waitForPipeline cfg env threadIndex userIndex st = Ret tt st' ->
  errorCalls st' = errorCalls st.
Proof.
  unfold waitForPipeline. intros Hrun.
  destruct (GetComponentPipelineRun env _ _ _)
    as [e|elapsed [[reason message]|]];
    unfold_ops; rewrite ?fails_fast in Hrun;
    try discriminate; now inversion Hrun.
Qed.

(** A loop of rounds that log nothing counts nothing. *)
Lemma quiet_loop (failed : ThreadState -> Z) (lo hi : Z)
    (body : Z -> M unit) (queue : list Z) :
  (forall u st st', body u st = Ret tt st' ->
     errorCalls st' = errorCalls st) ->
  (forall u st st',
     body u st = Ret tt st' ->
     (failed st' = add64 (failed st) 1 /\
      exists c message,
        lo <= c <= hi /\ errorCalls st' = errorCalls st ++ [(c, message)]) \/
     (failed st' = failed st /\ errorCalls st' = errorCalls st)) ->
  forall st st',
    for_each queue body st = Ret tt st' ->
    errorCalls st' = errorCalls st /\ failed st' = failed st.
Proof.
  intros Hquiet Hcount. induction queue as [|u rest IH]; intros st st' Hrun.
  - simpl in Hrun. unfold ret in Hrun. now inversion Hrun.
  - simpl in Hrun. apply bind_Ret in Hrun.
    destruct Hrun as ([] & st1 & Hstep & Hrest).
    apply IH in Hrest. destruct Hrest as [He Hf]. rewrite He, Hf.
    pose proof (Hquiet _ _ _ Hstep) as Hq.
    destruct (Hcount _ _ _ Hstep) as [(_ & c & message & _ & Hlog) | [? ?]].
    + exfalso. rewrite Hq in Hlog.
      apply (f_equal (@List.length _)) in Hlog.
      rewrite List.length_app in Hlog. simpl in Hlog. lia.
    + auto.
Qed.

Lemma userJourneyThread_quiet (st : ThreadState) :
  userJourneyThread cfg env threadIndex = Ret tt st ->
  errorCalls st = [] /\ FailedUserCreations st = 0 /\
  FailedResourceCreations st = 0 /\ FailedPipelineRuns st = 0.
Proof.
  intros Hrun.
  pose proof (userJourneyThread_stages _ _ _ _ Hrun)
    as (_ & st1 & st2 & H1 & H2 & H3).
  pose proof H1 as Hk1. unfold stageUsers in Hk1.
  apply stageUsers_loop_spec in Hk1. destruct Hk1 as [Hk1 _].
  unfold kept_by_stage1 in Hk1. simpl in Hk1.
  unfold stageUsers in H1.
  destruct (quiet_loop FailedUserCreations 1 2 _ _ UserLoop_quiet
              (UserLoop_counts cfg env threadIndex) _ _ H1) as [He1 Hf1].
  simpl in He1, Hf1.
  unfold stageResources in H2.
  pose proof (stageResources_loop_spec _ _ _ _ _ _ H2) as (Hk2 & _).
  unfold kept_by_stage2 in Hk2.
  destruct (quiet_loop FailedResourceCreations 3 7 _ _ createResources_quiet
              (createResources_counts cfg env threadIndex) _ _ H2)
    as [He2 Hf2].
  destruct (waitPipelines cfg).
  - unfold stagePipelines in H3.
    pose proof (stagePipelines_loop_spec _ _ _ _ _ _ H3) as (Hk3 & _).
    unfold kept_by_stage3 in Hk3.
    destruct (quiet_loop FailedPipelineRuns 8 9 _ _ waitForPipeline_quiet
                (fun u s s' H =>
                   proj1 (waitForPipeline_counts cfg env threadIndex u s s' H))
                _ _ H3) as [He3 Hf3].
    intuition congruence.
  - subst st. intuition congruence.
Qed.
End Quiet.

(** X7: with [failFast] on, a run that completes has met no error at
    all: no thread has logged anything, so the table stays empty, and the
    report shows zero failures in every stage. *)
Theorem fail_fast_run_reports_no_failure (cfg : Config) (env : Env)
    (rep : LogData) :
  failFast cfg = true ->
  setup cfg env = Completed rep ->
  allErrorCalls (threadResults cfg env (from_to 0 (threadCount cfg - 1)))
    = [] /\
  UserCreationFailureCount rep = 0 /\
  ResourceCreationFailureCount rep = 0 /\
  PipelineRunFailureCount rep = 0.
Proof.
  intros Hff Hrun. apply setup_completed in Hrun.
  destruct Hrun as (_ & _ & HT & -> & Hthreads).
  set (threads := from_to 0 (threadCount cfg - 1)).
  assert (Hq : forall t, In t threads ->
            let st := final_state (userJourneyThread cfg env t) in
            errorCalls st = [] /\ FailedUserCreations st = 0 /\
            FailedResourceCreations st = 0 /\ FailedPipelineRuns st = 0).
  { intros t Ht. apply In_from_to in Ht.
    destruct (Hthreads t) as [st Hst]; [lia|]. rewrite Hst. simpl.
    eapply userJourneyThread_quiet; eassumption. }
  assert (Hzero : forall field : ThreadState -> Z,
            (forall t, In t threads ->
               field (final_state (userJourneyThread cfg env t)) = 0) ->
            sumFromArray (arrayOf field (threadResults cfg env threads)) = 0).
  { intros field Hfield. apply sumFromArray_zeros.
    unfold arrayOf, threadResults. rewrite List.map_map.
    apply Forall_forall. intros x Hx.
    apply list_elem_of_In, List.in_map_iff in Hx.
    destruct Hx as (t & <- & Ht). now apply Hfield. }
  unfold report. simpl. fold threads.
  split; [|repeat split; apply Hzero; intros t Ht; now apply Hq].
  unfold allErrorCalls, threadResults. rewrite List.map_map.
  induction threads as [|t rest IH]; [reflexivity|]. simpl.
  destruct (Hq t) as [-> _]; [now left|]. simpl.
  apply IH.
  - intros t' Ht'. apply Hq. now right.
  - intros field Hfield. apply sumFromArray_zeros.
    unfold arrayOf, threadResults. rewrite List.map_map.
    apply Forall_forall. intros x Hx.
    apply list_elem_of_In, List.in_map_iff in Hx.
    destruct Hx as (t' & <- & Ht'). now apply Hfield.
Qed.

Lemma fail_fast_run_reports_no_failure_witness :
  exists rep,
    setup (mkConfig "testuser" 4 2 2 true true) steadyEnv = Completed rep /\
    UserCreationFailureCount rep = 0.
Proof.
  eexists. split; [vm_compute; reflexivity|].
  eapply (fail_fast_run_reports_no_failure
            (mkConfig "testuser" 4 2 2 true true) steadyEnv).
  - reflexivity.
  - vm_compute. reflexivity.
Defined.

(** ** What passes through the two channels *)

Lemma from_to_app (lo mid hi : Z) :
  lo - 1 <= mid <= hi ->
  from_to lo hi = from_to lo mid ++ from_to (mid + 1) hi.
Proof.
  intros H. unfold from_to.
  replace (hi - lo + 1) with ((mid - lo + 1) + (hi - (mid + 1) + 1)) by lia.
  rewrite seqZ_app by lia. do 2 f_equal; lia.
Qed.

Lemma from_to_prefix_sublist (a b : Z) :
  a <= b -> sublist (from_to 1 a) (from_to 1 b).
Proof.
  intros H. destruct (Z_lt_le_dec a 0) as [Hneg|Hpos].
  - rewrite from_to_nil by lia. apply sublist_nil_l.
  - rewrite (from_to_app 1 a b) by lia. now apply sublist_inserts_r.
Qed.

Section Forwarding.
Variable cfg : Config.
Variable env : Env.
Variable threadIndex : Z.

Lemma forwarded_bound_multiple (userIndex : Z) :
  0 < userBatches cfg -> 1 <= userIndex ->
  Z.rem userIndex (userBatches cfg) = 0 ->
  forwarded_bound cfg userIndex = userIndex.
Proof.
  intros Hpos Hu Hrem. unfold forwarded_bound.
  destruct (Z.ltb_spec 0 (userBatches cfg)); [|lia].
  rewrite Z.rem_mod_nonneg in Hrem by lia.
  apply Z.mod_divide in Hrem; [|lia].
  destruct Hrem as [q Hq]. subst userIndex.
  rewrite Z.div_mul by lia. lia.
Qed.

(** The users stage 2 forwards are those of its queue whose five steps
    succeed, in the order of the queue; the resource time grows by
    theirs alone. *)
Lemma stageResources_forwards (queue : list Z) (st st' : ThreadState) :
  for_each queue (createResources cfg env threadIndex) st = Ret tt st' ->
  exists sent,
    chPipelines st' = chPipelines st ++ sent /\
    sublist sent queue /\
    AverageResourceCreationTimePerUser st' =
      fold_left
        (fun acc u => add64 acc (since_ResourceCreation env threadIndex u))
        sent (AverageResourceCreationTimePerUser st).
Proof.
  revert st. induction queue as [|u rest IH]; intros st Hrun.
  - simpl in Hrun. unfold ret in Hrun. inversion Hrun; subst.
    exists []. rewrite app_nil_r. repeat split. constructor.
  - simpl in Hrun. apply bind_Ret in Hrun.
    destruct Hrun as ([] & st1 & Hstep & Hrest).
    apply IH in Hrest. destruct Hrest as (sent & Hch & Hsub & Havg).
    apply createResources_spec in Hstep.
    destruct Hstep as [_ [(c & message & _ & _ & _ & Hch1 & Havg1)
                         | (_ & _ & _ & Hch1 & Havg1)]].
    + exists sent. rewrite Hch, Hch1, Havg, Havg1.
      repeat split. now apply sublist_cons.
    + exists (u :: sent). rewrite Hch, Hch1, Havg, Havg1, <- app_assoc.
      repeat split. now apply sublist_skip.
Qed.

(** Stage 3 adds the run time of every pipeline that is done, failed or
    not; a poll that times out adds nothing. *)
Lemma stagePipelines_accumulates (queue : list Z) (st st' : ThreadState) :
  in_int64 (AveragePipelineRunTimePerUser st) ->
  for_each queue (waitForPipeline cfg env threadIndex) st = Ret tt st' ->
  AveragePipelineRunTimePerUser st' =
    fold_left
      (fun acc u => add64 acc (pipelineElapsed cfg env threadIndex u))
      queue (AveragePipelineRunTimePerUser st).
Proof.
  revert st. induction queue as [|u rest IH]; intros st Hrange Hrun.
  - simpl in Hrun. unfold ret in Hrun. now inversion Hrun.
  - simpl in Hrun. apply bind_Ret in Hrun.
    destruct Hrun as ([] & st1 & Hstep & Hrest).
    apply waitForPipeline_counts in Hstep. destruct Hstep as [_ Hstep].
    assert (Hst1 : AveragePipelineRunTimePerUser st1 =
                   add64 (AveragePipelineRunTimePerUser st)
                     (pipelineElapsed cfg env threadIndex u)).
    { destruct Hstep as [H | [H Hzero]]; [exact H|].
      rewrite H, Hzero. unfold add64. rewrite Z.add_0_r.
      symmetry. now apply Int64Facts.wrap64_id. }
    simpl. rewrite <- Hst1. apply IH; [|exact Hrest].
    rewrite Hst1. apply Int64Facts.wrap64_range.
Qed.

Hypothesis batches_in_range : in_int64 (userBatches cfg).
Hypothesis users_in_range : numberOfUsers cfg < 2 ^ 62.

(** The invariant of [UserLoop]: before the round of user [u] the
    channel holds users of the closed cohorts only, each once, in
    increasing order. *)
Lemma UserLoop_forwards (userIndex : Z) :
  1 <= userIndex <= numberOfUsers cfg ->
  triple
    (fun st => sublist (chUsers st)
                 (from_to 1 (forwarded_bound cfg (userIndex - 1))))
    (UserLoop cfg env threadIndex userIndex)
    (fun _ st => sublist (chUsers st)
                   (from_to 1 (forwarded_bound cfg (userIndex + 1 - 1)))).
Proof.
  intros Hu st Hst [] st' Hrun.
  replace (userIndex + 1 - 1) with userIndex by lia.
  assert (Hmono : forwarded_bound cfg (userIndex - 1)
                  <= forwarded_bound cfg userIndex).
  { destruct (Z.eq_dec (userBatches cfg) 0) as [Hzero|Hnz].
    - unfold forwarded_bound. rewrite Hzero. simpl. lia.
    - pose proof (forwarded_bound_mono cfg Hnz (userIndex - 1)
                    ltac:(lia)) as H.
      now replace (userIndex - 1 + 1) with userIndex in H by lia. }
  assert (Hkeep : sublist (chUsers st)
                    (from_to 1 (forwarded_bound cfg userIndex))).
  { etrans; [exact Hst|]. apply from_to_prefix_sublist. lia. }
  apply UserLoop_spec in Hrun.
  destruct Hrun as [_ [(e & _ & _ & Hch & _) | (_ & Hok)]].
  - rewrite Hch. exact Hkeep.
  - destruct Hok as (r & b & st1 & Hrem & Hwait & _ & Hch & _).
    rewrite Hch. unfold go_rem in Hrem.
    destruct (Z.eqb_spec (userBatches cfg) 0) as [|Hnz]; [discriminate|].
    injection Hrem as <-.
    destruct (Z.eqb_spec (Z.rem userIndex (userBatches cfg)) 0) as [Hz|Hnr].
    + apply waitForCohort_spec in Hwait.
      destruct Hwait as (k & _ & Hch1 & _).
      rewrite Hch1.
      rewrite (cohort_exact cfg Hnz batches_in_range ltac:(lia)
                 userIndex Hu Hz).
      destruct (Z_lt_le_dec 0 (userBatches cfg)) as [Hpos|Hneg].
      * pose proof (forwarded_bound_multiple userIndex Hpos
                      ltac:(lia) Hz) as Hfull.
        pose proof (forwarded_bound_closing_eq cfg Hpos userIndex
                      ltac:(lia) Hz) as Hprev.
        rewrite Hfull in *.
        rewrite (from_to_app 1 (forwarded_bound cfg (userIndex - 1))
                   userIndex).
        2:{ assert (0 <= forwarded_bound cfg (userIndex - 1)); [|lia].
            unfold forwarded_bound.
            destruct (0 <? userBatches cfg); [|lia].
            apply Z.mul_nonneg_nonneg; [lia|]. apply Z.div_pos; lia. }
        apply sublist_app; [exact Hst|].
        replace (forwarded_bound cfg (userIndex - 1) + 1)
          with (userIndex - userBatches cfg + 1) by lia.
        apply sublist_take.
      * rewrite from_to_nil by lia. rewrite take_nil, app_nil_r.
        exact Hkeep.
    + destruct Hwait as [_ ->]. exact Hkeep.
Qed.

Lemma stageUsers_forwards (st : ThreadState) :
  0 <= numberOfUsers cfg ->
  stageUsers cfg env threadIndex initThreadState = Ret tt st ->
  sublist (chUsers st) (from_to 1 (numberOfUsers cfg)).
Proof.
  intros HN Hrun. unfold stageUsers in Hrun.
  pose proof (@triple_for_range
                (fun u s => sublist (chUsers s)
                              (from_to 1 (forwarded_bound cfg (u - 1))))
                (UserLoop cfg env threadIndex) (numberOfUsers cfg)
                (Z.to_nat (numberOfUsers cfg)) 1 ltac:(lia)
                UserLoop_forwards initThreadState) as H.
  cbv beta in H. specialize (H ltac:(apply sublist_nil_l) tt st Hrun).
  etrans; [exact H|]. apply from_to_prefix_sublist.
  replace (numberOfUsers cfg + 1 - 1) with (numberOfUsers cfg) by lia.
  unfold forwarded_bound. destruct (Z.ltb_spec 0 (userBatches cfg)); [|lia].
  apply Z.mul_div_le. lia.
Qed.
End Forwarding.

(** X8: a thread hands every user on at most once and in increasing
    order.  What stage 1 has sent is a subsequence of the users 1 to
    [numberOfUsers]; what stage 2 has sent is a subsequence of that, made
    of exactly the users whose five creation steps succeeded. *)
Theorem users_forwarded_once_in_order (cfg : Config) (env : Env)
    (threadIndex : Z) (st : ThreadState) :
  in_int64 (userBatches cfg) ->
  numberOfUsers cfg < 2 ^ 62 ->
  userJourneyThread cfg env threadIndex = Ret tt st ->
  sublist (chUsers st) (from_to 1 (numberOfUsers cfg)) /\
  sublist (chPipelines st) (chUsers st) /\
  NoDup (chUsers st) /\ NoDup (chPipelines st) /\
  (forall u, In u (chPipelines st) <->
             In u (chUsers st) /\ steps_succeed cfg env threadIndex u).
Proof.
  intros HB HN Hrun.
  apply userJourneyThread_stages in Hrun.
  destruct Hrun as (Hpos & st1 & st2 & H1 & H2 & H3).
  pose proof (stageUsers_forwards cfg env threadIndex HB HN st1 Hpos H1)
    as Husers.
  pose proof H1 as Hk1. unfold stageUsers in Hk1.
  apply stageUsers_loop_spec in Hk1.
  destruct Hk1 as [(_ & _ & _ & _ & Hp1) _]. simpl in Hp1.
  unfold stageResources in H2.
  pose proof (stageResources_forwards _ _ _ _ _ _ H2)
    as (sent & Hsent & Hsub & _).
  rewrite Hp1 in Hsent. simpl in Hsent.
  pose proof (stageResources_loop_spec _ _ _ _ _ _ H2)
    as ((_ & _ & _ & _ & Hu2 & _) & _ & Hin & _).
  rewrite Hp1 in Hin. simpl in Hin.
  assert (Hgoal :
    sublist (chUsers st2) (from_to 1 (numberOfUsers cfg)) /\
    sublist (chPipelines st2) (chUsers st2) /\
    NoDup (chUsers st2) /\ NoDup (chPipelines st2) /\
    (forall u, In u (chPipelines st2) <->
               In u (chUsers st2) /\ steps_succeed cfg env threadIndex u)).
  { rewrite Hu2, Hsent.
    assert (Hnd : NoDup (chUsers st1)).
    { eapply sublist_NoDup; [|exact Husers]. apply NoDup_seqZ. }
    split; [exact Husers|]. split; [exact Hsub|].
    split; [exact Hnd|]. split; [eapply sublist_NoDup; eassumption|].
    intros u. rewrite <- Hsent, Hin. tauto. }
  destruct (waitPipelines cfg); [|subst st; exact Hgoal].
  unfold stagePipelines in H3.
  apply stagePipelines_loop_spec in H3.
  destruct H3 as [(_ & _ & _ & _ & Hu3 & Hp3 & _) _].
  rewrite Hu3, Hp3. exact Hgoal.
Qed.

Lemma users_forwarded_once_in_order_witness :
  exists st,
    userJourneyThread fourUsersConfig secretFailsEnv 0 = Ret tt st /\
    chUsers st = [1; 2; 3; 4] /\ chPipelines st = [1; 3; 4] /\
    sublist (chPipelines st) (chUsers st).
Proof.
  eexists. split; [vm_compute; reflexivity|].
  split; [reflexivity|]. split; [reflexivity|].
  eapply (users_forwarded_once_in_order fourUsersConfig secretFailsEnv 0).
  - unfold in_int64, min_int64, max_int64. simpl. lia.
  - simpl. lia.
  - vm_compute. reflexivity.
Defined.

(** X9: the time a thread accumulates for resource creation is that of
    the users it forwarded to the pipeline stage, and of no user whose
    creation failed; the pipeline time is the run time of every forwarded
    user whose pipeline was seen done, failed or not, and stays zero when
    pipelines are not waited for. *)
Theorem time_accumulated_over_forwarded_users (cfg : Config) (env : Env)
    (threadIndex : Z) (st : ThreadState) :
  userJourneyThread cfg env threadIndex = Ret tt st ->
  AverageResourceCreationTimePerUser st =
    accumulate (since_ResourceCreation env threadIndex) (chPipelines st) /\
  AveragePipelineRunTimePerUser st =
    (if waitPipelines cfg
     then accumulate (pipelineElapsed cfg env threadIndex) (chPipelines st)
     else 0).
Proof.
  intros Hrun.
  apply userJourneyThread_stages in Hrun.
  destruct Hrun as (_ & st1 & st2 & H1 & H2 & H3).
  unfold stageUsers in H1. apply stageUsers_loop_spec in H1.
  destruct H1 as [(Ha1 & Hb1 & _ & _ & Hp1) _]. simpl in Ha1, Hb1, Hp1.
  unfold stageResources in H2.
  pose proof (stageResources_forwards _ _ _ _ _ _ H2)
    as (sent & Hsent & _ & Havg).
  rewrite Hp1 in Hsent. simpl in Hsent. rewrite Ha1 in Havg.
  apply stageResources_loop_spec in H2.
  destruct H2 as [(_ & Hb2 & _) _]. rewrite Hb1 in Hb2.
  destruct (waitPipelines cfg).
  - unfold stagePipelines in H3.
    pose proof (stagePipelines_accumulates _ _ _ _ _ _
                  ltac:(rewrite Hb2; unfold in_int64, min_int64, max_int64;
                        lia) H3) as Hacc.
    rewrite Hb2 in Hacc.
    apply stagePipelines_loop_spec in H3.
    destruct H3 as [(_ & Ha3 & _ & _ & _ & Hp3 & _) _].
    rewrite Hsent in Hacc.
    rewrite Ha3, Hp3, Hsent. split; [exact Havg|exact Hacc].
  - subst st. rewrite Hsent. split; [exact Havg|exact Hb2].
Qed.

Lemma time_accumulated_over_forwarded_users_witness :
  exists st,
    userJourneyThread (mkConfig "testuser" 4 2 1 true false)
      secretFailsEnv 0 = Ret tt st /\
    AverageResourceCreationTimePerUser st = 9000000000 /\
    AveragePipelineRunTimePerUser st = 270000000000.
Proof.
  eexists. split; [vm_compute; reflexivity|].
  pose proof (time_accumulated_over_forwarded_users
                (mkConfig "testuser" 4 2 1 true false) secretFailsEnv 0 _
                ltac:(vm_compute; reflexivity)) as [H1 H2].
  split; [rewrite H1|rewrite H2]; vm_compute; reflexivity.
Defined.

(** ** Conservation in stage 2 *)

Lemma stageResources_conserves (cfg : Config) (env : Env) (threadIndex : Z)
    (queue : list Z) (st st' : ThreadState) :
  for_each queue (createResources cfg env threadIndex) st = Ret tt st' ->
  0 <= FailedResourceCreations st ->
  FailedResourceCreations st + Z.of_nat (List.length queue) <= max_int64 ->
  FailedResourceCreations st' + Z.of_nat (List.length (chPipelines st')) =
    FailedResourceCreations st + Z.of_nat (List.length (chPipelines st)) +
    Z.of_nat (List.length queue) /\
  FailedResourceCreations st <= FailedResourceCreations st'.
Proof.
  revert st. induction queue as [|u rest IH]; intros st Hrun H0 Hmax.
  - simpl in Hrun. unfold ret in Hrun. inversion Hrun; subst. simpl. lia.
  - simpl in Hrun. apply bind_Ret in Hrun.
    destruct Hrun as ([] & st1 & Hstep & Hrest).
    simpl List.length in *.
    apply createResources_spec in Hstep.
    destruct Hstep as [_ [(c & message & _ & Hf & _ & Hch & _)
                         | (_ & Hf & _ & Hch & _)]].
    + rewrite Int64Facts.add64_id in Hf
        by (unfold in_int64, min_int64, max_int64 in *; lia).
      destruct (IH st1 Hrest) as [Hsum Hle]; [lia|lia|].
      rewrite Hsum, Hf, Hch. lia.
    + destruct (IH st1 Hrest) as [Hsum Hle]; [lia|lia|].
      rewrite Hsum, Hf, Hch, List.length_app. simpl. lia.
Qed.

(** X10: stage 2 loses no user and counts none twice.  In a thread that
    has reached its join, every user stage 1 sent on is either among the
    users forwarded to the pipeline stage or counted once in
    [FailedResourceCreations], so the two add up to the number of users
    received; and the pipeline stage counts at most one failure per user
    it received. *)
Theorem stage2_forwards_or_counts_every_user (cfg : Config) (env : Env)
    (threadIndex : Z) (st : ThreadState) :
  numberOfUsers cfg <= max_int64 ->
  userJourneyThread cfg env threadIndex = Ret tt st ->
  0 <= FailedResourceCreations st /\
  FailedResourceCreations st + Z.of_nat (List.length (chPipelines st)) =
    Z.of_nat (List.length (chUsers st)) /\
  0 <= FailedPipelineRuns st <= Z.of_nat (List.length (chPipelines st)).
Proof.
  intros HN Hrun.
  destruct (userJourneyThread_counters cfg env threadIndex st HN Hrun)
    as (e1 & e2 & e3 & _ & _ & _ & _ & _ & _ & Hf3 & _ & _ & Hl3 & _).
  apply userJourneyThread_stages in Hrun.
  destruct Hrun as (_ & st1 & st2 & H1 & H2 & H3).
  pose proof (stageUsers_capacity cfg env threadIndex st1 H1) as Hcap.
  unfold stageUsers in H1. apply stageUsers_loop_spec in H1.
  destruct H1 as [(_ & _ & Hr1 & _ & Hp1) _]. simpl in Hr1, Hp1.
  unfold stageResources in H2.
  pose proof (stageResources_loop_spec _ _ _ _ _ _ H2)
    as ((_ & _ & _ & _ & Hu2 & _) & _).
  destruct (stageResources_conserves cfg env threadIndex _ _ _ H2)
    as [Hsum Hle]; [lia|unfold max_int64 in *; lia|].
  rewrite Hr1, Hp1 in Hsum. rewrite Hr1 in Hle. simpl in Hsum.
  assert (Hgoal :
    0 <= FailedResourceCreations st2 /\
    FailedResourceCreations st2 + Z.of_nat (List.length (chPipelines st2)) =
      Z.of_nat (List.length (chUsers st2))).
  { rewrite Hu2. lia. }
  assert (Hpipe : 0 <= FailedPipelineRuns st
                  <= Z.of_nat (List.length (chPipelines st))) by lia.
  destruct (waitPipelines cfg).
  - unfold stagePipelines in H3. apply stagePipelines_loop_spec in H3.
    destruct H3 as [(_ & _ & _ & Hr3 & Hu3 & Hp3 & _) _].
    split; [|split; [|exact Hpipe]]; rewrite ?Hr3, ?Hu3, ?Hp3; tauto.
  - subst st2. split; [tauto|]. split; [tauto|exact Hpipe].
Qed.

Lemma stage2_forwards_or_counts_every_user_witness :
  exists st,
    userJourneyThread fourUsersConfig secretFailsEnv 0 = Ret tt st /\
    FailedResourceCreations st = 1 /\
    FailedResourceCreations st + Z.of_nat (List.length (chPipelines st)) =
      Z.of_nat (List.length (chUsers st)).
Proof.
  eexists. split; [vm_compute; reflexivity|].
  split; [reflexivity|].
  eapply (stage2_forwards_or_counts_every_user fourUsersConfig
            secretFailsEnv 0).
  - unfold max_int64. simpl. lia.
  - vm_compute. reflexivity.
Defined.

(** ** The run on which nothing fails *)

Lemma sublist_full {A : Type} (l1 l2 : list A) :
  sublist l1 l2 -> (List.length l2 <= List.length l1)%nat -> l1 = l2.
Proof.
  induction 1 as [|x l1 l2 Hsub IH|x l1 l2 Hsub IH]; intros Hlen.
  - reflexivity.
  - simpl in Hlen. f_equal. apply IH. lia.
  - apply sublist_length in Hsub. simpl in Hlen. lia.
Qed.

Lemma for_each_ext {A : Type} (items : list A) (body body' : A -> M unit) :
  (forall x st, In x items -> body x st = body' x st) ->
  forall st, for_each items body st = for_each items body' st.
Proof.
  induction items as [|x rest IH]; intros Hsame st; [reflexivity|].
  simpl. unfold bind. rewrite Hsame by now left.
  destruct (body' x st) as [[] st1| | |]; try reflexivity.
  apply IH. intros y s Hy. apply Hsame. now right.
Qed.

Section NothingFails.
Variable cfg : Config.
Variable env : Env.
Variable threadIndex : Z.

Hypothesis nothing_fails : all_succeed cfg env.

Lemma steps_succeed_always (userIndex : Z) :
  steps_succeed cfg env threadIndex userIndex.
Proof.
  destruct nothing_fails as (_ & _ & Hs & Ha & Hg & Hc & _).
  unfold steps_succeed. rewrite Hs, Ha, Hg, Hc. tauto.
Qed.

(** With no error to log, [failFast] makes no difference. *)
Lemma waitForCohort_same (userIndex : Z) (members : list Z)
    (st : ThreadState) :
  waitForCohort cfg env threadIndex userIndex members st =
  waitForCohort (goOn cfg) env threadIndex userIndex members st.
Proof.
  destruct nothing_fails as (_ & [_ Hwait] & _).
  revert st. induction members as [|i rest IH]; intros st; [reflexivity|].
  cbn [waitForCohort]. unfold bind, call_wait_ForNamespace, send_chUsers.
  change (usernamespace (goOn cfg) threadIndex userIndex)
    with (usernamespace cfg threadIndex userIndex).
  change (numberOfUsers (goOn cfg)) with (numberOfUsers cfg).
  rewrite !Hwait. cbv beta iota.
  destruct (chan_send _ _ _); [|reflexivity]. apply IH.
Qed.

Lemma UserLoop_same (userIndex : Z) (st : ThreadState) :
  UserLoop cfg env threadIndex userIndex st =
  UserLoop (goOn cfg) env threadIndex userIndex st.
Proof.
  destruct nothing_fails as (_ & [Hcreate _] & _).
  unfold UserLoop.
  change (username (goOn cfg) threadIndex userIndex)
    with (username cfg threadIndex userIndex).
  change (userBatches (goOn cfg)) with (userBatches cfg).
  rewrite Hcreate.
  destruct (go_rem userIndex (userBatches cfg)) as [r|]; [|reflexivity].
  unfold bind. destruct (r =? 0); [|reflexivity].
  change (cohort (goOn cfg) userIndex) with (cohort cfg userIndex).
  rewrite waitForCohort_same. reflexivity.
Qed.

Lemma createResources_same (userIndex : Z) (st : ThreadState) :
  createResources cfg env threadIndex userIndex st =
  createResources (goOn cfg) env threadIndex userIndex st.
Proof.
  destruct nothing_fails as (_ & _ & Hs & Ha & Hg & Hc & _).
  unfold createResources.
  change (username (goOn cfg) threadIndex userIndex)
    with (username cfg threadIndex userIndex).
  change (usernamespace (goOn cfg) threadIndex userIndex)
    with (usernamespace cfg threadIndex userIndex).
  change (ApplicationName (goOn cfg) threadIndex userIndex)
    with (ApplicationName cfg threadIndex userIndex).
  change (ComponentName (goOn cfg) threadIndex userIndex)
    with (ComponentName cfg threadIndex userIndex).
  rewrite Hs, Ha, Hg, Hc, String.eqb_refl. reflexivity.
Qed.

Lemma waitForPipeline_same (userIndex : Z) (st : ThreadState) :
  waitForPipeline cfg env threadIndex userIndex st =
  waitForPipeline (goOn cfg) env threadIndex userIndex st.
Proof.
  destruct nothing_fails as (_ & _ & _ & _ & _ & _ & Hp).
  unfold waitForPipeline.
  change (usernamespace (goOn cfg) threadIndex userIndex)
    with (usernamespace cfg threadIndex userIndex).
  change (ApplicationName (goOn cfg) threadIndex userIndex)
    with (ApplicationName cfg threadIndex userIndex).
  change (ComponentName (goOn cfg) threadIndex userIndex)
    with (ComponentName cfg threadIndex userIndex).
  destruct (Hp (ComponentName cfg threadIndex userIndex)
              (ApplicationName cfg threadIndex userIndex)
              (usernamespace cfg threadIndex userIndex)) as [elapsed ->].
  reflexivity.
Qed.

Lemma userJourneyThread_same :
  userJourneyThread cfg env threadIndex =
  userJourneyThread (goOn cfg) env threadIndex.
Proof.
  unfold userJourneyThread, bind, stageUsers, stageResources,
    stagePipelines.
  change (numberOfUsers (goOn cfg)) with (numberOfUsers cfg).
  change (waitPipelines (goOn cfg)) with (waitPipelines cfg).
  destruct (numberOfUsers cfg <? 0); [reflexivity|].
  rewrite (for_each_ext (from_to 1 (numberOfUsers cfg))
             (UserLoop cfg env threadIndex)
             (UserLoop (goOn cfg) env threadIndex))
    by (intros; apply UserLoop_same).
  destruct (for_each _ (UserLoop (goOn cfg) env threadIndex) _)
    as [[] st1| | |]; try reflexivity.
  rewrite (for_each_ext (chUsers st1)
             (createResources cfg env threadIndex)
             (createResources (goOn cfg) env threadIndex))
    by (intros; apply createResources_same).
  destruct (for_each _ (createResources (goOn cfg) env threadIndex) _)
    as [[] st2| | |]; try reflexivity.
  destruct (waitPipelines cfg); [|reflexivity].
  apply for_each_ext. intros; apply waitForPipeline_same.
Qed.

Lemma stageResources_all (queue : list Z) (st st' : ThreadState) :
  for_each queue (createResources cfg env threadIndex) st = Ret tt st' ->
  chPipelines st' = chPipelines st ++ queue /\
  FailedResourceCreations st' = FailedResourceCreations st /\
  errorCalls st' = errorCalls st.
Proof.
  revert st. induction queue as [|u rest IH]; intros st Hrun.
  - simpl in Hrun. unfold ret in Hrun. inversion Hrun; subst.
    now rewrite app_nil_r.
  - simpl in Hrun. apply bind_Ret in Hrun.
    destruct Hrun as ([] & st1 & Hstep & Hrest).
    apply IH in Hrest. destruct Hrest as (Hch & Hf & He).
    apply createResources_spec in Hstep.
    destruct Hstep as [_ [(c & message & Hfail & _)
                         | (_ & Hf1 & He1 & Hch1 & _)]].
    + exfalso. eapply step_fails_not_succeed; [exact Hfail|].
      apply steps_succeed_always.
    + rewrite Hch, Hf, He, Hch1, Hf1, He1, <- app_assoc. tauto.
Qed.

Lemma stagePipelines_all (queue : list Z) (st st' : ThreadState) :
  for_each queue (waitForPipeline cfg env threadIndex) st = Ret tt st' ->
  FailedPipelineRuns st' = FailedPipelineRuns st /\
  errorCalls st' = errorCalls st.
Proof.
  destruct nothing_fails as (_ & _ & _ & _ & _ & _ & Hp).
  revert st. induction queue as [|u rest IH]; intros st Hrun.
  - simpl in Hrun. unfold ret in Hrun. now inversion Hrun.
  - simpl in Hrun. apply bind_Ret in Hrun.
    destruct Hrun as ([] & st1 & Hstep & Hrest).
    apply IH in Hrest. destruct Hrest as (Hf & He). rewrite Hf, He.
    unfold waitForPipeline in Hstep.
    destruct (Hp (ComponentName cfg threadIndex u)
                (ApplicationName cfg threadIndex u)
                (usernamespace cfg threadIndex u)) as [elapsed Hdone].
    rewrite Hdone in Hstep. unfold_ops. now inversion Hstep.
Qed.

Hypothesis batches_positive : 0 < userBatches cfg.
Hypothesis batches_in_range : in_int64 (userBatches cfg).
Hypothesis users_in_range : 0 <= numberOfUsers cfg < 2 ^ 62.
Hypothesis whole_cohorts :
  Z.rem (numberOfUsers cfg) (userBatches cfg) = 0.

Lemma stageUsers_all (st : ThreadState) :
  stageUsers cfg env threadIndex initThreadState = Ret tt st ->
  chUsers st = from_to 1 (numberOfUsers cfg) /\
  FailedUserCreations st = 0 /\ errorCalls st = [].
Proof.
  intros Hrun.
  destruct nothing_fails as (_ & Hok & _).
  pose proof (stageUsers_forwards cfg env threadIndex batches_in_range
                ltac:(lia) st ltac:(lia) Hrun) as Hsub.
  unfold stageUsers in Hrun.
  pose proof (@triple_for_range
    (fun u s => (FailedUserCreations s = 0 /\
                 Z.of_nat (List.length (chUsers s)) =
                   forwarded_bound cfg (u - 1)) /\
                errorCalls s = [])
    (UserLoop cfg env threadIndex) (numberOfUsers cfg)
    (Z.to_nat (numberOfUsers cfg)) 1) as H.
  cbv beta in H.
  replace (numberOfUsers cfg + 1 - 1) with (numberOfUsers cfg) in H by lia.
  assert (Hinit : forwarded_bound cfg 0 = 0).
  { unfold forwarded_bound. destruct (0 <? userBatches cfg); [|lia].
    rewrite Z.div_0_l by lia. lia. }
  assert (Hbody : forall u, 1 <= u <= numberOfUsers cfg ->
            triple
              (fun s => (FailedUserCreations s = 0 /\
                         Z.of_nat (List.length (chUsers s)) =
                           forwarded_bound cfg (u - 1)) /\
                        errorCalls s = [])
              (UserLoop cfg env threadIndex u)
              (fun _ s => (FailedUserCreations s = 0 /\
                           Z.of_nat (List.length (chUsers s)) =
                             forwarded_bound cfg (u + 1 - 1)) /\
                          errorCalls s = [])).
  { intros u Hu s [Hinv Hnone] [] s' Hstep.
    pose proof (UserLoop_all_succeed cfg env threadIndex batches_positive
                  batches_in_range users_in_range u Hok Hu s Hinv tt s'
                  Hstep) as Hinv'.
    split; [exact Hinv'|].
    apply UserLoop_counts in Hstep.
    destruct Hstep as [(Hadd & _) | (_ & Hsame)]; [|congruence].
    exfalso. destruct Hinv as [Hz _]. destruct Hinv' as [Hz' _].
    rewrite Hz, Hz' in Hadd. vm_compute in Hadd. discriminate. }
  destruct (H ltac:(lia) Hbody initThreadState
              ltac:(split; [split; [reflexivity|]|reflexivity];
                    replace (1 - 1) with 0 by lia;
                    rewrite Hinit; reflexivity)
              tt st Hrun) as [[Hf Hlen] He].
  rewrite (forwarded_bound_all cfg batches_positive users_in_range
             whole_cohorts) in Hlen.
  split; [|tauto].
  apply sublist_full; [exact Hsub|].
  rewrite from_to_length. lia.
Qed.
End NothingFails.

(** X11: when every call to the cluster succeeds and the users come in
    whole cohorts, a thread reaches its join, whether [failFast] is on or
    off and whether pipelines are waited for or not: every user from 1 to
    [numberOfUsers] passes through both channels, once and in order,
    nothing is logged and nothing is counted as failed. *)
Theorem every_user_passes_when_nothing_fails (cfg : Config) (env : Env)
    (threadIndex : Z) :
  all_succeed cfg env ->
  0 < userBatches cfg -> in_int64 (userBatches cfg) ->
  0 <= numberOfUsers cfg < 2 ^ 62 ->
  Z.rem (numberOfUsers cfg) (userBatches cfg) = 0 ->
  exists st,
    userJourneyThread cfg env threadIndex = Ret tt st /\
    chUsers st = from_to 1 (numberOfUsers cfg) /\
    chPipelines st = from_to 1 (numberOfUsers cfg) /\
    errorCalls st = [] /\
    FailedUserCreations st = 0 /\ FailedResourceCreations st = 0 /\
    FailedPipelineRuns st = 0.
Proof.
  intros Hall HB HBr HN Hdiv.
  destruct (userJourneyThread_returns (goOn cfg) env threadIndex
              ltac:(simpl; lia) HBr HN eq_refl) as (st & Hrun & _).
  rewrite <- (userJourneyThread_same cfg env threadIndex Hall) in Hrun.
  exists st. split; [exact Hrun|].
  apply userJourneyThread_stages in Hrun.
  destruct Hrun as (_ & st1 & st2 & H1 & H2 & H3).
  pose proof H1 as Hk1. unfold stageUsers in Hk1.
  apply stageUsers_loop_spec in Hk1.
  destruct Hk1 as [(_ & _ & Hr1 & Hq1 & Hp1) _]. simpl in Hr1, Hq1, Hp1.
  destruct (stageUsers_all cfg env threadIndex Hall HB HBr HN Hdiv st1 H1)
    as (Hu1 & Hf1 & He1).
  unfold stageResources in H2.
  pose proof (stageResources_loop_spec _ _ _ _ _ _ H2)
    as ((_ & _ & Hf2 & Hq2 & Hu2 & _) & _).
  apply (stageResources_all cfg env threadIndex Hall) in H2.
  destruct H2 as (Hp2 & Hr2 & He2).
  rewrite Hp1, Hu1 in Hp2. simpl in Hp2.
  assert (Hgoal :
    chUsers st2 = from_to 1 (numberOfUsers cfg) /\
    chPipelines st2 = from_to 1 (numberOfUsers cfg) /\
    errorCalls st2 = [] /\
    FailedUserCreations st2 = 0 /\ FailedResourceCreations st2 = 0 /\
    FailedPipelineRuns st2 = 0).
  { repeat split; congruence. }
  destruct (waitPipelines cfg); [|subst st; exact Hgoal].
  unfold stagePipelines in H3.
  pose proof (stagePipelines_loop_spec _ _ _ _ _ _ H3)
    as ((_ & _ & Hf3 & Hr3 & Hu3 & Hp3 & _) & _).
  apply (stagePipelines_all cfg env threadIndex Hall) in H3.
  destruct H3 as (Hq3 & He3).
  destruct Hgoal as (? & ? & ? & ? & ? & ?).
  repeat split; congruence.
Qed.

Lemma every_user_passes_when_nothing_fails_witness :
  exists st,
    userJourneyThread (mkConfig "testuser" 4 2 2 true true) steadyEnv 1
      = Ret tt st /\
    chPipelines st = [1; 2; 3; 4].
Proof.
  destruct (every_user_passes_when_nothing_fails
              (mkConfig "testuser" 4 2 2 true true) steadyEnv 1)
    as (st & Hrun & _ & Hp & _).
  - unfold all_succeed, collaborators_ready, no_stage1_failure. simpl.
    repeat split; eauto.
  - simpl. lia.
  - unfold in_int64, min_int64, max_int64. simpl. lia.
  - simpl. lia.
  - reflexivity.
  - exists st. split; [exact Hrun|exact Hp].
Defined.

(** * Task runs of a pipeline run *)

Import Tekton.

(** ** [strings.TrimSuffix] *)

Lemma substring_0_all (s : string) : substring 0 (String.length s) s = s.
Proof. induction s as [|c s IH]; simpl; [reflexivity|]. now rewrite IH. Qed.

Lemma append_cons (c : ascii) (a b : string) :
  String c a +:+ b = String c (a +:+ b).
Proof. reflexivity. Qed.

Lemma append_empty_l (b : string) : EmptyString +:+ b = b.
Proof. reflexivity. Qed.

Lemma substring_skip_app (v s : string) :
  substring (String.length v) (String.length s) (v +:+ s) = s.
Proof.
  induction v as [|c v IH].
  - rewrite append_empty_l. apply substring_0_all.
  - rewrite append_cons. simpl. exact IH.
Qed.

Lemma substring_split (n : nat) (s : string) :
  (n <= String.length s)%nat ->
  substring 0 n s +:+ substring n (String.length s - n) s = s.
Proof.
  revert n. induction s as [|c s IH]; intros n Hn.
  - simpl in Hn. replace n with O by lia. reflexivity.
  - destruct n as [|n]; simpl.
    + rewrite append_empty_l. now rewrite substring_0_all.
    + rewrite append_cons. f_equal. apply IH. simpl in Hn. lia.
Qed.

Lemma HasSuffix_append (p suffix : string) :
  HasSuffix (p +:+ suffix) suffix = true.
Proof.
  unfold HasSuffix. rewrite append_length.
  replace (String.length p + String.length suffix - String.length suffix)%nat
    with (String.length p) by lia.
  rewrite substring_skip_app, String.eqb_refl, andb_true_r.
  apply Nat.leb_le. lia.
Qed.

Lemma TrimSuffix_spec (s suffix : string) :
  s = TrimSuffix s suffix +:+ suffix \/
  (TrimSuffix s suffix = s /\ forall p, s <> p +:+ suffix).
Proof.
  unfold TrimSuffix. destruct (HasSuffix s suffix) eqn:Hhas.
  - left. unfold HasSuffix in Hhas.
    apply andb_true_iff in Hhas. destruct Hhas as [Hlen Heq].
    apply Nat.leb_le in Hlen. apply String.eqb_eq in Heq.
    pose proof (substring_split (String.length s - String.length suffix) s
                  ltac:(lia)) as Hsplit.
    replace (String.length s - (String.length s - String.length suffix))%nat
      with (String.length suffix) in Hsplit by lia.
    rewrite Heq in Hsplit. now symmetry.
  - right. split; [reflexivity|]. intros p ->.
    rewrite HasSuffix_append in Hhas. discriminate.
Qed.

(** ** The three lookups among the child references *)

Lemma firstReference_None (pipelineTaskName : string)
    (refs : list ChildStatusReference) :
  firstReference pipelineTaskName refs = None <->
  forall chr, In chr refs -> PipelineTaskName chr <> pipelineTaskName.
Proof.
  unfold firstReference. split.
  - intros Hnone chr Hin Heq.
    pose proof (List.find_none _ _ Hnone chr Hin) as H. simpl in H.
    apply String.eqb_neq in H. contradiction.
  - intros Hall. induction refs as [|chr rest IH]; [reflexivity|]. simpl.
    destruct (String.eqb_spec (PipelineTaskName chr) pipelineTaskName)
      as [Heq|_].
    + exfalso. apply (Hall chr); [now left | exact Heq].
    + apply IH. intros x Hx. apply Hall. now right.
Qed.

Lemma taskRunOf_first (c : Client) (pr : PipelineRun)
    (pipelineTaskName : string) (refs : list ChildStatusReference) :
  taskRunOf c pr pipelineTaskName refs =
    match firstReference pipelineTaskName refs with
    | None =>
        inr (TaskNotFound pipelineTaskName (pr_Namespace pr) (pr_Name pr))
    | Some chr =>
        match c (pr_Namespace pr) (Name chr) with
        | inr err => inr (ClientError err)
        | inl taskRun => inl taskRun
        end
    end.
Proof.
  unfold firstReference. induction refs as [|chr rest IH]; [reflexivity|].
  simpl. destruct (String.eqb (PipelineTaskName chr) pipelineTaskName);
    simpl; [reflexivity | exact IH].
Qed.

Lemma statusOf_first (c : Client) (pr : PipelineRun)
    (pipelineTaskName : string) (refs : list ChildStatusReference) :
  statusOf c pr pipelineTaskName refs =
    match firstReference pipelineTaskName refs with
    | None =>
        inr (StatusNotFound pipelineTaskName (pr_Namespace pr) (pr_Name pr))
    | Some chr =>
        match c (pr_Namespace pr) (Name chr) with
        | inr err => inr (ClientError err)
        | inl taskRun =>
            inl {| status_PipelineTaskName := PipelineTaskName chr;
                   status_Status := Status taskRun |}
        end
    end.
Proof.
  unfold firstReference. induction refs as [|chr rest IH]; [reflexivity|].
  simpl. destruct (String.eqb (PipelineTaskName chr) pipelineTaskName);
    [reflexivity | exact IH].
Qed.

Lemma podNameOf_first (t : TektonController) (namespace : string)
    (pipelineTaskName : string) (refs : list ChildStatusReference) :
  podNameOf t namespace pipelineTaskName refs =
    match firstReference pipelineTaskName refs with
    | None => inl EmptyString
    | Some chr =>
        match KubeRest t namespace (Name chr) with
        | inr err => inr (ClientError err)
        | inl taskRun => inl (PodName (Status taskRun))
        end
    end.
Proof.
  unfold firstReference. induction refs as [|chr rest IH]; [reflexivity|].
  simpl. destruct (String.eqb (PipelineTaskName chr) pipelineTaskName);
    [reflexivity | exact IH].
Qed.

Lemma firstReference_split (pipelineTaskName : string)
    (before after : list ChildStatusReference) (chr : ChildStatusReference) :
  PipelineTaskName chr = pipelineTaskName ->
  (forall x, In x before -> PipelineTaskName x <> pipelineTaskName) ->
  firstReference pipelineTaskName (before ++ chr :: after) = Some chr.
Proof.
  intros Heq Hbefore. unfold firstReference.
  induction before as [|x rest IH]; simpl.
  - rewrite Heq, String.eqb_refl. reflexivity.
  - destruct (String.eqb_spec (PipelineTaskName x) pipelineTaskName)
      as [Hx|_].
    + exfalso. apply (Hbefore x); [now left | exact Hx].
    + apply IH. intros y Hy. apply Hbefore. now right.
Qed.

(** X12: [GetTaskRunFromPipelineRun] answers from the first child
    reference that carries the pipeline task name and from no other: the
    client is asked for that task run, and its error is handed on even
    if a later reference carries the name too; the error [task ... not
    found] is returned exactly when no reference carries the name. *)
Theorem GetTaskRunFromPipelineRun_first_reference (c : Client)
    (pr : PipelineRun) (pipelineTaskName : string) :
  (forall before chr after,
     ChildReferences pr = before ++ chr :: after ->
     PipelineTaskName chr = pipelineTaskName ->
     (forall x, In x before -> PipelineTaskName x <> pipelineTaskName) ->
     GetTaskRunFromPipelineRun c pr pipelineTaskName =
       match c (pr_Namespace pr) (Name chr) with
       | inr err => inr (ClientError err)
       | inl taskRun => inl taskRun
       end) /\
  ((forall chr, In chr (ChildReferences pr) ->
      PipelineTaskName chr <> pipelineTaskName) <->
   GetTaskRunFromPipelineRun c pr pipelineTaskName =
     inr (TaskNotFound pipelineTaskName (pr_Namespace pr) (pr_Name pr))).
Proof.
  unfold GetTaskRunFromPipelineRun. rewrite taskRunOf_first. split.
  - intros before chr after Hrefs Heq Hbefore.
    rewrite Hrefs, (firstReference_split _ _ _ _ Heq Hbefore). reflexivity.
  - rewrite <- firstReference_None.
    destruct (firstReference pipelineTaskName (ChildReferences pr))
      as [chr|]; [|tauto].
    split; [discriminate|].
    destruct (c (pr_Namespace pr) (Name chr)); discriminate.
Qed.

Lemma GetTaskRunFromPipelineRun_first_reference_witness :
  let pr :=
    mkPipelineRun "user-tenant" "build-run"
      [mkChildStatusReference "build-run-clone" "clone-repository";
       mkChildStatusReference "build-run-build" "build-container";
       mkChildStatusReference "build-run-retry" "build-container"] in
  let c : Client := fun _ name =>
    if String.eqb name "build-run-build" then inr "connection refused"
    else inl (mkTaskRun (mkTaskRunStatus "build-pod" [])) in
  GetTaskRunFromPipelineRun c pr "build-container" =
    inr (ClientError "connection refused").
Proof.
  intros pr c.
  apply (proj1 (GetTaskRunFromPipelineRun_first_reference c pr
                  "build-container")
           [mkChildStatusReference "build-run-clone" "clone-repository"]
           (mkChildStatusReference "build-run-build" "build-container")
           [mkChildStatusReference "build-run-retry" "build-container"]).
  - reflexivity.
  - reflexivity.
  - intros x [<-|[]]. simpl. discriminate.
Defined.

(** X13: [GetTaskRunStatus] and [GetTaskRunFromPipelineRun] agree.  Where
    one finds a task run the other returns the status of that very task
    run under the pipeline task name asked for; an error of the client is
    the same from both; and one reports the task as not found exactly
    when the other reports the status as not found. *)
Theorem GetTaskRunStatus_agrees_with_GetTaskRunFromPipelineRun (c : Client)
    (pr : PipelineRun) (pipelineTaskName : string) :
  match GetTaskRunFromPipelineRun c pr pipelineTaskName with
  | inl taskRun =>
      GetTaskRunStatus c pr pipelineTaskName =
        inl {| status_PipelineTaskName := pipelineTaskName;
               status_Status := Status taskRun |}
  | inr (ClientError err) =>
      GetTaskRunStatus c pr pipelineTaskName = inr (ClientError err)
  | inr _ =>
      GetTaskRunStatus c pr pipelineTaskName =
        inr (StatusNotFound pipelineTaskName (pr_Namespace pr) (pr_Name pr))
  end.
Proof.
  unfold GetTaskRunFromPipelineRun, GetTaskRunStatus.
  rewrite taskRunOf_first, statusOf_first.
  destruct (firstReference pipelineTaskName (ChildReferences pr))
    as [chr|] eqn:Hfirst; [|reflexivity].
  unfold firstReference in Hfirst. apply List.find_some in Hfirst.
  destruct Hfirst as [_ Heq]. apply String.eqb_eq in Heq.
  destruct (c (pr_Namespace pr) (Name chr)); [|reflexivity].
  now rewrite Heq.
Qed.

Lemma resultOf_first (pr : PipelineRun) (result : string)
    (results : list TaskRunResult) :
  resultOf pr result results =
    match List.find (fun r => String.eqb (result_Name r) result) results with
    | None => inr (ResultNotFound result (pr_Namespace pr) (pr_Name pr))
    | Some r => inl (TrimSuffix (Value_StringVal r) newline)
    end.
Proof.
  induction results as [|r rest IH]; [reflexivity|]. simpl.
  destruct (String.eqb (result_Name r) result); [reflexivity | exact IH].
Qed.

(** X14: for a task run that is found, [GetTaskRunResult] returns the
    value of the first result of the given name with one line feed
    taken from its end: the value as it is when it does not end in a
    line feed, and otherwise the value without its last line feed, so
    that a value ending in two line feeds keeps one.  It fails with
    [result ... not found] exactly when no result has the name. *)
Theorem GetTaskRunResult_trims_one_line_feed (c : Client) (pr : PipelineRun)
    (pipelineTaskName result : string) (taskRun : TaskRun) :
  GetTaskRunFromPipelineRun c pr pipelineTaskName = inl taskRun ->
  match List.find (fun r => String.eqb (result_Name r) result)
          (Results (Status taskRun)) with
  | None =>
      GetTaskRunResult c pr pipelineTaskName result =
        inr (ResultNotFound result (pr_Namespace pr) (pr_Name pr))
  | Some r =>
      exists v,
        GetTaskRunResult c pr pipelineTaskName result = inl v /\
        (Value_StringVal r = v +:+ newline \/
         (Value_StringVal r = v /\ forall p, v <> p +:+ newline))
  end.
Proof.
  intros Hfound. unfold GetTaskRunResult. rewrite Hfound, resultOf_first.
  destruct (List.find _ _) as [r|]; [|reflexivity].
  exists (TrimSuffix (Value_StringVal r) newline). split; [reflexivity|].
  destruct (TrimSuffix_spec (Value_StringVal r) newline) as [H | [H Hno]].
  - left. exact H.
  - right. rewrite H. split; [reflexivity | exact Hno].
Qed.

Lemma GetTaskRunResult_trims_one_line_feed_witness :
  let taskRun :=
    mkTaskRun
      (mkTaskRunStatus "build-pod"
         [mkTaskRunResult "IMAGE_URL" "quay.io/org/image";
          mkTaskRunResult "IMAGE_DIGEST" ("sha256:0a1b" +:+ newline +:+ newline)])
  in
  let pr :=
    mkPipelineRun "user-tenant" "build-run"
      [mkChildStatusReference "build-run-clone" "clone-repository";
       mkChildStatusReference "build-run-build" "build-container"] in
  let c : Client := fun _ name =>
    if String.eqb name "build-run-build" then inl taskRun
    else inr "not found" in
  GetTaskRunResult c pr "build-container" "IMAGE_DIGEST" =
    inl ("sha256:0a1b" +:+ newline).
Proof.
  intros taskRun pr c.
  pose proof (GetTaskRunResult_trims_one_line_feed c pr "build-container"
                "IMAGE_DIGEST" taskRun ltac:(reflexivity)) as H.
  simpl in H. destruct H as (v & Hv & _). rewrite Hv.
  vm_compute in Hv. injection Hv as <-. reflexivity.
Defined.

(** ** The logs of a task run *)




(** X16: [GetTaskRunLogs] reports [task ... doesn't exist] in two cases
    that it does not tell apart: the pipeline run has no child reference
    of the pipeline task, or the task run of the first such reference has
    no pod yet.  An error of the client that reads the task run is handed
    on as it is. *)
Theorem GetTaskRunLogs_task_without_pod (t : TektonController)
    (pipelineRunName pipelineTaskName namespace : string)
    (pipelineRun : PipelineRun) :
  PipelineRuns_Get t namespace pipelineRunName = inl pipelineRun ->
  (GetTaskRunLogs t pipelineRunName pipelineTaskName namespace =
     inr (TaskDoesNotExist pipelineTaskName pipelineRunName) <->
   (forall chr, In chr (ChildReferences pipelineRun) ->
      PipelineTaskName chr <> pipelineTaskName) \/
   exists taskRun,
     GetTaskRunFromPipelineRun (KubeRest t) pipelineRun pipelineTaskName =
       inl taskRun /\
     PodName (Status taskRun) = EmptyString) /\
  (forall err,
     GetTaskRunFromPipelineRun (KubeRest t) pipelineRun pipelineTaskName =
       inr (ClientError err) ->
     GetTaskRunLogs t pipelineRunName pipelineTaskName namespace =
       inr (ClientError err)).
Proof.
  intros Hpr. unfold GetTaskRunLogs, GetTaskRunFromPipelineRun.
  rewrite Hpr, podNameOf_first, taskRunOf_first, <- firstReference_None.
  destruct (firstReference pipelineTaskName (ChildReferences pipelineRun))
    as [chr|].
  - destruct (KubeRest t (pr_Namespace pipelineRun) (Name chr))
      as [taskRun|err].
    + destruct (String.eqb_spec (PodName (Status taskRun)) EmptyString)
        as [Hpod|Hpod].
      * split; [|discriminate]. split; [|reflexivity].
        intros _. right. exists taskRun. auto.
      * split; [|discriminate]. split.
        -- destruct (Pods_Get t namespace (PodName (Status taskRun)));
             discriminate.
        -- intros [H | (tr & Htr & Hempty)]; [discriminate|].
           injection Htr as <-. contradiction.
    + split.
      * split; [discriminate|].
        intros [H | (tr & Htr & _)]; discriminate.
      * intros e He. injection He as <-. reflexivity.
  - simpl. split; [|discriminate]. split; [tauto | reflexivity].
Qed.

Lemma GetTaskRunLogs_task_without_pod_witness :
  let t :=
    mkTektonController
      (fun _ _ => inl (mkTaskRun (mkTaskRunStatus EmptyString [])))
      (fun namespace name =>
         inl (mkPipelineRun namespace name
                [mkChildStatusReference "build-run-build" "build-container"]))
      (fun _ _ => inl (mkPod ["step-build"]))
      (fun _ _ _ => inl "built") in
  GetTaskRunLogs t "build-run" "build-container" "user-tenant" =
    inr (TaskDoesNotExist "build-container" "build-run").
Proof.
  intros t.
  apply (GetTaskRunLogs_task_without_pod t "build-run" "build-container"
           "user-tenant" _ ltac:(reflexivity)).
  right. eexists. split; reflexivity.
Defined.

(** * Purging what a load test has created *)

Import Journey.

Lemma count_app (kind : Event -> bool) (a b : list Event) :
  count kind (a ++ b) = count kind a + count kind b.
Proof.
  unfold count. rewrite List.filter_app, List.length_app. lia.
Qed.

Lemma count_nonneg (kind : Event -> bool) (events : list Event) :
  0 <= count kind events.
Proof. unfold count. lia. Qed.

Lemma purgeStage_spec (cluster : Cluster) (f : framework_Framework)
    (namespace : string) (events events' : list Event)
    (err : option string) :
  purgeStage cluster f namespace events = (err, events') ->
  exists new, events' = events ++ new /\ purged_one true err new.
Proof.
  unfold purgeStage, call. intros Hrun.
  destruct (cluster events _) as [e1|].
  { inversion Hrun; subst. eexists. split; [reflexivity|].
    unfold purged_one. repeat split; try reflexivity; try discriminate.
    all: vm_compute; congruence. }
  destruct (cluster (events ++ _) _) as [e2|].
  { inversion Hrun; subst. rewrite <- app_assoc.
    eexists. split; [reflexivity|].
    unfold purged_one. repeat split; try reflexivity; try discriminate.
    all: vm_compute; congruence. }
  destruct (cluster ((events ++ _) ++ _) _) as [e3|].
  { inversion Hrun; subst. rewrite <- !app_assoc.
    eexists. split; [reflexivity|].
    unfold purged_one. repeat split; try reflexivity; try discriminate.
    all: vm_compute; congruence. }
  inversion Hrun; subst. rewrite <- !app_assoc.
  eexists. split; [reflexivity|].
  unfold purged_one. repeat split; try reflexivity.
  all: vm_compute; congruence.
Qed.

Lemma purgeCi_spec (cluster : Cluster) (f : framework_Framework)
    (username : string) (events events' : list Event)
    (err : option string) :
  purgeCi cluster f username events = (err, events') ->
  exists new, events' = events ++ new /\ purged_one false err new.
Proof.
  unfold purgeCi, call. intros Hrun.
  destruct (cluster events _) as [e1|].
  { inversion Hrun; subst. eexists. split; [reflexivity|].
    unfold purged_one. repeat split; try reflexivity; try discriminate.
    all: vm_compute; congruence. }
  inversion Hrun; subst. rewrite <- !app_assoc.
  eexists. split; [reflexivity|].
  unfold purged_one. repeat split; try reflexivity.
  all: vm_compute; congruence.
Qed.

(** The loop of [Purge]: the counter grows by the errors logged, one
    for every context whose purge failed, and no context is left out. *)
Lemma purgeAll_spec (cluster : Cluster) (contexts : list MainContext) :
  forall (errCounter : Z) (events : list Event) (errCounter' : Z)
         (events' : list Event),
    0 <= errCounter ->
    errCounter + Z.of_nat (List.length contexts) <= max_int64 ->
    purgeAll cluster contexts errCounter events = (errCounter', events') ->
    exists new,
      events' = events ++ new /\
      errCounter' = errCounter + count errorLogged new /\
      count errorLogged new <= Z.of_nat (List.length contexts) /\
      count callFailed new = count errorLogged new /\
      count applicationsDeleted new = onStage contexts /\
      count signupDeleted new = onCi contexts /\
      count selectorsDeleted new <= count queriesDeleted new /\
      count queriesDeleted new <= onStage contexts /\
      (count errorLogged new = 0 ->
       count queriesDeleted new = onStage contexts /\
       count selectorsDeleted new = onStage contexts).
Proof.
  induction contexts as [|ctx rest IH];
    intros errCounter events errCounter' events' H0 Hmax Hrun.
  - simpl in Hrun. inversion Hrun; subst. exists [].
    rewrite app_nil_r. unfold count, onStage, onCi. simpl.
    repeat split; lia.
  - simpl purgeAll in Hrun. simpl List.length in Hmax.
    assert (Hstep : exists err mid,
              (if Opts_Stage ctx
               then purgeStage cluster (Framework ctx) (Namespace ctx) events
               else purgeCi cluster (Framework ctx) (Username ctx) events)
                = (err, mid) /\
              exists logged,
                (logged = [] \/ exists message,
                   logged = [Logged ErrorLevel message]) /\
                (err = None <-> logged = []) /\
                purgeAll cluster rest
                  (errCounter + count errorLogged logged)
                  (mid ++ logged) = (errCounter', events')).
    { destruct (Opts_Stage ctx).
      - destruct (purgeStage cluster (Framework ctx) (Namespace ctx) events)
          as [[e|] mid].
        + exists (Some e), mid. split; [reflexivity|].
          eexists. split; [right; eexists; reflexivity|].
          split; [split; discriminate|].
          rewrite <- Hrun. f_equal. unfold count; simpl List.filter; simpl List.length.
          unfold add64. symmetry. apply Int64Facts.wrap64_id.
          unfold in_int64, min_int64, max_int64 in *. lia.
        + exists None, mid. split; [reflexivity|].
          exists []. split; [now left|]. split; [tauto|].
          rewrite app_nil_r. unfold count; simpl List.filter; simpl List.length.
          now rewrite Z.add_0_r.
      - destruct (purgeCi cluster (Framework ctx) (Username ctx) events)
          as [[e|] mid].
        + exists (Some e), mid. split; [reflexivity|].
          eexists. split; [right; eexists; reflexivity|].
          split; [split; discriminate|].
          rewrite <- Hrun. f_equal. unfold count; simpl List.filter; simpl List.length.
          unfold add64. symmetry. apply Int64Facts.wrap64_id.
          unfold in_int64, min_int64, max_int64 in *. lia.
        + exists None, mid. split; [reflexivity|].
          exists []. split; [now left|]. split; [tauto|].
          rewrite app_nil_r. unfold count; simpl List.filter; simpl List.length.
          now rewrite Z.add_0_r. }
    destruct Hstep as (err & mid & Hone & logged & Hshape & Herr & Hrest).
    assert (Hpurged : exists one,
              mid = events ++ one /\ purged_one (Opts_Stage ctx) err one).
    { destruct (Opts_Stage ctx);
        [eapply purgeStage_spec | eapply purgeCi_spec]; exact Hone. }
    destruct Hpurged as (one & -> & Hp).
    assert (Hlogged :
              count errorLogged logged = match err with Some _ => 1 | None => 0 end /\
              count callFailed logged = 0 /\
              count applicationsDeleted logged = 0 /\
              count signupDeleted logged = 0 /\
              count queriesDeleted logged = 0 /\
              count selectorsDeleted logged = 0).
    { destruct Hshape as [->|[message ->]].
      - destruct err as [e|]; [|unfold count; simpl; tauto].
        destruct Herr as [_ Herr]. specialize (Herr eq_refl). discriminate.
      - destruct err as [e|]; [unfold count; simpl; tauto|].
        destruct Herr as [Herr _]. specialize (Herr eq_refl). discriminate. }
    destruct Hlogged as (Hl1 & Hl2 & Hl3 & Hl4 & Hl5 & Hl6).
    apply IH in Hrest; [| rewrite Hl1; destruct err; lia
                        | rewrite Hl1; destruct err; lia].
    destruct Hrest as (new & -> & Hc & Hle & Hf & Ha & Hs & Hsq & Hq & Hall).
    exists (one ++ logged ++ new).
    rewrite <- !app_assoc. split; [reflexivity|].
    rewrite !count_app.
    destruct Hp as (Hp1 & Hp2 & Hp3 & Hp4 & Hp5 & Hp6 & Hp7).
    rewrite Hp1, Hp2, Hp3, Hp4, Hl1, Hl2, Hl3, Hl4, Hl5, Hl6.
    assert (Hstage : onStage (ctx :: rest) =
                     (if Opts_Stage ctx then 1 else 0) + onStage rest).
    { unfold onStage. simpl. destruct (Opts_Stage ctx); simpl; lia. }
    assert (Hci : onCi (ctx :: rest) =
                  (if Opts_Stage ctx then 0 else 1) + onCi rest).
    { unfold onCi. simpl. destruct (Opts_Stage ctx); simpl; lia. }
    rewrite Hstage, Hci.
    pose proof (count_nonneg errorLogged new) as Hn.
    pose proof (count_nonneg queriesDeleted one) as Hnq.
    pose proof (count_nonneg selectorsDeleted one) as Hns.
    simpl List.length. rewrite Nat2Z.inj_succ.
    assert (Hlast :
              0 + match err with Some _ => 1 | None => 0 end +
              count errorLogged new = 0 ->
              count queriesDeleted one + (0 + count queriesDeleted new) =
                (if Opts_Stage ctx then 1 else 0) + onStage rest /\
              count selectorsDeleted one + (0 + count selectorsDeleted new) =
                (if Opts_Stage ctx then 1 else 0) + onStage rest).
    { intros Hzero. destruct err as [e|]; [lia|].
      destruct (Hp7 eq_refl) as [Hq1 Hs1].
      destruct Hall as [Hq2 Hs2]; [lia|]. lia. }
    destruct err as [e|]; destruct (Opts_Stage ctx);
      (split; [lia|]); (split; [lia|]); (split; [lia|]); (split; [lia|]);
      (split; [lia|]); (split; [lia|]); (split; [lia|]); exact Hlast.
Qed.

(** X17: [Purge] reports how many contexts could not be purged.  The
    number in [Hit %d errors when purging resources] is the number of
    errors it has logged, which is the number of calls to the cluster
    that failed, at most one for a context; and [Purge] returns no error
    exactly when no call failed. *)
Theorem Purge_reports_failed_contexts (cluster : Cluster)
    (MainContexts : list MainContext) (events events' : list Event)
    (result : option string) :
  Z.of_nat (List.length MainContexts) <= max_int64 ->
  Purge cluster MainContexts events = (result, events') ->
  exists new,
    events' = events ++ new /\
    0 <= count callFailed new <= Z.of_nat (List.length MainContexts) /\
    count errorLogged new = count callFailed new /\
    (result = None <-> count callFailed new = 0) /\
    (0 < count callFailed new ->
     result = Some ("Hit " +:+ fmt_d (count callFailed new) +:+
                    " errors when purging resources")).
Proof.
  intros Hlen Hrun. unfold Purge in Hrun.
  destruct (purgeAll cluster MainContexts 0 events)
    as [errCounter mid] eqn:Hloop.
  apply purgeAll_spec in Hloop; [|lia|lia].
  destruct Hloop as (new & -> & Hc & Hle & Hf & _).
  rewrite Z.add_0_l in Hc. pose proof (count_nonneg errorLogged new) as Hn.
  destruct (Z.gtb_spec errCounter 0) as [Hpos|Hzero].
  - inversion Hrun; subst result events'. exists new.
    split; [reflexivity|]. rewrite Hf.
    split; [lia|]. split; [reflexivity|].
    split; [split; [discriminate | lia]|].
    intros _. now rewrite <- Hc.
  - inversion Hrun; subst result events'.
    exists (new ++ [Logged InfoLevel "No errors when purging resources"]).
    rewrite <- app_assoc. split; [reflexivity|].
    rewrite !count_app.
    replace (count callFailed
               [Logged InfoLevel "No errors when purging resources"])
      with 0 by reflexivity.
    replace (count errorLogged
               [Logged InfoLevel "No errors when purging resources"])
      with 0 by reflexivity.
    rewrite !Z.add_0_r, Hf.
    split; [lia|]. split; [reflexivity|].
    split; [split; [lia | reflexivity]|]. lia.
Qed.

Lemma Purge_reports_failed_contexts_witness :
  exists events,
    Purge (stuckNamespace "user1-tenant")
      [mkMainContext true 0%nat "user1-tenant" "user1";
       mkMainContext false 1%nat "user2-tenant" "user2";
       mkMainContext true 2%nat "user3-tenant" "user3"] [] =
      (Some "Hit 1 errors when purging resources", events) /\
    count errorLogged events = 1.
Proof.
  eexists. split; [vm_compute; reflexivity|].
  destruct (Purge_reports_failed_contexts (stuckNamespace "user1-tenant")
              [mkMainContext true 0%nat "user1-tenant" "user1";
               mkMainContext false 1%nat "user2-tenant" "user2";
               mkMainContext true 2%nat "user3-tenant" "user3"] [] _ _
              ltac:(unfold max_int64; simpl; lia)
              ltac:(vm_compute; reflexivity))
    as (new & Hnew & _ & Hcount & _).
  simpl in Hnew. rewrite <- Hnew in Hcount. rewrite Hcount.
  vm_compute. reflexivity.
Defined.

(** X18: a context whose purge fails does not keep [Purge] from the
    contexts after it.  For every context on Stage the deletion of the
    applications is attempted, for every other context the deletion of
    the user sign-up; component detection queries are deleted no more
    often than applications, and build pipeline selectors no more often
    than the queries; and when [Purge] returns no error, all three
    deletions were made for every context on Stage. *)
Theorem Purge_visits_every_context (cluster : Cluster)
    (MainContexts : list MainContext) (events events' : list Event)
    (result : option string) :
  Z.of_nat (List.length MainContexts) <= max_int64 ->
  Purge cluster MainContexts events = (result, events') ->
  exists new,
    events' = events ++ new /\
    count applicationsDeleted new = onStage MainContexts /\
    count signupDeleted new = onCi MainContexts /\
    count selectorsDeleted new <= count queriesDeleted new /\
    count queriesDeleted new <= count applicationsDeleted new /\
    (result = None ->
     count queriesDeleted new = onStage MainContexts /\
     count selectorsDeleted new = onStage MainContexts).
Proof.
  intros Hlen Hrun. unfold Purge in Hrun.
  destruct (purgeAll cluster MainContexts 0 events)
    as [errCounter mid] eqn:Hloop.
  apply purgeAll_spec in Hloop; [|lia|lia].
  destruct Hloop as (new & -> & Hc & _ & _ & Ha & Hs & Hsq & Hq & Hall).
  rewrite Z.add_0_l in Hc.
  destruct (Z.gtb_spec errCounter 0) as [Hpos|Hzero].
  - inversion Hrun; subst result events'. exists new.
    split; [reflexivity|]. rewrite Ha.
    split; [reflexivity|]. split; [exact Hs|]. split; [exact Hsq|].
    split; [exact Hq|]. discriminate.
  - inversion Hrun; subst result events'.
    exists (new ++ [Logged InfoLevel "No errors when purging resources"]).
    rewrite <- app_assoc. split; [reflexivity|].
    rewrite !count_app.
    replace (count applicationsDeleted
               [Logged InfoLevel "No errors when purging resources"])
      with 0 by reflexivity.
    replace (count signupDeleted
               [Logged InfoLevel "No errors when purging resources"])
      with 0 by reflexivity.
    replace (count queriesDeleted
               [Logged InfoLevel "No errors when purging resources"])
      with 0 by reflexivity.
    replace (count selectorsDeleted
               [Logged InfoLevel "No errors when purging resources"])
      with 0 by reflexivity.
    rewrite !Z.add_0_r, Ha.
    split; [reflexivity|]. split; [exact Hs|]. split; [exact Hsq|].
    split; [exact Hq|]. intros _. apply Hall.
    pose proof (count_nonneg errorLogged new). lia.
Qed.

Lemma Purge_visits_every_context_witness :
  exists events,
    Purge (stuckNamespace "user1-tenant")
      [mkMainContext true 0%nat "user1-tenant" "user1";
       mkMainContext false 1%nat "user2-tenant" "user2";
       mkMainContext true 2%nat "user3-tenant" "user3"] [] =
      (Some "Hit 1 errors when purging resources", events) /\
    count applicationsDeleted events = 2 /\
    count signupDeleted events = 1.
Proof.
  eexists. split; [vm_compute; reflexivity|].
  destruct (Purge_visits_every_context (stuckNamespace "user1-tenant")
              [mkMainContext true 0%nat "user1-tenant" "user1";
               mkMainContext false 1%nat "user2-tenant" "user2";
               mkMainContext true 2%nat "user3-tenant" "user3"] [] _ _
              ltac:(unfold max_int64; simpl; lia)
              ltac:(vm_compute; reflexivity))
    as (new & Hnew & Ha & Hs & _).
  simpl in Hnew. rewrite <- Hnew in Ha, Hs. rewrite Ha, Hs.
  vm_compute. split; reflexivity.
Defined.
